(** * FinStock-AI: the return histogram of [frontend/js/charts.js]

    A shallow embedding of [createOrUpdateReturnHistogram]: the bin count
    heuristic, the bin width, the bin edges and labels, and the assignment of
    every daily return to a bin, together with the guard and the chart
    handle the function manipulates.

    JavaScript numbers are IEEE-754 binary64 values: Rocq's primitive
    [float] type has exactly their arithmetic ([+], [-], [*], [/], [sqrt]
    rounded to nearest even) and their comparisons ([===] is [PrimFloat.eqb],
    [<] is [PrimFloat.ltb]).  The arithmetic of the binner is written once,
    against the interface [JSNumber] of the number operations the source
    uses, instantiated with binary64.

    [Math.floor] and [Math.ceil] return integer-valued numbers; every later
    operation on those results ([Math.min], [Math.max], [<], indexing) only
    depends on their integer value, so they are represented by [xint]:
    an integer, an infinity, or NaN. *)

From Stdlib Require Import ZArith Floats Uint63.
From Stdlib Require Import List String Bool Lia.
Import ListNotations.
Open Scope string_scope.

(** ** Integer-valued numbers *)

Inductive xint : Type :=
| XNaN
| XNegInf
| XPosInf
| XFin (z : Z).

Module XInt.

(** [Math.min(a, b)] on integer-valued numbers. *)
Definition min (a b : xint) : xint :=
  match a, b with
  | XNaN, _ | _, XNaN => XNaN
  | XNegInf, _ | _, XNegInf => XNegInf
  | XPosInf, x | x, XPosInf => x
  | XFin x, XFin y => XFin (Z.min x y)
  end.

(** [Math.max(a, b)] on integer-valued numbers. *)
Definition max (a b : xint) : xint :=
  match a, b with
  | XNaN, _ | _, XNaN => XNaN
  | XPosInf, _ | _, XPosInf => XPosInf
  | XNegInf, x | x, XNegInf => x
  | XFin x, XFin y => XFin (Z.max x y)
  end.

(** [a < b]; every comparison with NaN is false. *)
Definition ltb (a b : xint) : bool :=
  match a, b with
  | XNaN, _ | _, XNaN => false
  | XNegInf, XNegInf => false
  | XNegInf, _ => true
  | _, XNegInf => false
  | XPosInf, _ => false
  | XFin _, XPosInf => true
  | XFin x, XFin y => (x <? y)%Z
  end.

End XInt.

(** ** The number operations used by the binner *)

Class JSNumber (N : Type) := {
  js_add : N -> N -> N;          (* a + b *)
  js_sub : N -> N -> N;          (* a - b *)
  js_mul : N -> N -> N;          (* a * b *)
  js_div : N -> N -> N;          (* a / b *)
  js_eqb : N -> N -> bool;       (* a === b *)
  js_ltb : N -> N -> bool;       (* a < b *)
  js_min2 : N -> N -> N;         (* Math.min(a, b) *)
  js_max2 : N -> N -> N;         (* Math.max(a, b) *)
  js_floor : N -> xint;          (* Math.floor(a) *)
  js_of_Z : Z -> N               (* a small integer as a number *)
}.

(** *** binary64, the numbers of JavaScript *)

Module F.
Local Open Scope float_scope.

(** [Math.min(a, b)]: NaN if either is NaN, and -0 below +0. *)
Definition min2 (a b : float) : float :=
  if is_nan a || is_nan b then nan
  else if a <? b then a
  else if b <? a then b
  else if get_sign a then a else b.

(** [Math.max(a, b)]: NaN if either is NaN, and +0 above -0. *)
Definition max2 (a b : float) : float :=
  if is_nan a || is_nan b then nan
  else if a <? b then b
  else if b <? a then a
  else if get_sign a then b else a.

(** [Math.floor(a)], read through the exact value (-1)^s * m * 2^e:
    [Z.shiftl] by a negative amount is a flooring division by a power of 2. *)
Definition floor (x : float) : xint :=
  match Prim2SF x with
  | S754_nan => XNaN
  | S754_infinity s => if s then XNegInf else XPosInf
  | S754_zero _ => XFin 0
  | S754_finite s m e => XFin (Z.shiftl (if s then Zneg m else Zpos m) e)
  end.

(** [Math.ceil(a)] is [-Math.floor(-a)]. *)
Definition ceil (x : float) : xint :=
  match floor (- x) with
  | XNaN => XNaN
  | XNegInf => XPosInf
  | XPosInf => XNegInf
  | XFin z => XFin (- z)
  end.

(** An integer as a number (exact below 2^53 in absolute value). *)
Definition of_Z (z : Z) : float :=
  if (z <? 0)%Z then - of_uint63 (Uint63.of_Z (- z))
  else of_uint63 (Uint63.of_Z z).

End F.

#[global] Instance float_JSNumber : JSNumber float := {
  js_add := PrimFloat.add;
  js_sub := PrimFloat.sub;
  js_mul := PrimFloat.mul;
  js_div := PrimFloat.div;
  js_eqb := PrimFloat.eqb;
  js_ltb := PrimFloat.ltb;
  js_min2 := F.min2;
  js_max2 := F.max2;
  js_floor := F.floor;
  js_of_Z := F.of_Z
}.

(** ** The bin count

    [Math.min(20, Math.max(10, Math.ceil(Math.sqrt(dailyReturns.length) / 2)))],
    computed on binary64 from the length of the array. *)

Definition length_number (n : nat) : float :=
  of_uint63 (Uint63.of_Z (Z.of_nat n)).

Definition numBins_of (n : nat) : xint :=
  XInt.min (XFin 20)
    (XInt.max (XFin 10) (F.ceil (PrimFloat.div (PrimFloat.sqrt (length_number n)) 2%float))).

(** ** The binner *)

Record bin_edge (N : Type) := mk_edge { edge_start : N; edge_end : N }.
Arguments mk_edge {N} _ _.
Arguments edge_start {N} _.
Arguments edge_end {N} _.

(** The only exception the binner can raise: [Array(numBins)] with a
    [numBins] that is not a valid array length. *)
Inductive js_exn : Type := RangeError.

(** What the binner hands to the bar chart: [numBins], [binWidth], the
    [labels], the [bins] array (the dataset) and the [binEdges] of the
    tooltip.  An element of [bins] is [Some c] for the number [c] and [None]
    for a hole or NaN ([undefined + 1]). *)
Record hist_data (N : Type) := mk_hist {
  h_numBins : Z;
  h_binWidth : N;
  h_labels : list string;
  h_counts : list (option Z);
  h_edges : list (bin_edge N)
}.
Arguments mk_hist {N} _ _ _ _ _.
Arguments h_numBins {N} _.
Arguments h_binWidth {N} _.
Arguments h_labels {N} _.
Arguments h_counts {N} _.
Arguments h_edges {N} _.

(** [a[k] = f(a[k])] on an in-range index. *)
Fixpoint update_nth {A} (k : nat) (f : A -> A) (l : list A) : list A :=
  match l, k with
  | [], _ => []
  | x :: l', O => f x :: l'
  | x :: l', S k' => x :: update_nth k' f l'
  end.

(** [c + 1] on an element of [bins]: [undefined + 1] and [NaN + 1] are NaN. *)
Definition bump (c : option Z) : option Z :=
  match c with
  | Some k => Some (k + 1)%Z
  | None => None
  end.

(** [bins[k]++] on the array [bins].  A key that is not an array index
    (NaN, an infinity, a negative number) creates an ordinary property and
    leaves the elements alone; an index at or beyond the length extends the
    array with holes and stores NaN there. *)
Definition incr_at (bins : list (option Z)) (k : xint) : list (option Z) :=
  match k with
  | XFin z =>
      if (z <? 0)%Z then bins
      else if (z <? Z.of_nat (List.length bins))%Z then update_nth (Z.to_nat z) bump bins
      else (bins ++ repeat None (Z.to_nat z - List.length bins) ++ [None])%list
  | _ => bins
  end.

Section Binner.
Context {N : Type} `{JSNumber N}.

(** [Math.min(...dailyReturns)] and [Math.max(...dailyReturns)] on a
    non-empty array [r0 :: rs] ([Math.min(Infinity, r0)] is [r0]). *)
Definition math_min (r0 : N) (rs : list N) : N := fold_left js_min2 rs r0.
Definition math_max (r0 : N) (rs : list N) : N := fold_left js_max2 rs r0.

(** [range > 0 ? range / numBins : 1] *)
Definition bin_width (range : N) (nb : Z) : N :=
  if js_ltb (js_of_Z 0) range then js_div range (js_of_Z nb) else js_of_Z 1.

(** Iteration [i] of the edge loop: [binStart = minReturn + i * binWidth],
    [binEnd = (i === numBins - 1) ? maxReturn : binStart + binWidth]. *)
Definition bin_edge_at (minR maxR w : N) (nb : Z) (i : nat) : bin_edge N :=
  let binStart := js_add minR (js_mul (js_of_Z (Z.of_nat i)) w) in
  mk_edge binStart
    (if (Z.of_nat i =? nb - 1)%Z then maxR else js_add binStart w).

(** [for (let i = 0; i < numBins; i++) binEdges.push(...)] *)
Definition bin_edges (minR maxR w : N) (nb : Z) : list (bin_edge N) :=
  map (bin_edge_at minR maxR w nb) (seq 0 (Z.to_nat nb)).

(** [labels[i] = `${binStart.toFixed(2)}%`]; the decimal formatting
    [toFixed(2)] is a parameter. *)
Definition bin_labels (toFixed2 : N -> string) (edges : list (bin_edge N)) : list string :=
  map (fun e => (toFixed2 (edge_start e) ++ "%")%string) edges.

(** The body of [dailyReturns.forEach(ret => ...)]: the key whose element is
    incremented, or [None] when the callback returns without incrementing. *)
Definition bin_target (minR maxR w : N) (nb : Z) (ret : N) : option xint :=
  if js_eqb w (js_of_Z 0) then
    (if js_eqb ret minR then Some (XFin 0) else None)
  else
    let binIndex := js_floor (js_div (js_sub ret minR) w) in
    let binIndex := XInt.max (XFin 0) (XInt.min (XFin (nb - 1)) binIndex) in
    let binIndex :=
      if js_eqb ret maxR && XInt.ltb binIndex (XFin (nb - 1))
      then XFin (nb - 1) else binIndex in
    Some binIndex.

Definition count_step (minR maxR w : N) (nb : Z) (bins : list (option Z)) (ret : N)
  : list (option Z) :=
  match bin_target minR maxR w nb ret with
  | Some k => incr_at bins k
  | None => bins
  end.

(** [const bins = Array(numBins).fill(0)] followed by the [forEach]. *)
Definition bin_counts (minR maxR w : N) (nb : Z) (rets : list N) : list (option Z) :=
  fold_left (count_step minR maxR w nb) rets (repeat (Some 0%Z) (Z.to_nat nb)).

(** The binning part of [createOrUpdateReturnHistogram], on the non-empty
    array [r0 :: rs] that passed the guard. *)
Definition binning (toFixed2 : N -> string) (r0 : N) (rs : list N)
  : js_exn + hist_data N :=
  let dailyReturns := r0 :: rs in
  let minReturn := math_min r0 rs in
  let maxReturn := math_max r0 rs in
  match numBins_of (List.length dailyReturns) with
  | XFin nb =>
      if ((0 <=? nb) && (nb <? 2 ^ 32))%Z then
        let range := js_sub maxReturn minReturn in
        let binWidth := bin_width range nb in
        let binEdges := bin_edges minReturn maxReturn binWidth nb in
        inr (mk_hist nb binWidth (bin_labels toFixed2 binEdges)
               (bin_counts minReturn maxReturn binWidth nb dailyReturns) binEdges)
      else inl RangeError
  | _ => inl RangeError
  end.

End Binner.

(** ** The page state and [createOrUpdateReturnHistogram]

    The argument [dailyReturns] is [null]/[undefined] or an array. *)
Inductive returns_arg (N : Type) : Type :=
| Missing
| Arr (l : list N).
Arguments Missing {N}.
Arguments Arr {N} _.

(** What the function reads and writes: whether the canvas
    [#returnHistogramChart] exists, the message drawn on it, the global
    handle [histogramChart] (the data of the live chart), whether the
    [Chart] constructor succeeds, and the console. *)
Record page (N : Type) := mk_page {
  canvas_present : bool;
  canvas_text : option string;
  histogramChart : option (hist_data N);
  chart_ctor_ok : bool;
  console : list string
}.
Arguments mk_page {N} _ _ _ _ _.
Arguments canvas_present {N} _.
Arguments canvas_text {N} _.
Arguments histogramChart {N} _.
Arguments chart_ctor_ok {N} _.
Arguments console {N} _.

Definition log {N} (p : page N) (msg : string) : page N :=
  mk_page (canvas_present p) (canvas_text p) (histogramChart p) (chart_ctor_ok p)
    (console p ++ [msg]).

Definition set_text {N} (p : page N) (msg : option string) : page N :=
  mk_page (canvas_present p) msg (histogramChart p) (chart_ctor_ok p) (console p).

Definition set_chart {N} (p : page N) (c : option (hist_data N)) : page N :=
  mk_page (canvas_present p) (canvas_text p) c (chart_ctor_ok p) (console p).

(** [destroyHistogramChart()]: the handle is [null] afterwards, whether
    [destroy()] succeeds or throws. *)
Definition destroyHistogramChart {N} (p : page N) : page N :=
  match histogramChart p with
  | Some _ => set_chart (log p "Histogram chart destroyed.") None
  | None => p
  end.

(** [createOrUpdateReturnHistogram], with the inline binning code passed as
    [bin] (it is [binning toFixed2] in the source).  An exception of the
    binner propagates to the caller. *)
Definition create_or_update_with {N} (bin : N -> list N -> js_exn + hist_data N)
    (p : page N) (dailyReturns : returns_arg N) : js_exn + page N :=
  if negb (canvas_present p) then
    inr (log p "Canvas element #returnHistogramChart not found!")
  else
    let p := destroyHistogramChart p in
    match dailyReturns with
    | Missing | Arr [] =>
        let p := log p "No daily returns data available for histogram." in
        inr (set_text p (Some "No return data available."))
    | Arr (r0 :: rs) =>
        match bin r0 rs with
        | inl e => inl e
        | inr d =>
            if chart_ctor_ok p then
              inr (set_text (log (set_chart p (Some d)) "Return histogram created/updated.") None)
            else
              inr (set_text (log p "Error creating histogram.") (Some "Error creating histogram."))
        end
    end.

Definition createOrUpdateReturnHistogram {N} `{JSNumber N} (toFixed2 : N -> string)
    (p : page N) (dailyReturns : returns_arg N) : js_exn + page N :=
  create_or_update_with (binning toFixed2) p dailyReturns.

(** ** Samples the assignment loop does not count

    A sample is not counted when the zero-width branch returns without
    incrementing ([binWidth === 0] and [ret !== minReturn]), or when its
    index [Math.floor((ret - minReturn) / binWidth)] is NaN. *)
Definition dropped {N} `{JSNumber N} (minR w : N) (ret : N) : bool :=
  if js_eqb w (js_of_Z 0) then negb (js_eqb ret minR)
  else match js_floor (js_div (js_sub ret minR) w) with XNaN => true | _ => false end.

(** The sum of the numeric elements of [bins]. *)
Fixpoint total (l : list (option Z)) : Z :=
  match l with
  | [] => 0
  | Some c :: t => c + total t
  | None :: t => total t
  end.

(** ** The bin count of the specification

    [clamp(ceil(sqrt(n) / 2), 10, 20)] in exact integer arithmetic:
    [ceil(sqrt(n))] from the integer square root, and [ceil(x / 2)] of an
    integer [x] is [(x + 1) / 2] ([ceil_half_sqrt_spec] below shows that
    [ceil_half_sqrt n] is the ceiling of [sqrt(n) / 2]). *)
Definition ceil_sqrt (n : Z) : Z :=
  let r := Z.sqrt n in if (r * r =? n)%Z then r else (r + 1)%Z.
Definition ceil_half_sqrt (n : Z) : Z := ((ceil_sqrt n + 1) / 2)%Z.
Definition spec_numBins (n : Z) : Z := Z.min 20 (Z.max 10 (ceil_half_sqrt n)).

(** Equality of integer-valued numbers. *)
Definition xint_eqb (a b : xint) : bool :=
  match a, b with
  | XNaN, XNaN | XNegInf, XNegInf | XPosInf, XPosInf => true
  | XFin x, XFin y => (x =? y)%Z
  | _, _ => false
  end.

(** The bin count of the code agrees with the specification for every
    length in [[1, bound]]. *)
Definition numBins_table_ok (bound : nat) : bool :=
  forallb (fun k => xint_eqb (numBins_of k) (XFin (spec_numBins (Z.of_nat k)))) (seq 1 bound).

(** ** The price chart and [destroyAllCharts] *)

(** A point of [historicalData]: [point.date] and [point.close]. *)
Record price_point (N : Type) := mk_point { date : string; close : N }.
Arguments mk_point {N} _ _.
Arguments date {N} _.
Arguments close {N} _.

(** What the line chart is given: the [labels] and the dataset's [data]. *)
Record price_data (N : Type) := mk_price_data { p_labels : list string; p_data : list N }.
Arguments mk_price_data {N} _ _.
Arguments p_labels {N} _.
Arguments p_data {N} _.

(** What [createOrUpdatePriceChart] reads and writes: whether the canvas
    [#priceHistoryChart] exists, the message drawn on it, the global handle
    [priceChart], whether the [Chart] constructor succeeds, and the console. *)
Record price_page (N : Type) := mk_price_page {
  price_canvas_present : bool;
  price_canvas_text : option string;
  priceChart : option (price_data N);
  price_ctor_ok : bool;
  price_console : list string
}.
Arguments mk_price_page {N} _ _ _ _ _.
Arguments price_canvas_present {N} _.
Arguments price_canvas_text {N} _.
Arguments priceChart {N} _.
Arguments price_ctor_ok {N} _.
Arguments price_console {N} _.

Definition price_log {N} (p : price_page N) (msg : string) : price_page N :=
  mk_price_page (price_canvas_present p) (price_canvas_text p) (priceChart p) (price_ctor_ok p)
    (price_console p ++ [msg]).

Definition price_set_text {N} (p : price_page N) (msg : option string) : price_page N :=
  mk_price_page (price_canvas_present p) msg (priceChart p) (price_ctor_ok p) (price_console p).

Definition price_set_chart {N} (p : price_page N) (c : option (price_data N)) : price_page N :=
  mk_price_page (price_canvas_present p) (price_canvas_text p) c (price_ctor_ok p) (price_console p).

(** [destroyPriceChart()]: the handle is [null] afterwards, whether
    [destroy()] succeeds or throws. *)
Definition destroyPriceChart {N} (p : price_page N) : price_page N :=
  match priceChart p with
  | Some _ => price_set_chart (price_log p "Price chart destroyed.") None
  | None => p
  end.

(** [createOrUpdatePriceChart(historicalData)]; [historicalData] is
    [null]/[undefined] or an array of points. *)
Definition createOrUpdatePriceChart {N} (p : price_page N)
    (historicalData : returns_arg (price_point N)) : price_page N :=
  if negb (price_canvas_present p) then
    price_log p "Canvas element #priceHistoryChart not found!"
  else
    let p := destroyPriceChart p in
    match historicalData with
    | Missing | Arr [] =>
        let p := price_log p "No historical data available for price chart." in
        price_set_text p (Some "No historical data available.")
    | Arr pts =>
        let labels := map date pts in
        let dataPoints := map close pts in
        if price_ctor_ok p then
          price_set_text
            (price_log (price_set_chart p (Some (mk_price_data labels dataPoints)))
               "Price chart created/updated.") None
        else
          price_set_text (price_log p "Error creating price chart.")
            (Some "Error creating price chart.")
    end.

(** The two charts of the page and their handles.  Each canvas keeps the
    messages of its own chart. *)
Record charts (N : Type) := mk_charts { price_part : price_page N; hist_part : page N }.
Arguments mk_charts {N} _ _.
Arguments price_part {N} _.
Arguments hist_part {N} _.

(** [destroyAllCharts()]: [destroyPriceChart()], then [destroyHistogramChart()]. *)
Definition destroyAllCharts {N} (c : charts N) : charts N :=
  let c := mk_charts (destroyPriceChart (price_part c)) (hist_part c) in
  mk_charts (price_part c) (destroyHistogramChart (hist_part c)).

(** ** The callbacks of the bar chart *)

(** The tooltip title of the bar [dataIndex] (charts.js and ui.js):
    [binEdges[index]] is a record, hence truthy, whenever it exists;
    otherwise the item's own [label] is the title. *)
Definition tooltip_title {N} (toFixed2 : N -> string) (binEdges : list (bin_edge N))
    (dataIndex : nat) (label : string) : string :=
  match nth_error binEdges dataIndex with
  | Some e => (toFixed2 (edge_start e) ++ "% to " ++ toFixed2 (edge_end e) ++ "%")%string
  | None => label
  end.

(** [index % step === 0] for an integer [index] and an integer-valued
    [step]: NaN (for [step] NaN or 0) is equal to nothing, [index % ±Infinity]
    is [index], and otherwise the remainder has the sign of [index]. *)
Definition rem_is_zero (index : Z) (step : xint) : bool :=
  match step with
  | XNaN => false
  | XNegInf | XPosInf => (index =? 0)%Z
  | XFin s => if (s =? 0)%Z then false else (Z.rem index s =? 0)%Z
  end.

(** The x-axis tick callback of the ui.js histogram:
    [index % Math.ceil(numBins / 8) === 0 ? this.getLabelForValue(value) : ''],
    where [this.getLabelForValue(value)] is the label of the tick. *)
Definition tick_label (numBins : Z) (index : nat) (label : string) : string :=
  if rem_is_zero (Z.of_nat index) (F.ceil (PrimFloat.div (F.of_Z numBins) (F.of_Z 8)))
  then label else "".

(** ** The text helpers of [frontend/js/ui.js] *)

(** The values the helpers read from the JSON of the API (objects and
    arrays apart): [undefined] for a missing key, [null], booleans,
    numbers and strings. *)
Inductive jsval : Type :=
| JUndef
| JNull
| JBool (b : bool)
| JNum (x : float)
| JStr (s : string).

(** [!!v] *)
Definition truthy (v : jsval) : bool :=
  match v with
  | JUndef | JNull => false
  | JBool b => b
  | JNum x => negb (PrimFloat.is_nan x) && negb (PrimFloat.eqb x 0%float)
  | JStr s => negb (String.eqb s "")
  end.

(** [a || b] *)
Definition js_or (a b : jsval) : jsval := if truthy a then a else b.

(** [a ?? b] *)
Definition js_nullish (a b : jsval) : jsval :=
  match a with
  | JUndef | JNull => b
  | _ => a
  end.

(** [v === s] for a string [s]. *)
Definition is_str (v : jsval) (s : string) : bool :=
  match v with
  | JStr t => String.eqb t s
  | _ => false
  end.

(** [s.includes(sub)] *)
Fixpoint includes (s sub : string) : bool :=
  String.prefix sub s ||
  match s with
  | EmptyString => false
  | String _ s' => includes s' sub
  end.

(** An element of the document: its [id], [textContent], class list and
    [data-tab] attribute. *)
Record element := mk_el {
  el_id : string;
  el_text : string;
  el_classes : list string;
  el_tab : option string
}.

Definition set_el_text (t : string) (e : element) : element :=
  mk_el (el_id e) t (el_classes e) (el_tab e).

Definition map_classes (f : list string -> list string) (e : element) : element :=
  mk_el (el_id e) (el_text e) (f (el_classes e)) (el_tab e).

(** The document, in document order, and the console. *)
Record ui_state := mk_ui { doc : list element; ui_console : list string }.

Fixpoint find_index {A} (f : A -> bool) (l : list A) : option nat :=
  match l with
  | [] => None
  | x :: t => if f x then Some O else option_map S (find_index f t)
  end.

(** [document.getElementById(id)]: the position of the first element whose
    id is [id]; no element has the empty id. *)
Definition getElementById (d : list element) (id : string) : option nat :=
  if String.eqb id "" then None else find_index (fun e => String.eqb (el_id e) id) d.

(** A class list is an ordered set: [classList.remove] and [classList.add]
    parse it (each class once, at its first occurrence), change the set and
    write it back. *)
Fixpoint class_set (l : list string) : list string :=
  match l with
  | [] => []
  | c :: t => c :: filter (fun c' => negb (String.eqb c c')) (class_set t)
  end.

Definition class_remove (ts : list string) (l : list string) : list string :=
  filter (fun c => negb (existsb (String.eqb c) ts)) (class_set l).

Definition class_add (t : string) (l : list string) : list string :=
  let s := class_set l in
  if existsb (String.eqb t) s then s else (s ++ [t])%list.

Definition sentiment_classes : list string := ["text-green"; "text-red"; "text-neutral"].

(** The currency prefix as it is written in [updateText]. *)
Definition rupee_prefix : string := "â‚¹".

Section UI.

(** The number formatting and parsing of the runtime:
    [x.toLocaleString('en-IN', {minimumFractionDigits: 2, maximumFractionDigits: 2})],
    [x.toFixed(2)],
    [x.toLocaleString(undefined, {minimumFractionDigits: 2, maximumFractionDigits: 4})],
    [String(x)] for a number and [Number(s)] for a string. *)
Variable toLocaleINR2 : float -> string.
Variable toFixed2 : float -> string.
Variable toLocaleGeneral : float -> string.
Variable number_to_string : float -> string.
Variable string_to_number : string -> float.

(** [String(v)], as in a template literal. *)
Definition js_to_string (v : jsval) : string :=
  match v with
  | JUndef => "undefined"
  | JNull => "null"
  | JBool b => if b then "true" else "false"
  | JNum x => number_to_string x
  | JStr s => s
  end.

(** [Number(v)], as in [a - b]. *)
Definition js_to_number (v : jsval) : float :=
  match v with
  | JUndef => nan
  | JNull => 0%float
  | JBool b => if b then 1%float else 0%float
  | JNum x => x
  | JStr s => string_to_number s
  end.

(** The text [updateText] writes into the element [elementId]. *)
Definition text_content (elementId : string) (text : jsval) (defaultValue : string) : string :=
  match text with
  | JNull | JUndef => defaultValue
  | JNum x =>
      if negb (PrimFloat.is_finite x) then defaultValue
      else if includes elementId "price" || includes elementId "value" ||
              includes elementId "mean" || includes elementId "median"
      then (rupee_prefix ++ toLocaleINR2 x)%string
      else if includes elementId "percent" || includes elementId "probability" ||
              includes elementId "prob_" || includes elementId "return" ||
              includes elementId "streak"
      then (toFixed2 x ++ "%")%string
      else toLocaleGeneral x
  | _ => js_to_string text
  end.

(** [updateText(elementId, text, defaultValue)] *)
Definition updateText (s : ui_state) (elementId : string) (text : jsval)
    (defaultValue : string) : ui_state :=
  match getElementById (doc s) elementId with
  | Some k =>
      mk_ui (update_nth k (set_el_text (text_content elementId text defaultValue)) (doc s))
        (ui_console s)
  | None => mk_ui (doc s) (ui_console s ++ [("UI Element not found: " ++ elementId)%string])%list
  end.

(** [updateSentiment(elementId, sentiment)] *)
Definition updateSentiment (s : ui_state) (elementId : string) (sentiment : jsval) : ui_state :=
  match getElementById (doc s) elementId with
  | None => s
  | Some k =>
      let effectiveSentiment := js_nullish sentiment (JStr "Neutral") in
      let cls :=
        if is_str effectiveSentiment "Positive" then "text-green"
        else if is_str effectiveSentiment "Negative" then "text-red"
        else "text-neutral" in
      mk_ui (update_nth k (fun e =>
               map_classes (fun l => class_add cls (class_remove sentiment_classes l))
                 (set_el_text (js_to_string effectiveSentiment) e)) (doc s))
        (ui_console s)
  end.

(** The text and the class of [#stock-change-header] for a current price
    and a previous close that are both truthy. *)
Definition change_text (currentPrice previousClose : jsval) : string :=
  let change := PrimFloat.sub (js_to_number currentPrice) (js_to_number previousClose) in
  let changePercent := PrimFloat.mul (PrimFloat.div change (js_to_number previousClose)) 100%float in
  let sign := if PrimFloat.ltb 0%float change then "+" else "" in
  (sign ++ toFixed2 change ++ " (" ++ sign ++ toFixed2 changePercent ++ "%)")%string.

Definition change_class (currentPrice previousClose : jsval) : string :=
  let change := PrimFloat.sub (js_to_number currentPrice) (js_to_number previousClose) in
  if PrimFloat.ltb 0%float change then "text-green"
  else if PrimFloat.ltb change 0%float then "text-red"
  else "text-neutral".

(** [updateStockInfo(stockInfo)]; [stockInfo] maps a key to its value. *)
Definition updateStockInfo (s : ui_state) (stockInfo : string -> jsval) : ui_state :=
  let s := updateText s "stock-name-header" (js_or (stockInfo "longName") (stockInfo "shortName")) "N/A" in
  let s := updateText s "stock-symbol-header" (stockInfo "symbol") "-" in
  let s := updateText s "stock-price-header" (stockInfo "currentPrice") "-" in
  let s := updateText s "stock-sector-industry"
             (JStr (js_to_string (js_or (stockInfo "sector") (JStr "N/A")) ++ " | " ++
                    js_to_string (js_or (stockInfo "industry") (JStr "N/A")))) "-" in
  match getElementById (doc s) "stock-change-header" with
  | Some k =>
      if truthy (stockInfo "currentPrice") && truthy (stockInfo "previousClose") then
        let cp := stockInfo "currentPrice" in
        let pc := stockInfo "previousClose" in
        mk_ui (update_nth k (fun e =>
                 map_classes (fun l => class_add (change_class cp pc) (class_remove sentiment_classes l))
                   (set_el_text (change_text cp pc) e)) (doc s))
          (ui_console s)
      else mk_ui (update_nth k (set_el_text "") (doc s)) (ui_console s)
  | None => s
  end.

(** The calls of [updateStatistics(statistics)], in order: element id and key. *)
Definition stat_fields : list (string * string) :=
  [("stat-start-date", "start_date"); ("stat-end-date", "end_date");
   ("stat-mean", "mean"); ("stat-median", "median");
   ("stat-std_deviation", "std_deviation"); ("stat-variance", "variance");
   ("stat-skewness", "skewness"); ("stat-kurtosis", "kurtosis");
   ("stat-probability_next_day_up", "probability_next_day_up");
   ("stat-probability_next_day_down", "probability_next_day_down");
   ("stat-mean_daily_return_percent", "mean_daily_return_percent");
   ("stat-std_dev_daily_return_percent", "std_dev_daily_return_percent");
   ("stat-cond_prob_up_given_up", "cond_prob_up_given_up");
   ("stat-cond_prob_down_given_down", "cond_prob_down_given_down");
   ("stat-prob_2_days_up_streak", "prob_2_days_up_streak");
   ("stat-prob_2_days_down_streak", "prob_2_days_down_streak")].

(** One iteration of [updateStatistics]:
    [updateText(id, statistics?.[key], '-')]. *)
Definition stat_step (statistics : string -> jsval) (s : ui_state) (f : string * string) : ui_state :=
  let '(id, key) := f in updateText s id (statistics key) "-".

(** [updateStatistics(statistics)] *)
Definition updateStatistics (s : ui_state) (statistics : string -> jsval) : ui_state :=
  fold_left (stat_step statistics) stat_fields s.

(** [updateIntradayWidget(intradayData)]; [None] is a falsy argument.
    [intradayData.probability?.toFixed(2)] throws a [TypeError] when the
    probability is neither a number nor [null]/[undefined]; the state
    reached when it throws is returned with it. *)
Inductive ui_exn : Type := TypeError.

Definition updateIntradayWidget (s : ui_state) (intradayData : option (string -> jsval))
    : (ui_exn * ui_state) + ui_state :=
  match intradayData with
  | None => inr s
  | Some d =>
      let s := mk_ui (doc s) (ui_console s ++ ["Updating intraday widget with new data:"])%list in
      let prob :=
        match d "probability" with
        | JUndef | JNull => inr JUndef
        | JNum x => inr (JStr (toFixed2 x))
        | _ => inl TypeError
        end in
      match prob with
      | inl e => inl (e, s)
      | inr pv =>
          let s := updateText s "pred-intraday-match"
                     (JStr ("Matches: " ++ js_to_string (js_or (d "similar_pattern_found") (JStr "N/A")) ++
                            " (Prob: " ++ js_to_string (js_or pv (JStr "N/A")) ++ ")")) "-" in
          inr (updateText s "pred-intraday-pred" (js_or (d "prediction") (JStr "No prediction")) "-")
      end
  end.

End UI.

(** [document.getElementById(button.dataset.tab)]'s argument. *)
Definition dataset_tab (d : list element) (button : nat) : string :=
  match nth_error d button with
  | Some e => match el_tab e with Some t => t | None => "undefined" end
  | None => "undefined"
  end.

(** The click handler [setupTabs] attaches to a tab button, for the static
    lists [tabButtons] and [tabContents] (positions in the document) and the
    clicked [button]; [button.dataset.tab] is [undefined] without a
    [data-tab] attribute, and [getElementById(undefined)] looks up the id
    ["undefined"]. *)
Definition tab_click (tabButtons tabContents : list nat) (button : nat)
    (d : list element) : list element :=
  let d := fold_left (fun d b => update_nth b (map_classes (class_remove ["active"])) d) tabButtons d in
  let d := fold_left (fun d c => update_nth c (map_classes (class_remove ["active"])) d) tabContents d in
  let d := update_nth button (map_classes (class_add "active")) d in
  match getElementById d (dataset_tab d button) with
  | Some t => update_nth t (map_classes (class_add "active")) d
  | None => d
  end.

(** ** Helpers of the proofs about the user interface *)

(** The labelled ticks of the ui.js histogram, for every bin count of the binner. *)
Definition ticks_shown (nb : Z) : list nat :=
  filter (fun i => rem_is_zero (Z.of_nat i) (F.ceil (PrimFloat.div (F.of_Z nb) (F.of_Z 8))))
    (seq 0 (Z.to_nat nb)).

Definition ticks_ok (nb : Z) : bool :=
  let sh := ticks_shown nb in
  (5 <=? List.length sh)%nat && (List.length sh <=? 8)%nat && existsb (Nat.eqb 0) sh &&
  forallb (fun i => negb (existsb (Nat.eqb (S i)) sh)) sh.

(** No element at position [q] has the class [active]. *)
Definition no_active (d : list element) (q : nat) : Prop :=
  forall e, nth_error d q = Some e -> ~ In "active" (el_classes e).

Definition remove_active : element -> element := map_classes (class_remove ["active"]).

(** The ids and [data-tab] attributes of the document, which the class
    changes leave alone. *)
Definition id_tabs (d : list element) : list (string * option string) :=
  map (fun e => (el_id e, el_tab e)) d.

(** * Proofs *)

Module FloatFacts.

(** Results of a rounding with a non-negative mantissa: never NaN, never
    negative. *)
Definition pos_sf (x : spec_float) : Prop :=
  match x with
  | S754_zero _ => True
  | S754_infinity false => True
  | S754_finite false _ _ => True
  | _ => False
  end.

(** A finite number that is not negative: a signed zero or a positive
    finite value. *)
Definition nonneg_fin (w : spec_float) : Prop :=
  match w with
  | S754_zero _ => True
  | S754_finite false _ _ => True
  | _ => False
  end.

Lemma shr_1_nonneg r : (0 <= shr_m r)%Z -> (0 <= shr_m (shr_1 r))%Z.
Proof.
  destruct r as [m rr s]; simpl; intro Hm.
  destruct m as [|p|p]; [simpl; lia| |lia].
  destruct p; simpl; lia.
Qed.

Lemma iter_shr_1_nonneg p : forall r, (0 <= shr_m r)%Z -> (0 <= shr_m (SpecFloat.iter_pos shr_1 p r))%Z.
Proof.
  induction p; intros r Hr; simpl; auto using shr_1_nonneg.
Qed.

Lemma shr_fexp_nonneg m e l : (0 <= m)%Z -> (0 <= shr_m (fst (shr_fexp prec emax m e l)))%Z.
Proof.
  intros Hm. unfold shr_fexp, shr.
  destruct (_ - e)%Z; simpl;
    try (apply iter_shr_1_nonneg);
    destruct l as [|[]]; simpl; exact Hm.
Qed.

Lemma round_nearest_even_nonneg m l : (0 <= m)%Z -> (0 <= round_nearest_even m l)%Z.
Proof.
  destruct l as [|[]]; simpl; try destruct (Z.even m); lia.
Qed.

Lemma round_aux_pos mx ex lx : (0 <= mx)%Z -> pos_sf (binary_round_aux prec emax false mx ex lx).
Proof.
  intros Hm. unfold binary_round_aux.
  pose proof (shr_fexp_nonneg mx ex lx Hm) as H1.
  destruct (shr_fexp prec emax mx ex lx) as [r1 e1]. simpl in H1.
  pose proof (shr_fexp_nonneg (round_nearest_even (shr_m r1) (loc_of_shr_record r1)) e1 loc_Exact
                (round_nearest_even_nonneg _ _ H1)) as H2.
  destruct (shr_fexp prec emax _ e1 loc_Exact) as [r2 e2]. simpl in H2.
  destruct (shr_m r2); simpl; try lia; trivial.
  all: destruct (e2 <=? _)%Z; simpl; trivial.
Qed.

Lemma of_uint63_pos i : pos_sf (Prim2SF (of_uint63 i)).
Proof.
  rewrite FloatAxioms.of_uint63_spec. unfold binary_normalize.
  destruct (Uint63.to_Z i) eqn:E; simpl; trivial.
  - unfold binary_round. destruct (shl_align _ _ _). apply round_aux_pos. lia.
  - pose proof (Uint63.to_Z_bounded i). lia.
Qed.

Lemma sqrt_pos x : pos_sf (Prim2SF x) -> pos_sf (Prim2SF (PrimFloat.sqrt x)).
Proof.
  rewrite FloatAxioms.sqrt_spec. unfold SF64sqrt, SFsqrt.
  destruct (Prim2SF x) as [[]|[]| |[] m e]; simpl; intros H; trivial; try contradiction.
  unfold SFsqrt_core_binary.
  match goal with |- context [Z.sqrtrem ?a] =>
    pose proof (Z.sqrtrem_sqrt a) as Hs; destruct (Z.sqrtrem a) as [q r] end.
  simpl in Hs. subst q. apply round_aux_pos, Z.sqrt_nonneg.
Qed.

Lemma div_pos x y : pos_sf (Prim2SF x) -> Prim2SF y = S754_finite false 4503599627370496 (-51) ->
  pos_sf (Prim2SF (PrimFloat.div x y)).
Proof.
  rewrite FloatAxioms.div_spec. intros Hx ->. unfold SF64div, SFdiv.
  destruct (Prim2SF x) as [[]|[]| |[] m e]; simpl in *; trivial; try contradiction.
  unfold SFdiv_core_binary.
  match goal with |- context [Z.div_eucl ?a ?b] =>
    pose proof (Z_div_mod a b) as Hd; destruct (Z.div_eucl a b) as [q r] end.
  apply round_aux_pos.
  match type of Hd with ?P -> _ => assert (HP : P) by lia end.
  specialize (Hd HP). destruct Hd as [Hd Hr].
  match type of Hd with ?a = _ => assert (0 <= a)%Z end.
  { destruct (_ - _ - _)%Z; [lia| |lia]. apply Z.shiftl_nonneg. lia. }
  nia.
Qed.

End FloatFacts.

(** ** Lower bounds through the rounding of [Math.sqrt(n) / 2]

    For a length of at least 4096 the square root is at least 64 and its
    half at least 32, so the bin count is 20.  A result of [binary_round_aux]
    in the normal range is at least [2^(D-1)], where [D] is the number of
    binary digits of the exact value above the binary point. *)
Module Rnd.

Lemma digits2_pos_bounds p :
  (2 ^ (Z.pos (digits2_pos p) - 1) <= Z.pos p < 2 ^ Z.pos (digits2_pos p))%Z.
Proof.
  induction p as [p IH|p IH|].
  3: { simpl. lia. }
  all: change (digits2_pos _) with (Pos.succ (digits2_pos p)); rewrite Pos2Z.inj_succ.
  all: pose proof (Pos2Z.is_pos (digits2_pos p)) as Hd.
  all: generalize dependent (Z.pos (digits2_pos p)); intros d IH Hd.
  all: replace (Z.succ d - 1)%Z with d by lia.
  all: rewrite Z.pow_succ_r by lia.
  all: assert (E : (2 ^ d = 2 * 2 ^ (d - 1))%Z)
         by (rewrite <- Z.pow_succ_r by lia; f_equal; lia).
  all: rewrite E in *.
  all: generalize dependent (2 ^ (d - 1))%Z; intros t.
  all: first [rewrite (Pos2Z.inj_xI p) | rewrite (Pos2Z.inj_xO p)].
  all: lia.
Qed.

Lemma digits_bounds m : (0 < m)%Z -> (2 ^ (Zdigits2 m - 1) <= m < 2 ^ Zdigits2 m)%Z.
Proof. destruct m as [|p|p]; try lia. intros _. apply digits2_pos_bounds. Qed.

Lemma digits_pos m : (0 < m)%Z -> (1 <= Zdigits2 m)%Z.
Proof. destruct m; simpl; lia. Qed.

Lemma digits_ge m a : (0 < m)%Z -> (0 <= a)%Z -> (2 ^ a <= m)%Z -> (a + 1 <= Zdigits2 m)%Z.
Proof.
  intros Hm Ha Hle. destruct (digits_bounds m Hm) as [_ Hlt].
  destruct (Z.le_gt_cases (a + 1) (Zdigits2 m)) as [|Hg]; auto.
  assert (2 ^ Zdigits2 m <= 2 ^ a)%Z by (apply Z.pow_le_mono_r; lia). lia.
Qed.

Lemma digits_le m a : (0 < m)%Z -> (0 <= a)%Z -> (m < 2 ^ a)%Z -> (Zdigits2 m <= a)%Z.
Proof.
  intros Hm Ha Hlt. pose proof (digits_pos m Hm). destruct (digits_bounds m Hm) as [Hle _].
  destruct (Z.le_gt_cases (Zdigits2 m) a) as [|Hg]; auto.
  assert (2 ^ a <= 2 ^ (Zdigits2 m - 1))%Z by (apply Z.pow_le_mono_r; lia). lia.
Qed.

Lemma shr_1_div r : (0 <= shr_m r)%Z -> shr_m (shr_1 r) = (shr_m r / 2)%Z.
Proof.
  destruct r as [m rr s]; simpl; intro Hm.
  destruct m as [|p|p]; [reflexivity| |lia].
  destruct p as [p|p|]; simpl; [| |reflexivity];
    [apply (Z.div_unique _ _ _ 1) | apply (Z.div_unique _ _ _ 0)]; lia.
Qed.

Lemma iter_shr_1_div p : forall r, (0 <= shr_m r)%Z ->
  shr_m (SpecFloat.iter_pos shr_1 p r) = (shr_m r / 2 ^ Z.pos p)%Z.
Proof.
  induction p as [p IH|p IH|]; intros r Hr; cbn [SpecFloat.iter_pos].
  - assert (Hp : (0 < 2 ^ Z.pos p)%Z) by (apply Z.pow_pos_nonneg; lia).
    assert (H1 : (0 <= shr_m (shr_1 r))%Z) by (rewrite shr_1_div by auto; apply Z.div_pos; lia).
    assert (H2 : (0 <= shr_m (SpecFloat.iter_pos shr_1 p (shr_1 r)))%Z)
      by (rewrite IH by auto; apply Z.div_pos; lia).
    rewrite IH by auto. rewrite IH by auto. rewrite shr_1_div by auto.
    rewrite !Z.div_div by lia. f_equal.
    rewrite (Pos2Z.inj_xI p).
    replace (2 * Z.pos p + 1)%Z with (Z.pos p + Z.pos p + 1)%Z by lia.
    rewrite !Z.pow_add_r by lia. rewrite Z.pow_1_r. ring.
  - assert (Hp : (0 < 2 ^ Z.pos p)%Z) by (apply Z.pow_pos_nonneg; lia).
    assert (H2 : (0 <= shr_m (SpecFloat.iter_pos shr_1 p r))%Z)
      by (rewrite IH by auto; apply Z.div_pos; lia).
    rewrite IH by auto. rewrite IH by auto.
    rewrite Z.div_div by lia. f_equal.
    rewrite (Pos2Z.inj_xO p).
    replace (2 * Z.pos p)%Z with (Z.pos p + Z.pos p)%Z by lia.
    rewrite Z.pow_add_r by lia. ring.
  - apply shr_1_div; auto.
Qed.

Lemma shr_fexp_spec m e l : (0 <= m)%Z ->
  let D := (Zdigits2 m + e)%Z in
  snd (shr_fexp prec emax m e l) = Z.max e (fexp prec emax D) /\
  shr_m (fst (shr_fexp prec emax m e l)) = (m / 2 ^ (Z.max e (fexp prec emax D) - e))%Z.
Proof.
  intros Hm D. unfold shr_fexp, shr. fold D.
  assert (Hl : shr_m (shr_record_of_loc m l) = m) by (destruct l as [|[]]; reflexivity).
  destruct (fexp prec emax D - e)%Z eqn:E; simpl.
  - split; [lia|]. rewrite Hl. replace (Z.max e _ - e)%Z with 0%Z by lia.
    rewrite Z.pow_0_r, Z.div_1_r. reflexivity.
  - split; [lia|]. rewrite iter_shr_1_div; rewrite Hl; auto.
    replace (Z.max e _ - e)%Z with (Z.pos p) by lia. reflexivity.
  - split; [lia|]. rewrite Hl. replace (Z.max e _ - e)%Z with 0%Z by lia.
    rewrite Z.pow_0_r, Z.div_1_r. reflexivity.
Qed.

Lemma fexp_eq x : fexp prec emax x = Z.max (x - 53) (-1074).
Proof. reflexivity. Qed.

Lemma round_nearest_even_bounds m l : (m <= round_nearest_even m l <= m + 1)%Z.
Proof. destruct l as [|[]]; simpl; try destruct (Z.even m); lia. Qed.

(** A rounding in the normal range returns a finite positive number
    whose exponent is at least [D - 53], where [D] is the number of
    digits of the exact value above the binary point. *)
Lemma round_aux_normal mx ex lx :
  (0 < mx)%Z -> (1 <= Zdigits2 mx + ex <= 900)%Z -> (ex <= 900)%Z ->
  exists m e, binary_round_aux prec emax false mx ex lx = S754_finite false m e /\
    (Zdigits2 mx + ex - 53 <= e <= Z.max ex (Zdigits2 mx + ex - 53) + 1)%Z.
Proof.
  intros Hm HD Hex. unfold binary_round_aux.
  destruct (shr_fexp_spec mx ex lx ltac:(lia)) as [He1 Hm1].
  destruct (shr_fexp prec emax mx ex lx) as [r1 e1] eqn:E1. simpl in He1, Hm1.
  rewrite fexp_eq in He1, Hm1.
  set (D := (Zdigits2 mx + ex)%Z) in *.
  destruct (digits_bounds mx Hm) as [Hlo Hhi].
  (* the mantissa after the first shift has between 1 and 53 digits *)
  assert (Hr1 : (1 <= shr_m r1 < 2 ^ 53)%Z).
  { rewrite Hm1. replace (Z.max (D - 53) (-1074)) with (D - 53)%Z by lia.
    destruct (Z.le_gt_cases (D - 53) ex) as [Hc|Hc].
    - replace (Z.max ex (D - 53) - ex)%Z with 0%Z by lia. rewrite Z.pow_0_r, Z.div_1_r.
      split; [lia|]. eapply Z.lt_le_trans; [exact Hhi|]. apply Z.pow_le_mono_r; lia.
    - replace (Z.max ex (D - 53) - ex)%Z with (Zdigits2 mx - 53)%Z by lia.
      assert (Hp : (2 ^ (Zdigits2 mx - 1) = 2 ^ 52 * 2 ^ (Zdigits2 mx - 53))%Z)
        by (rewrite <- Z.pow_add_r by lia; f_equal; lia).
      assert (Hq : (2 ^ Zdigits2 mx = 2 ^ 53 * 2 ^ (Zdigits2 mx - 53))%Z)
        by (rewrite <- Z.pow_add_r by lia; f_equal; lia).
      assert (0 < 2 ^ (Zdigits2 mx - 53))%Z by (apply Z.pow_pos_nonneg; lia).
      split.
      + apply Z.div_le_lower_bound; lia.
      + apply Z.div_lt_upper_bound; lia. }
  pose proof (round_nearest_even_bounds (shr_m r1) (loc_of_shr_record r1)) as Hrn.
  set (m2 := round_nearest_even (shr_m r1) (loc_of_shr_record r1)) in *.
  destruct (shr_fexp_spec m2 e1 loc_Exact ltac:(lia)) as [He2 Hm2].
  destruct (shr_fexp prec emax m2 e1 loc_Exact) as [r2 e2] eqn:E2. simpl in He2, Hm2.
  rewrite fexp_eq in He2, Hm2.
  assert (Hd2 : (1 <= Zdigits2 m2 <= 54)%Z).
  { split; [apply digits_pos; lia|]. apply digits_le; lia. }
  destruct (digits_bounds m2 ltac:(lia)) as [Hlo2 Hhi2].
  assert (Hr2 : (1 <= shr_m r2)%Z).
  { rewrite Hm2.
    destruct (Z.le_gt_cases (Z.max (Zdigits2 m2 + e1 - 53) (-1074)) e1) as [Hc|Hc].
    - replace (Z.max e1 _ - e1)%Z with 0%Z by lia. rewrite Z.pow_0_r, Z.div_1_r. lia.
    - replace (Z.max e1 _ - e1)%Z with (Zdigits2 m2 - 53)%Z by lia.
      apply Z.div_le_lower_bound; [apply Z.pow_pos_nonneg; lia|].
      rewrite Z.mul_1_r. eapply Z.le_trans; [|exact Hlo2]. apply Z.pow_le_mono_r; lia. }
  destruct (shr_m r2) as [|p|p] eqn:Ep; try lia.
  replace (e2 <=? emax - prec)%Z with true by (unfold emax, prec; lia).
  exists p, e2. split; [reflexivity|]. lia.
Qed.


(** A valid normal binary64 mantissa has 53 digits. *)
Lemma valid_mant s m e :
  (-1074 < e)%Z -> FloatAxioms.valid_binary (S754_finite s m e) = true ->
  (2 ^ 52 <= Z.pos m < 2 ^ 53 /\ e <= 971)%Z.
Proof.
  intros He Hv. unfold valid_binary, bounded, canonical_mantissa in Hv.
  apply andb_prop in Hv as [Hc Hb]. apply Z.eqb_eq in Hc. apply Z.leb_le in Hb.
  rewrite fexp_eq in Hc. pose proof (digits2_pos_bounds m) as Hd.
  replace (Z.pos (digits2_pos m)) with 53%Z in Hd by lia.
  unfold emax, prec in Hb. simpl in Hd. lia.
Qed.

Lemma Prim2SF_mant x s m e :
  Prim2SF x = S754_finite s m e -> (-1074 < e)%Z -> (2 ^ 52 <= Z.pos m < 2 ^ 53 /\ e <= 971)%Z.
Proof.
  intros Hx He. apply (valid_mant s m e He). rewrite <- Hx. apply FloatAxioms.Prim2SF_valid.
Qed.

Lemma iter_xO p d : Z.pos (Pos.iter xO p d) = (Z.pos p * 2 ^ Z.pos d)%Z.
Proof.
  induction d as [|d IH] using Pos.peano_ind.
  - simpl. lia.
  - rewrite Pos.iter_succ, Pos2Z.inj_xO, IH, Pos2Z.inj_succ, Z.pow_succ_r by lia. ring.
Qed.

(** [dailyReturns.length] as a number, for a length in [[4096, 2^32)]. *)
Lemma of_uint63_big n :
  (4096 <= n < 2 ^ 32)%Z ->
  exists m e, Prim2SF (of_uint63 (Uint63.of_Z n)) = S754_finite false m e /\ (-40 <= e <= 1)%Z.
Proof.
  intros Hn. rewrite FloatAxioms.of_uint63_spec, Uint63.of_Z_spec.
  rewrite Z.mod_small by (unfold wB, size; simpl; lia).
  destruct n as [|p|p]; try lia. unfold binary_normalize, binary_round.
  pose proof (digits2_pos_bounds p) as Hb.
  set (dp := Z.pos (digits2_pos p)) in *.
  assert (Hdp : (13 <= dp <= 32)%Z).
  { split.
    - apply (digits_ge (Z.pos p) 12); lia.
    - apply (digits_le (Z.pos p) 32); lia. }
  unfold shl_align. rewrite fexp_eq.
  destruct (Z.max (dp + 0 - 53) (-1074) - 0)%Z as [|d|d] eqn:E; try lia.
  replace (Z.max (dp + 0 - 53) (-1074)) with (dp - 53)%Z by lia.
  assert (Hd : Z.pos d = (53 - dp)%Z) by lia.
  assert (Hmz : (2 ^ 52 <= Z.pos (Pos.iter xO p d) < 2 ^ 53)%Z).
  { rewrite iter_xO, Hd.
    replace (2 ^ 52)%Z with (2 ^ (dp - 1) * 2 ^ (53 - dp))%Z
      by (rewrite <- Z.pow_add_r by lia; f_equal; lia).
    replace (2 ^ 53)%Z with (2 ^ dp * 2 ^ (53 - dp))%Z
      by (rewrite <- Z.pow_add_r by lia; f_equal; lia).
    assert (0 < 2 ^ (53 - dp))%Z by (apply Z.pow_pos_nonneg; lia).
    split; apply Z.mul_le_mono_pos_r || apply Z.mul_lt_mono_pos_r; lia. }
  assert (Hdz : Zdigits2 (Z.pos (Pos.iter xO p d)) = 53%Z).
  { assert (52 + 1 <= Zdigits2 (Z.pos (Pos.iter xO p d)))%Z by (apply digits_ge; lia).
    assert (Zdigits2 (Z.pos (Pos.iter xO p d)) <= 53)%Z by (apply digits_le; lia).
    lia. }
  destruct (round_aux_normal (Z.pos (Pos.iter xO p d)) (dp - 53) loc_Exact) as [m [e [He Hb2]]];
    try lia.
  exists m, e. split; [exact He|]. lia.
Qed.


(** The square root of a number in [[2^12, 2^33)] is at least [2^6]. *)
Lemma sqrt_big x mx ex :
  Prim2SF x = S754_finite false mx ex -> (-40 <= ex <= 1)%Z ->
  exists m e, Prim2SF (PrimFloat.sqrt x) = S754_finite false m e /\ (-46 <= e <= 100)%Z.
Proof.
  intros Hx Hex. destruct (Prim2SF_mant x false mx ex Hx ltac:(lia)) as [Hm _].
  rewrite FloatAxioms.sqrt_spec, Hx. unfold SF64sqrt, SFsqrt, SFsqrt_core_binary.
  assert (Hd : Zdigits2 (Z.pos mx) = 53%Z).
  { assert (52 + 1 <= Zdigits2 (Z.pos mx))%Z by (apply digits_ge; lia).
    assert (Zdigits2 (Z.pos mx) <= 53)%Z by (apply digits_le; lia). lia. }
  rewrite Hd, fexp_eq, !Z.div2_div.
  set (e' := Z.min (Z.max ((53 + ex + 1) / 2 - 53) (-1074)) (ex / 2)).
  assert (He' : (-46 <= e' <= -26)%Z) by (unfold e'; Z.div_mod_to_equations; lia).
  assert (Hs : (12 <= ex - 2 * e' <= 93)%Z) by (unfold e'; Z.div_mod_to_equations; lia).
  remember (ex - 2 * e')%Z as s eqn:Es.
  assert (Hm' : (match s with Z.pos _ => Z.shiftl (Z.pos mx) s | Z0 => Z.pos mx | Z.neg _ => 0 end
                 = Z.pos mx * 2 ^ s)%Z).
  { destruct s; try lia. apply Z.shiftl_mul_pow2. lia. }
  rewrite Hm'.
  pose proof (Z.sqrtrem_sqrt (Z.pos mx * 2 ^ s)) as Hq.
  destruct (Z.sqrtrem (Z.pos mx * 2 ^ s)) as [q r]. simpl in Hq. subst q.
  set (M := (Z.pos mx * 2 ^ s)%Z).
  assert (HM : (2 ^ (12 - 2 * e') <= M < 2 ^ 146)%Z).
  { unfold M.
    replace (2 ^ (12 - 2 * e'))%Z with (2 ^ (12 - ex) * 2 ^ s)%Z
      by (rewrite <- Z.pow_add_r by lia; f_equal; lia).
    assert (0 < 2 ^ s)%Z by (apply Z.pow_pos_nonneg; lia).
    split.
    - apply Z.mul_le_mono_pos_r; auto. eapply Z.le_trans; [|exact (proj1 Hm)].
      apply Z.pow_le_mono_r; lia.
    - apply (Z.lt_le_trans _ (2 ^ 53 * 2 ^ s)); [apply Z.mul_lt_mono_pos_r; lia|].
      rewrite <- Z.pow_add_r by lia. apply Z.pow_le_mono_r; lia. }
  set (k := (6 - e')%Z).
  assert (Hk : (2 ^ k <= Z.sqrt M)%Z).
  { rewrite <- (Z.sqrt_square (2 ^ k)) by (apply Z.pow_nonneg; lia).
    apply Z.sqrt_le_mono. rewrite <- Z.pow_add_r by lia.
    replace (k + k)%Z with (12 - 2 * e')%Z by (unfold k; lia). lia. }
  assert (Hq0 : (0 < Z.sqrt M)%Z).
  { eapply Z.lt_le_trans; [|exact Hk]. apply Z.pow_pos_nonneg; lia. }
  assert (Hqd : (k + 1 <= Zdigits2 (Z.sqrt M) <= 146)%Z).
  { split; [apply digits_ge; lia|].
    apply digits_le; try lia. eapply Z.le_lt_trans; [apply Z.sqrt_le_lin|]; lia. }
  destruct (round_aux_normal (Z.sqrt M) e'
              (if (r =? 0)%Z then loc_Exact else loc_Inexact (if (r <=? Z.sqrt M)%Z then Lt else Gt)))
    as [m [e [He Hb]]]; try (unfold k in *; lia).
  exists m, e. split; [exact He|]. unfold k in *. lia.
Qed.


(** Halving a number of at least [2^6] gives at least [2^5]. *)
Lemma half_big s ms es :
  Prim2SF s = S754_finite false ms es -> (-46 <= es <= 100)%Z ->
  exists m e, Prim2SF (PrimFloat.div s 2%float) = S754_finite false m e /\ (-47 <= e)%Z.
Proof.
  intros Hs Hes. destruct (Prim2SF_mant s false ms es Hs ltac:(lia)) as [Hm _].
  rewrite FloatAxioms.div_spec, Hs.
  change (Prim2SF 2%float) with (S754_finite false 4503599627370496 (-51)).
  unfold SF64div, SFdiv, SFdiv_core_binary.
  assert (Hd : Zdigits2 (Z.pos ms) = 53%Z).
  { assert (52 + 1 <= Zdigits2 (Z.pos ms))%Z by (apply digits_ge; lia).
    assert (Zdigits2 (Z.pos ms) <= 53)%Z by (apply digits_le; lia). lia. }
  change (Zdigits2 (Z.pos 4503599627370496)) with 53%Z.
  rewrite Hd, fexp_eq.
  replace (Z.min (Z.max (53 + es - (53 + -51) - 53) (-1074)) (es - -51))%Z with (es - 2)%Z by lia.
  replace (es - -51 - (es - 2))%Z with 53%Z by lia.
  rewrite Z.shiftl_mul_pow2 by lia.
  destruct (Z.div_eucl (Z.pos ms * 2 ^ 53) (Z.pos 4503599627370496)) as [q r] eqn:Ed.
  assert (Hq : q = (2 * Z.pos ms)%Z).
  { change q with (fst (q, r)). rewrite <- Ed. change (fst (Z.div_eucl ?a ?b)) with (a / b)%Z.
    change (Z.pos 4503599627370496) with (2 ^ 52)%Z.
    replace (2 ^ 53)%Z with (2 * 2 ^ 52)%Z by reflexivity.
    rewrite Z.mul_assoc, Z.div_mul by lia. ring. }
  subst q. simpl xorb.
  assert (Hd2 : Zdigits2 (2 * Z.pos ms) = 54%Z).
  { assert (53 + 1 <= Zdigits2 (2 * Z.pos ms))%Z by (apply digits_ge; lia).
    assert (Zdigits2 (2 * Z.pos ms) <= 54)%Z by (apply digits_le; lia). lia. }
  destruct (round_aux_normal (2 * Z.pos ms) (es - 2) (new_location (Z.pos 4503599627370496) r))
    as [m [e [He Hb]]]; try lia.
  exists m, e. split; [exact He|]. lia.
Qed.

(** [Math.ceil] of a number of at least [2^5] is at least 20. *)
Lemma ceil_big h m e :
  Prim2SF h = S754_finite false m e -> (-47 <= e)%Z ->
  exists c, F.ceil h = XFin c /\ (20 <= c)%Z.
Proof.
  intros Hh He. destruct (Prim2SF_mant h false m e Hh ltac:(lia)) as [Hm _].
  unfold F.ceil, F.floor. rewrite FloatAxioms.opp_spec, Hh. simpl SFopp. cbv iota.
  eexists. split; [reflexivity|].
  destruct (Z.le_gt_cases 0 e) as [Hp|Hn].
  - rewrite Z.shiftl_mul_pow2 by lia.
    assert (1 <= 2 ^ e)%Z by (apply (Z.pow_le_mono_r 2 0 e); lia). nia.
  - replace e with (- (- e))%Z by lia. rewrite Z.shiftl_opp_r, Z.shiftr_div_pow2 by lia.
    assert (Hk : (0 < 2 ^ (- e))%Z) by (apply Z.pow_pos_nonneg; lia).
    assert (Hp : (2 ^ 52 = 2 ^ (52 + e) * 2 ^ (- e))%Z)
      by (rewrite <- Z.pow_add_r by lia; f_equal; lia).
    assert (H32 : (32 <= 2 ^ (52 + e))%Z)
      by (change 32%Z with (2 ^ 5)%Z; apply Z.pow_le_mono_r; lia).
    assert (Z.neg m / 2 ^ (- e) <= - 2 ^ (52 + e))%Z.
    { apply Z.div_le_upper_bound; lia. }
    lia.
Qed.

End Rnd.

(** ** Rounding is monotone

    Enough of the rounding of [SpecFloat] to show [x <= x + w] for a
    non-negative finite [w]: the result of rounding a magnitude above (below)
    a representable number is above (below) it. *)

Module Mono.
Import FloatFacts Rnd.
Local Open Scope Z_scope.

Lemma digits_shift m d : 0 < m -> 0 <= d -> Zdigits2 (m * 2 ^ d) = Zdigits2 m + d.
Proof.
  intros Hm Hd. destruct (digits_bounds m Hm) as [Hlo Hhi].
  assert (Hp : 0 < 2 ^ d) by (apply Z.pow_pos_nonneg; lia).
  assert (Hm' : 0 < m * 2 ^ d) by nia.
  pose proof (digits_pos m Hm).
  apply Z.le_antisymm.
  - apply digits_le; [exact Hm' | lia |].
    rewrite Z.pow_add_r by lia. apply Z.mul_lt_mono_pos_r; lia.
  - replace (Zdigits2 m + d) with ((Zdigits2 m + d - 1) + 1) by lia.
    apply digits_ge; [exact Hm' | lia |].
    replace (Zdigits2 m + d - 1) with ((Zdigits2 m - 1) + d) by lia.
    rewrite Z.pow_add_r by lia. apply Z.mul_le_mono_pos_r; lia.
Qed.

Lemma digits_mono a b : 0 < a -> a <= b -> Zdigits2 a <= Zdigits2 b.
Proof.
  intros Ha Hab. destruct (digits_bounds a Ha) as [Hlo _].
  destruct (digits_bounds b ltac:(lia)) as [_ Hhi].
  pose proof (digits_pos a Ha). pose proof (digits_pos b ltac:(lia)).
  destruct (Z.le_gt_cases (Zdigits2 a) (Zdigits2 b)) as [|Hg]; [assumption|].
  assert (2 ^ Zdigits2 b <= 2 ^ (Zdigits2 a - 1)) by (apply Z.pow_le_mono_r; lia). lia.
Qed.

(** [shr_1] on an even mantissa with no rounding bits is an exact halving. *)
Lemma shr_1_exact r :
  shr_r r = false -> shr_s r = false -> 0 <= shr_m r -> (2 | shr_m r) ->
  shr_r (shr_1 r) = false /\ shr_s (shr_1 r) = false.
Proof.
  destruct r as [m rr ss]; simpl. intros -> -> Hm [c Hc].
  destruct m as [|p|p]; simpl; [auto| |lia].
  destruct p as [p|p|]; simpl; auto; lia.
Qed.

Lemma iter_shr_1_exact p : forall r,
  shr_r r = false -> shr_s r = false -> 0 <= shr_m r -> (2 ^ Z.pos p | shr_m r) ->
  shr_r (SpecFloat.iter_pos shr_1 p r) = false /\ shr_s (SpecFloat.iter_pos shr_1 p r) = false.
Proof.
  induction p as [p IH|p IH|]; intros r Hr Hs Hm Hd; cbn [SpecFloat.iter_pos].
  - assert (Hpp : 0 < 2 ^ Z.pos p) by (apply Z.pow_pos_nonneg; lia).
    assert (E2 : 2 ^ Z.pos p~1 = 2 * (2 ^ Z.pos p * 2 ^ Z.pos p)).
    { rewrite (Pos2Z.inj_xI p). rewrite <- Z.pow_add_r by lia.
      rewrite <- Z.pow_succ_r by lia. f_equal. lia. }
    rewrite E2 in Hd. destruct Hd as [c Hc].
    destruct (shr_1_exact r Hr Hs Hm) as [Hr1 Hs1]; [exists (c * (2 ^ Z.pos p * 2 ^ Z.pos p)); lia|].
    assert (Hm1 : shr_m (shr_1 r) = c * (2 ^ Z.pos p * 2 ^ Z.pos p)).
    { rewrite shr_1_div by lia. rewrite Hc.
      replace (c * (2 * (2 ^ Z.pos p * 2 ^ Z.pos p))) with ((c * (2 ^ Z.pos p * 2 ^ Z.pos p)) * 2) by ring.
      apply Z.div_mul. lia. }
    assert (Hc0 : 0 <= c) by nia.
    destruct (IH (shr_1 r) Hr1 Hs1 ltac:(nia)) as [Hr2 Hs2]; [exists (c * 2 ^ Z.pos p); lia|].
    apply IH; auto.
    + apply iter_shr_1_nonneg. lia.
    + rewrite iter_shr_1_div by lia. rewrite Hm1. exists c.
      replace (c * (2 ^ Z.pos p * 2 ^ Z.pos p)) with ((c * 2 ^ Z.pos p) * 2 ^ Z.pos p) by ring.
      rewrite Z.div_mul by lia. reflexivity.
  - assert (Hpp : 0 < 2 ^ Z.pos p) by (apply Z.pow_pos_nonneg; lia).
    assert (E2 : 2 ^ Z.pos p~0 = 2 ^ Z.pos p * 2 ^ Z.pos p).
    { rewrite (Pos2Z.inj_xO p). rewrite <- Z.pow_add_r by lia. f_equal. lia. }
    rewrite E2 in Hd. destruct Hd as [c Hc].
    assert (Hc0 : 0 <= c) by nia.
    assert (Hd1 : (2 ^ Z.pos p | shr_m r)) by (exists (c * 2 ^ Z.pos p); lia).
    destruct (IH r Hr Hs Hm Hd1) as [Hr2 Hs2].
    apply IH; auto.
    + apply iter_shr_1_nonneg. lia.
    + rewrite iter_shr_1_div by lia. rewrite Hc. exists c.
      replace (c * (2 ^ Z.pos p * 2 ^ Z.pos p)) with ((c * 2 ^ Z.pos p) * 2 ^ Z.pos p) by ring.
      rewrite Z.div_mul by lia. reflexivity.
  - apply shr_1_exact; assumption.
Qed.

(** The end of [binary_round_aux]: the rounded mantissa [R] (at most
    [2^53]) is renormalised once if it reached [2^53]. *)
Lemma stage2 s R e' :
  0 <= R <= 2 ^ 53 -> -1074 <= e' ->
  let out := match shr_fexp prec emax R e' loc_Exact with
             | (mrs'', e'') =>
                 match shr_m mrs'' with
                 | Z0 => S754_zero s
                 | Zpos m => if Z.leb e'' (Z.sub emax prec) then S754_finite s m e'' else S754_infinity s
                 | Zneg _ => S754_nan
                 end
             end in
  (R = 0 /\ out = S754_zero s) \/
  (0 < R < 2 ^ 53 /\ ((e' <= 971 /\ exists m, Zpos m = R /\ out = S754_finite s m e') \/
                      (971 < e' /\ out = S754_infinity s))) \/
  (R = 2 ^ 53 /\ ((e' + 1 <= 971 /\ out = S754_finite s 4503599627370496%positive (e' + 1)) \/
                  (971 < e' + 1 /\ out = S754_infinity s))).
Proof.
  intros HR He out. unfold out; clear out.
  destruct (shr_fexp_spec R e' loc_Exact ltac:(lia)) as [He2 Hm2].
  destruct (shr_fexp prec emax R e' loc_Exact) as [r2 e2]. simpl in He2, Hm2.
  rewrite fexp_eq in He2, Hm2.
  destruct (Z.eq_dec R 0) as [->|HR0].
  - left. split; [reflexivity|]. rewrite Hm2. rewrite Z.div_0_l by (apply Z.pow_nonzero; lia).
    reflexivity.
  - right. destruct (Z.eq_dec R (2 ^ 53)) as [HR53|HR53].
    + right. split; [exact HR53|].
      assert (Hd : Zdigits2 R = 54).
      { subst R. reflexivity. }
      rewrite Hd in He2, Hm2.
      replace (Z.max e' (Z.max (54 + e' - 53) (-1074))) with (e' + 1) in He2, Hm2 by lia.
      replace (e' + 1 - e') with 1 in Hm2 by lia. rewrite HR53 in Hm2.
      change (2 ^ 53 / 2 ^ 1) with 4503599627370496 in Hm2.
      rewrite Hm2, He2. unfold emax, prec.
      destruct (Z.le_gt_cases (e' + 1) 971).
      * left. split; [lia|]. replace (e' + 1 <=? 1024 - 53) with true by lia. reflexivity.
      * right. split; [lia|]. replace (e' + 1 <=? 1024 - 53) with false by lia. reflexivity.
    + left. split; [lia|].
      assert (Hd : Zdigits2 R <= 53) by (apply digits_le; lia).
      replace (Z.max e' (Z.max (Zdigits2 R + e' - 53) (-1074))) with e' in He2, Hm2 by lia.
      rewrite Z.sub_diag, Z.pow_0_r, Z.div_1_r in Hm2.
      rewrite Hm2, He2. destruct R as [|m|m]; try lia. unfold emax, prec.
      destruct (Z.le_gt_cases e' 971).
      * left. split; [lia|]. exists m. split; [reflexivity|].
        replace (e' <=? 1024 - 53) with true by lia. reflexivity.
      * right. split; [lia|]. replace (e' <=? 1024 - 53) with false by lia. reflexivity.
Qed.

Lemma round_char s p ez :
  let E := fexp prec emax (Z.pos (digits2_pos p) + ez) in
  exists r, 0 <= r <= 2 ^ 53 /\
    (ez <= E -> Z.pos p / 2 ^ (E - ez) <= r <= Z.pos p / 2 ^ (E - ez) + 1 /\
                ((2 ^ (E - ez) | Z.pos p) -> r = Z.pos p / 2 ^ (E - ez))) /\
    (E < ez -> r = Z.pos p * 2 ^ (ez - E)) /\
    binary_round prec emax s p ez =
      match shr_fexp prec emax r E loc_Exact with
      | (mrs'', e'') =>
          match shr_m mrs'' with
          | Z0 => S754_zero s
          | Zpos m => if Z.leb e'' (Z.sub emax prec) then S754_finite s m e'' else S754_infinity s
          | Zneg _ => S754_nan
          end
      end.
Proof.
  intros E. pose proof (digits2_pos_bounds p) as Hb.
  set (Dp := Z.pos (digits2_pos p)) in *.
  assert (HE : E = Z.max (Dp + ez - 53) (-1074)) by reflexivity.
  assert (HDp : 1 <= Dp) by (unfold Dp; lia).
  unfold binary_round. fold Dp. fold E.
  destruct (Z.le_gt_cases ez E) as [Hle|Hlt].
  - assert (Hsh : shl_align p ez E = (p, ez)).
    { unfold shl_align. destruct (E - ez) eqn:Hk; try reflexivity; lia. }
    rewrite Hsh. unfold binary_round_aux.
    set (k := E - ez).
    assert (Hk0 : 0 <= k) by lia.
    assert (Hpk : 0 < 2 ^ k) by (apply Z.pow_pos_nonneg; lia).
    assert (Hsf : shr_fexp prec emax (Z.pos p) ez loc_Exact =
                  shr {| shr_m := Z.pos p; shr_r := false; shr_s := false |} ez k) by reflexivity.
    (* the first shift *)
    assert (H1 : exists r1, shr_fexp prec emax (Z.pos p) ez loc_Exact = (r1, E) /\
                 shr_m r1 = Z.pos p / 2 ^ k /\
                 ((2 ^ k | Z.pos p) -> loc_of_shr_record r1 = loc_Exact)).
    { rewrite Hsf. unfold shr. destruct k as [|kp|kp] eqn:Ek; try lia.
      - eexists. split; [f_equal; lia|]. simpl. rewrite Z.div_1_r. split; reflexivity.
      - eexists. split; [f_equal; lia|]. split.
        + rewrite iter_shr_1_div by (simpl; lia). reflexivity.
        + intros Hd. destruct (iter_shr_1_exact kp {| shr_m := Z.pos p; shr_r := false; shr_s := false |})
            as [Hr Hs]; simpl; try reflexivity; try lia; try exact Hd.
          destruct (SpecFloat.iter_pos shr_1 kp _) as [m1 r1 s1]. simpl in Hr, Hs. subst. reflexivity. }
    destruct H1 as [r1 [Hr1 [Hm1 Hx1]]]. rewrite Hr1.
    pose proof (round_nearest_even_bounds (shr_m r1) (loc_of_shr_record r1)) as Hrn.
    exists (round_nearest_even (shr_m r1) (loc_of_shr_record r1)).
    assert (Hq : Z.pos p / 2 ^ k < 2 ^ 53).
    { apply Z.div_lt_upper_bound; [lia|]. rewrite <- Z.pow_add_r by lia.
      eapply Z.lt_le_trans; [exact (proj2 Hb)|]. apply Z.pow_le_mono_r; lia. }
    assert (Hq0 : 0 <= Z.pos p / 2 ^ k) by (apply Z.div_pos; lia).
    split; [lia|]. split; [|split; [lia|reflexivity]].
    intros _. fold k. split; [lia|].
    intros Hd. rewrite (Hx1 Hd). simpl. exact Hm1.
  - set (d := ez - E).
    assert (Hd0 : 0 < d) by lia.
    assert (Hsh : shl_align p ez E = (Pos.iter xO p (Z.to_pos d), E)).
    { unfold shl_align. replace (E - ez) with (Z.neg (Z.to_pos d)) by (unfold d; lia). reflexivity. }
    rewrite Hsh. unfold binary_round_aux.
    assert (Hmz : Z.pos (Pos.iter xO p (Z.to_pos d)) = Z.pos p * 2 ^ d).
    { rewrite iter_xO. rewrite Z2Pos.id by lia. reflexivity. }
    assert (Hdz : Zdigits2 (Z.pos (Pos.iter xO p (Z.to_pos d))) = Dp + d).
    { rewrite Hmz. rewrite digits_shift by lia. reflexivity. }
    assert (Hsf : shr_fexp prec emax (Z.pos (Pos.iter xO p (Z.to_pos d))) E loc_Exact =
                  ({| shr_m := Z.pos (Pos.iter xO p (Z.to_pos d)); shr_r := false; shr_s := false |}, E)).
    { unfold shr_fexp. rewrite Hdz, fexp_eq.
      replace (Z.max (Dp + d + E - 53) (-1074) - E) with 0 by (unfold d; lia). reflexivity. }
    rewrite Hsf. simpl.
    exists (Z.pos (Pos.iter xO p (Z.to_pos d))).
    assert (Hlt53 : Z.pos p * 2 ^ d < 2 ^ 53).
    { apply (Z.lt_le_trans _ (2 ^ Dp * 2 ^ d)).
      - apply Z.mul_lt_mono_pos_r; [apply Z.pow_pos_nonneg|]; lia.
      - rewrite <- Z.pow_add_r by lia. apply Z.pow_le_mono_r; lia. }
    split; [lia|]. split; [lia|]. split; [|reflexivity].
    intros _. rewrite Hmz. reflexivity.
Qed.

Lemma round_cases s p ez :
  let E := Z.max (Zdigits2 (Z.pos p) + ez - 53) (-1074) in
  exists r, 0 <= r <= 2 ^ 53 /\
    (ez <= E -> Z.pos p / 2 ^ (E - ez) <= r <= Z.pos p / 2 ^ (E - ez) + 1 /\
                ((2 ^ (E - ez) | Z.pos p) -> r = Z.pos p / 2 ^ (E - ez))) /\
    (E < ez -> r = Z.pos p * 2 ^ (ez - E)) /\
    let out := binary_round prec emax s p ez in
    ((r = 0 /\ out = S754_zero s) \/
     (0 < r < 2 ^ 53 /\ ((E <= 971 /\ exists m, Zpos m = r /\ out = S754_finite s m E) \/
                         (971 < E /\ out = S754_infinity s))) \/
     (r = 2 ^ 53 /\ ((E + 1 <= 971 /\ out = S754_finite s 4503599627370496%positive (E + 1)) \/
                     (971 < E + 1 /\ out = S754_infinity s)))).
Proof.
  intros E. destruct (round_char s p ez) as [r [Hr [H1 [H2 H3]]]].
  exists r. split; [exact Hr|]. split; [exact H1|]. split; [exact H2|].
  intros out. unfold out. rewrite H3.
  apply stage2; [exact Hr|]. rewrite fexp_eq. lia.
Qed.

Section Canon.
Variables (mx : positive) (ex : Z).
Hypothesis Hcan : Z.max (Zdigits2 (Z.pos mx) + ex - 53) (-1074) = ex.
Hypothesis Hex : ex <= 971.

Lemma canon_mant : Z.pos mx < 2 ^ 53.
Proof.
  destruct (digits_bounds (Z.pos mx) ltac:(lia)) as [_ Hh].
  eapply Z.lt_le_trans; [exact Hh|]. apply Z.pow_le_mono_r; lia.
Qed.

(** Rounding a magnitude at most [mx * 2^ex] gives at most [mx * 2^ex]. *)
Lemma round_down s p ez :
  ez <= ex -> Z.pos p <= Z.pos mx * 2 ^ (ex - ez) ->
  binary_round prec emax s p ez = S754_zero s \/
  exists m e, binary_round prec emax s p ez = S754_finite s m e /\
              (e < ex \/ (e = ex /\ Z.pos m <= Z.pos mx)).
Proof.
  intros Hez Hp. pose proof canon_mant as Hm53.
  assert (Hd : Zdigits2 (Z.pos p) <= Zdigits2 (Z.pos mx) + (ex - ez)).
  { rewrite <- digits_shift by lia. apply digits_mono; lia. }
  destruct (round_cases s p ez) as [r [Hr [H1 [H2 H3]]]].
  set (E := Z.max (Zdigits2 (Z.pos p) + ez - 53) (-1074)) in *.
  assert (HE : E <= ex) by (unfold E; lia).
  assert (HEl : -1074 <= E) by (unfold E; lia).
  assert (Hpe : 0 < 2 ^ (ex - E)) by (apply Z.pow_pos_nonneg; lia).
  assert (HrM : r <= Z.pos mx * 2 ^ (ex - E)).
  { destruct (Z.le_gt_cases ez E) as [Hle|Hlt].
    - destruct (H1 Hle) as [[Hq1 Hq2] Hx].
      assert (Hk : 0 < 2 ^ (E - ez)) by (apply Z.pow_pos_nonneg; lia).
      assert (HM : Z.pos mx * 2 ^ (ex - ez) = (Z.pos mx * 2 ^ (ex - E)) * 2 ^ (E - ez)).
      { rewrite <- Z.mul_assoc, <- Z.pow_add_r by lia. f_equal. f_equal. lia. }
      assert (Hqm : Z.pos p / 2 ^ (E - ez) <= Z.pos mx * 2 ^ (ex - E)).
      { apply Z.div_le_upper_bound; lia. }
      destruct (Z.eq_dec (Z.pos p / 2 ^ (E - ez)) (Z.pos mx * 2 ^ (ex - E))) as [Heq|Hne].
      + assert (Hmd := Z.mul_div_le (Z.pos p) (2 ^ (E - ez)) Hk).
        assert (Hpx : Z.pos p = Z.pos mx * 2 ^ (ex - E) * 2 ^ (E - ez)) by nia.
        rewrite Hx; [lia|]. exists (Z.pos mx * 2 ^ (ex - E)). lia.
      + lia.
    - rewrite (H2 Hlt).
      replace (2 ^ (ex - E)) with (2 ^ (ex - ez) * 2 ^ (ez - E))
        by (rewrite <- Z.pow_add_r by lia; f_equal; lia).
      rewrite Z.mul_assoc. apply Z.mul_le_mono_pos_r; [apply Z.pow_pos_nonneg|]; lia. }
  destruct H3 as [[Hr0 Ho]|[[Hr0 [[HE9 [m [Hm Ho]]]|[HE9 Ho]]]|[Hr0 [[HE9 Ho]|[HE9 Ho]]]]];
    try lia.
  - left. exact Ho.
  - right. exists m, E. split; [exact Ho|].
    destruct (Z.eq_dec E ex) as [->|]; [|lia]. right. split; [reflexivity|].
    rewrite Z.sub_diag, Z.pow_0_r in HrM. lia.
  - right. eexists _, _. split; [exact Ho|].
    assert (Hex1 : E + 1 <= ex).
    { destruct (Z.eq_dec E ex) as [He|]; [|lia]. rewrite He, Z.sub_diag, Z.pow_0_r in HrM. lia. }
    destruct (Z.eq_dec (E + 1) ex) as [He1|]; [|lia]. right. split; [exact He1|].
    replace (ex - E) with 1 in HrM by lia. rewrite Z.pow_1_r in HrM. lia.
  - exfalso. assert (E + 1 <= ex); [|lia].
    destruct (Z.eq_dec E ex) as [He|]; [|lia]. rewrite He, Z.sub_diag, Z.pow_0_r in HrM. lia.
Qed.

(** Rounding a magnitude at least [mx * 2^ex] gives at least [mx * 2^ex]. *)
Lemma round_up s p ez :
  ez <= ex -> Z.pos mx * 2 ^ (ex - ez) <= Z.pos p ->
  binary_round prec emax s p ez = S754_infinity s \/
  exists m e, binary_round prec emax s p ez = S754_finite s m e /\
              (ex < e \/ (e = ex /\ Z.pos mx <= Z.pos m)).
Proof.
  intros Hez Hp.
  assert (Hk0 : 0 < 2 ^ (ex - ez)) by (apply Z.pow_pos_nonneg; lia).
  assert (Hd : Zdigits2 (Z.pos mx) + (ex - ez) <= Zdigits2 (Z.pos p)).
  { rewrite <- digits_shift by lia. apply digits_mono; nia. }
  destruct (round_cases s p ez) as [r [Hr [H1 [H2 H3]]]].
  set (E := Z.max (Zdigits2 (Z.pos p) + ez - 53) (-1074)) in *.
  assert (HE : ex <= E) by (unfold E; lia).
  destruct (H1 ltac:(lia)) as [[Hq1 Hq2] _].
  assert (Hk : 0 < 2 ^ (E - ez)) by (apply Z.pow_pos_nonneg; lia).
  assert (Hpos : E = ex /\ Z.pos mx <= r \/ ex < E /\ 0 < r).
  { destruct (Z.eq_dec E ex) as [He|He].
    - left. split; [exact He|]. rewrite He in Hq1.
      eapply Z.le_trans; [|exact Hq1].
      apply Z.div_le_lower_bound; [exact Hk0|]. lia.
    - right. split; [lia|].
      assert (HE' : E = Zdigits2 (Z.pos p) + ez - 53) by (unfold E in *; lia).
      destruct (digits_bounds (Z.pos p) ltac:(lia)) as [Hlo _].
      eapply Z.lt_le_trans; [|exact Hq1].
      apply Z.div_str_pos. split; [exact Hk|].
      eapply Z.le_trans; [|exact Hlo]. apply Z.pow_le_mono_r; lia. }
  destruct H3 as [[Hr0 Ho]|[[Hr0 [[HE9 [m [Hm Ho]]]|[HE9 Ho]]]|[Hr0 [[HE9 Ho]|[HE9 Ho]]]]].
  - exfalso. destruct Hpos as [[_ ?]|[_ ?]]; lia.
  - right. exists m, E. split; [exact Ho|]. destruct Hpos as [[? ?]|[? ?]]; [right|left]; lia.
  - left. exact Ho.
  - right. eexists _, _. split; [exact Ho|]. left. lia.
  - left. exact Ho.
Qed.

End Canon.

Lemma shl_align_fst m e ez : ez <= e -> Z.pos (fst (shl_align m e ez)) = Z.pos m * 2 ^ (e - ez).
Proof.
  intros H. unfold shl_align. destruct (ez - e) as [|d|d] eqn:Hd.
  - replace (e - ez) with 0 by lia. simpl. lia.
  - lia.
  - simpl. rewrite iter_xO. replace (e - ez) with (Z.pos d) by lia. reflexivity.
Qed.

Lemma valid_canon s m e :
  FloatAxioms.valid_binary (S754_finite s m e) = true ->
  Z.max (Zdigits2 (Z.pos m) + e - 53) (-1074) = e /\ e <= 971.
Proof.
  intros Hv. unfold valid_binary, bounded, canonical_mantissa in Hv.
  apply andb_prop in Hv as [Hc Hb]. apply Z.eqb_eq in Hc. apply Z.leb_le in Hb.
  rewrite fexp_eq in Hc. unfold emax, prec in Hb. split; [exact Hc|lia].
Qed.

Lemma compare_refl_pos m : Pos.compare_cont Eq m m = Eq.
Proof. apply Pos.compare_cont_refl. Qed.

Lemma binary_round_not_nan s p ez : binary_round prec emax s p ez <> S754_nan.
Proof.
  destruct (round_cases s p ez) as [r [_ [_ [_ H]]]]. cbv zeta in H.
  destruct H as [[_ ->]|[[_ [[_ [m [_ ->]]]|[_ ->]]]|[_ [[_ ->]|[_ ->]]]]]; discriminate.
Qed.

Lemma binary_normalize_not_nan n ez sz : binary_normalize prec emax n ez sz <> S754_nan.
Proof.
  destruct n; simpl; [discriminate| |]; apply binary_round_not_nan.
Qed.


(** [x <= x + w] for a non-negative finite [w]. *)
Lemma SFadd_ge x w :
  FloatAxioms.valid_binary x = true -> FloatAxioms.valid_binary w = true -> x <> S754_nan -> nonneg_fin w ->
  SFleb x (SFadd prec emax x w) = true.
Proof.
  intros Hx Hw Hn Hnn.
  destruct x as [sx|sx| |sx mx ex]; [| |contradiction|].
  - destruct w as [sw|sw| |[] mw ew]; simpl in Hnn; try contradiction;
      destruct sx; try destruct sw; reflexivity.
  - destruct w as [sw|sw| |[] mw ew]; simpl in Hnn; try contradiction;
      destruct sx; reflexivity.
  - destruct (valid_canon sx mx ex Hx) as [Hc He].
    destruct w as [sw|sw| |[] mw ew]; simpl in Hnn; try contradiction.
    + unfold SFadd, SFleb, SFcompare. rewrite Z.compare_refl, compare_refl_pos.
      destruct sx; reflexivity.
    + unfold SFadd.
      set (ez := Z.min ex ew).
      rewrite (shl_align_fst mx ex ez) by (unfold ez; lia).
      rewrite (shl_align_fst mw ew ez) by (unfold ez; lia).
      assert (HA : 0 < Z.pos mx * 2 ^ (ex - ez)) by (apply Z.mul_pos_pos; [lia|apply Z.pow_pos_nonneg; unfold ez; lia]).
      assert (HB : 0 < Z.pos mw * 2 ^ (ew - ez)) by (apply Z.mul_pos_pos; [lia|apply Z.pow_pos_nonneg; unfold ez; lia]).
      destruct sx; cbn [cond_Zopp].
      * (* negative x *)
        destruct (- (Z.pos mx * 2 ^ (ex - ez)) + Z.pos mw * 2 ^ (ew - ez)) as [|p|p] eqn:En.
        -- reflexivity.
        -- cbn [binary_normalize].
           pose proof (round_aux_pos (Z.pos (fst (shl_align p ez (fexp prec emax (Z.pos (digits2_pos p) + ez)))))
                         (snd (shl_align p ez (fexp prec emax (Z.pos (digits2_pos p) + ez)))) loc_Exact
                         ltac:(lia)) as Hp.
           unfold binary_round. destruct (shl_align _ _ _) as [mz ez'] eqn:Es. simpl in Hp.
           destruct (binary_round_aux prec emax false (Z.pos mz) ez' loc_Exact) as [[]|[]| |[] ? ?];
             simpl in Hp; try contradiction; reflexivity.
        -- cbn [binary_normalize].
           destruct (round_down mx ex Hc He true p ez ltac:(unfold ez; lia) ltac:(lia))
             as [Ho|[m [e [Ho He']]]]; rewrite Ho; [reflexivity|].
           unfold SFleb, SFcompare.
           destruct He' as [Hlt|[-> Hle]].
           ++ replace (ex ?= e) with Gt by (symmetry; apply Z.compare_gt_iff; lia). reflexivity.
           ++ rewrite Z.compare_refl. change (Pos.compare_cont Eq mx m) with (Pos.compare mx m).
              destruct (Pos.compare_spec mx m); try reflexivity; lia.
      * (* non-negative x *)
        replace (Z.pos mx * 2 ^ (ex - ez) + Z.pos mw * 2 ^ (ew - ez))
          with (Z.pos (Z.to_pos (Z.pos mx * 2 ^ (ex - ez) + Z.pos mw * 2 ^ (ew - ez)))) by (rewrite Z2Pos.id; lia).
        cbn [binary_normalize].
        destruct (round_up mx ex Hc He false (Z.to_pos (Z.pos mx * 2 ^ (ex - ez) + Z.pos mw * 2 ^ (ew - ez))) ez
                    ltac:(unfold ez; lia) ltac:(rewrite Z2Pos.id; lia))
          as [Ho|[m [e [Ho He']]]]; rewrite Ho; [reflexivity|].
        unfold SFleb, SFcompare.
        destruct He' as [Hlt|[-> Hle]].
        ++ replace (ex ?= e) with Lt by (symmetry; apply Z.compare_lt_iff; lia). reflexivity.
        ++ rewrite Z.compare_refl. change (Pos.compare_cont Eq mx m) with (Pos.compare mx m).
           destruct (Pos.compare_spec mx m); try reflexivity; lia.
Qed.

Lemma not_nan_sf x : PrimFloat.is_nan x = false -> Prim2SF x <> S754_nan.
Proof.
  unfold PrimFloat.is_nan. rewrite FloatAxioms.eqb_spec. intros H E. rewrite E in H. discriminate.
Qed.

Lemma finite_not_nan x : PrimFloat.is_finite x = true -> PrimFloat.is_nan x = false.
Proof. unfold PrimFloat.is_finite. destruct (PrimFloat.is_nan x); [discriminate|reflexivity]. Qed.

(** [x <= x + w] in binary64, for [x] not NaN and [w] finite and not negative. *)
Lemma add_ge x w :
  PrimFloat.is_nan x = false -> nonneg_fin (Prim2SF w) ->
  PrimFloat.leb x (PrimFloat.add x w) = true.
Proof.
  intros Hx Hw. rewrite FloatAxioms.leb_spec, FloatAxioms.add_spec.
  apply SFadd_ge; [apply FloatAxioms.Prim2SF_valid | apply FloatAxioms.Prim2SF_valid | apply not_nan_sf; exact Hx | exact Hw].
Qed.

Lemma div_pos_fin x y my ey : pos_sf (Prim2SF x) -> Prim2SF y = S754_finite false my ey ->
  pos_sf (Prim2SF (PrimFloat.div x y)).
Proof.
  rewrite FloatAxioms.div_spec. intros Hx ->. unfold SF64div, SFdiv.
  destruct (Prim2SF x) as [[]|[]| |[] m e]; simpl in *; trivial; try contradiction.
  unfold SFdiv_core_binary.
  match goal with |- context [Z.div_eucl ?a ?b] =>
    pose proof (Z_div_mod a b) as Hd; destruct (Z.div_eucl a b) as [q r] end.
  apply round_aux_pos.
  match type of Hd with ?P -> _ => assert (HP : P) by lia end.
  specialize (Hd HP). destruct Hd as [Hd Hr].
  match type of Hd with ?a = _ => assert (0 <= a)%Z end.
  { destruct (_ - _ - _)%Z; [lia| |lia]. apply Z.shiftl_nonneg. lia. }
  nia.
Qed.

Lemma mul_pos_fin x y : pos_sf x -> nonneg_fin x -> pos_sf y -> nonneg_fin y ->
  pos_sf (SF64mul x y).
Proof.
  intros Hx Hx' Hy Hy'. unfold SF64mul, SFmul.
  destruct x as [sx|[]| |[] mx ex]; simpl in Hx'; try contradiction;
  destruct y as [sy|[]| |[] my ey]; simpl in Hy'; try contradiction; simpl; trivial.
  apply round_aux_pos. lia.
Qed.

(** A small non-negative integer is a non-negative finite number. *)
Lemma of_Z_nonneg_fin z : 0 <= z < 2 ^ 53 -> nonneg_fin (Prim2SF (F.of_Z z)) /\ pos_sf (Prim2SF (F.of_Z z)).
Proof.
  intros Hz. unfold F.of_Z. replace (z <? 0) with false by lia.
  rewrite FloatAxioms.of_uint63_spec, Uint63.of_Z_spec.
  rewrite Z.mod_small by (unfold wB, size; simpl; lia).
  destruct z as [|p|p]; try lia; [split; exact I|].
  unfold binary_normalize.
  destruct (round_cases false p 0) as [r [_ [_ [_ H]]]]. cbv zeta in H.
  assert (Hd : Zdigits2 (Z.pos p) <= 53) by (apply digits_le; lia).
  destruct H as [[_ ->]|[[_ [[_ [m [_ ->]]]|[HE ->]]]|[_ [[_ ->]|[HE ->]]]]];
    try (split; exact I); lia.
Qed.

Lemma add_not_nan x y : Prim2SF x <> S754_nan -> (forall s, Prim2SF x <> S754_infinity s) ->
  pos_sf (Prim2SF y) -> PrimFloat.is_nan (PrimFloat.add x y) = false.
Proof.
  intros Hx Hxi Hy. unfold PrimFloat.is_nan. rewrite FloatAxioms.eqb_spec, FloatAxioms.add_spec.
  unfold SF64add.
  assert (Hn : SFadd prec emax (Prim2SF x) (Prim2SF y) <> S754_nan).
  { destruct (Prim2SF x) as [sx|sx| |sx mx ex]; [| exfalso; eapply Hxi; reflexivity | contradiction |];
    destruct (Prim2SF y) as [[]|[]| |[] my ey]; simpl in Hy; try contradiction;
    try (destruct sx); simpl; first [discriminate | apply binary_round_not_nan | apply binary_normalize_not_nan]. }
  destruct (SFadd prec emax (Prim2SF x) (Prim2SF y)) as [[]|[]| |[] m e]; try contradiction;
    unfold SFeqb, SFcompare; try reflexivity;
    rewrite Z.compare_refl; change (Pos.compare_cont Eq m m) with (Pos.compare m m);
    rewrite Pos.compare_refl; reflexivity.
Qed.

End Mono.

(** [numBins] is an integer between 10 and 20 for every length: the square
    root of a length, halved, is never NaN. *)
Lemma numBins_of_range n : exists k, numBins_of n = XFin k /\ (10 <= k <= 20)%Z.
Proof.
  unfold numBins_of, F.ceil, F.floor.
  rewrite FloatAxioms.opp_spec.
  pose proof (FloatFacts.div_pos _ 2%float
                (FloatFacts.sqrt_pos _ (FloatFacts.of_uint63_pos (Uint63.of_Z (Z.of_nat n))))
                eq_refl) as Hp.
  unfold length_number.
  destruct (Prim2SF _) as [[]|[]| |[] m e]; simpl in Hp |- *; try contradiction;
    eexists; split; try reflexivity; lia.
Qed.

(** ** The [bins] array under the assignment loop *)

Lemma update_nth_length {A} k (f : A -> A) l : List.length (update_nth k f l) = List.length l.
Proof. revert k; induction l; intros [|k]; simpl; auto. Qed.

Lemma nth_error_update_nth {A} k j (f : A -> A) l :
  nth_error (update_nth k f l) j =
  if Nat.eqb j k then option_map f (nth_error l j) else nth_error l j.
Proof.
  revert k j; induction l as [|x l IH]; intros [|k] [|j]; simpl;
    try reflexivity; try (destruct (_ =? _)%nat; reflexivity).
  apply IH.
Qed.

(** Every element of a well-formed [bins] is a non-negative count. *)
Definition counts_ok (n : nat) (bins : list (option Z)) : Prop :=
  List.length bins = n /\ Forall (fun o => exists c, o = Some c /\ (0 <= c)%Z) bins.

Lemma total_update_bump k bins :
  (k < List.length bins)%nat ->
  Forall (fun o => exists c, o = Some c /\ (0 <= c)%Z) bins ->
  total (update_nth k bump bins) = (total bins + 1)%Z /\
  Forall (fun o => exists c, o = Some c /\ (0 <= c)%Z) (update_nth k bump bins).
Proof.
  revert k; induction bins as [|o bins IH]; intros k Hk Hf; simpl in *; [lia|].
  inversion Hf as [|? ? [c [-> Hc]] Hf']; subst.
  destruct k as [|k]; simpl.
  - split; [lia|]. constructor; auto.
    exists (c + 1)%Z; split; [reflexivity|lia].
  - destruct (IH k ltac:(lia) Hf') as [Ht Hf2]. split; [lia|].
    constructor; eauto.
Qed.

Section Counting.
Context {N : Type} `{JSNumber N}.
Variables (minR maxR w : N) (nb : Z).
Hypothesis Hnb : (1 <= nb)%Z.

(** The key a sample is written to is NaN or an index of the array. *)
Lemma bin_target_range r k :
  bin_target minR maxR w nb r = Some k ->
  k = XNaN \/ exists z, k = XFin z /\ (0 <= z < nb)%Z.
Proof.
  unfold bin_target.
  destruct (js_eqb w (js_of_Z 0)).
  - destruct (js_eqb r minR); intros E; inversion E; right; exists 0%Z; split; auto; lia.
  - destruct (js_floor _) as [| | |z]; simpl; intros E;
      repeat match type of E with context [if ?b then _ else _] => destruct b end;
      inversion E; subst;
      first [left; reflexivity | right; eexists; split; [reflexivity | lia]].
Qed.

(** A sample is not written to an index exactly when it is [dropped]. *)
Lemma bin_target_dropped r :
  dropped minR w r = true <->
  (bin_target minR maxR w nb r = None \/ bin_target minR maxR w nb r = Some XNaN).
Proof.
  unfold dropped, bin_target.
  destruct (js_eqb w (js_of_Z 0)).
  - destruct (js_eqb r minR); simpl; intuition congruence.
  - destruct (js_floor _) as [| | |z]; simpl; destruct (js_eqb r maxR); simpl;
      try (destruct (Z.max 0 (Z.min (nb - 1) z) <? nb - 1)%Z);
      try destruct (0 <? nb - 1)%Z; try destruct (Z.max 0 (nb - 1) <? nb - 1)%Z;
      intuition congruence.
Qed.

Lemma count_step_ok bins r :
  counts_ok (Z.to_nat nb) bins ->
  counts_ok (Z.to_nat nb) (count_step minR maxR w nb bins r) /\
  total (count_step minR maxR w nb bins r) =
    (total bins + if dropped minR w r then 0 else 1)%Z.
Proof.
  intros [Hl Hf]. unfold count_step.
  destruct (bin_target minR maxR w nb r) as [k|] eqn:Et.
  - destruct (bin_target_range r k Et) as [-> | [z [-> Hz]]].
    + assert (dropped minR w r = true) as -> by (apply bin_target_dropped; auto).
      simpl. split; [split|]; auto; lia.
    + assert (dropped minR w r = false) as ->.
      { destruct (dropped minR w r) eqn:D; auto.
        apply bin_target_dropped in D. rewrite Et in D. destruct D; discriminate. }
      unfold incr_at.
      replace (z <? 0)%Z with false by lia.
      replace (z <? Z.of_nat (List.length bins))%Z with true by lia.
      destruct (total_update_bump (Z.to_nat z) bins ltac:(lia) Hf) as [Ht Hf2].
      split; [split|]; auto. rewrite update_nth_length; auto.
  - assert (dropped minR w r = true) as -> by (apply bin_target_dropped; auto).
    split; [split|]; auto; lia.
Qed.

Lemma fold_count_ok rets bins :
  counts_ok (Z.to_nat nb) bins ->
  counts_ok (Z.to_nat nb) (fold_left (count_step minR maxR w nb) rets bins) /\
  total (fold_left (count_step minR maxR w nb) rets bins) =
    (total bins + Z.of_nat (List.length (filter (fun r => negb (dropped minR w r)) rets)))%Z.
Proof.
  revert bins; induction rets as [|r rets IH]; intros bins Hb; simpl.
  - split; auto; lia.
  - destruct (count_step_ok bins r Hb) as [Hb1 Ht1].
    destruct (IH _ Hb1) as [Hb2 Ht2]. split; auto.
    rewrite Ht2, Ht1. destruct (dropped minR w r); simpl; lia.
Qed.

Lemma total_zeros n : total (repeat (Some 0%Z) n) = 0%Z.
Proof. induction n; simpl; auto. Qed.

Lemma zeros_ok n : counts_ok n (repeat (Some 0%Z) n).
Proof.
  split; [apply repeat_length|].
  apply Forall_forall. intros x Hx. apply repeat_spec in Hx. subst. eauto with zarith.
Qed.

Lemma bin_counts_ok rets :
  counts_ok (Z.to_nat nb) (bin_counts minR maxR w nb rets) /\
  total (bin_counts minR maxR w nb rets) =
    Z.of_nat (List.length (filter (fun r => negb (dropped minR w r)) rets)).
Proof.
  unfold bin_counts.
  destruct (fold_count_ok rets _ (zeros_ok (Z.to_nat nb))) as [Hb Ht].
  rewrite total_zeros in Ht. auto.
Qed.

(** Whether sample [r] is counted in bin [k]. *)
Definition lands (k : nat) (r : N) : bool :=
  match bin_target minR maxR w nb r with
  | Some (XFin z) => Z.eqb z (Z.of_nat k)
  | _ => false
  end.

Lemma count_step_nth bins r k c :
  counts_ok (Z.to_nat nb) bins ->
  nth_error bins k = Some (Some c) ->
  nth_error (count_step minR maxR w nb bins r) k =
    Some (Some (c + if lands k r then 1 else 0))%Z.
Proof.
  intros [Hl Hf] Hk. unfold count_step, lands.
  destruct (bin_target minR maxR w nb r) as [t|] eqn:Et;
    [|rewrite Hk; f_equal; f_equal; lia].
  destruct (bin_target_range r t Et) as [-> | [z [-> Hz]]];
    [simpl; rewrite Hk; f_equal; f_equal; lia|].
  unfold incr_at.
  replace (z <? 0)%Z with false by lia.
  replace (z <? Z.of_nat (List.length bins))%Z with true by lia.
  rewrite nth_error_update_nth, Hk.
  destruct (Nat.eqb_spec k (Z.to_nat z)) as [E|E];
    destruct (Z.eqb_spec z (Z.of_nat k)); simpl; f_equal; f_equal; lia.
Qed.

Lemma fold_count_nth rets bins k c :
  counts_ok (Z.to_nat nb) bins ->
  nth_error bins k = Some (Some c) ->
  nth_error (fold_left (count_step minR maxR w nb) rets bins) k =
    Some (Some (c + Z.of_nat (List.length (filter (lands k) rets))))%Z.
Proof.
  revert bins c; induction rets as [|r rets IH]; intros bins c Hb Hk; simpl.
  - rewrite Hk. f_equal. f_equal. lia.
  - rewrite (IH _ _ (proj1 (count_step_ok bins r Hb)) (count_step_nth bins r k c Hb Hk)).
    destruct (lands k r); simpl; f_equal; f_equal; lia.
Qed.

(** The count of bin [k] is the number of samples landing in bin [k]. *)
Lemma bin_counts_nth rets k :
  (k < Z.to_nat nb)%nat ->
  nth_error (bin_counts minR maxR w nb rets) k =
    Some (Some (Z.of_nat (List.length (filter (lands k) rets)))).
Proof.
  intros Hk. unfold bin_counts.
  rewrite (fold_count_nth rets _ k 0 (zeros_ok _)).
  - reflexivity.
  - apply nth_error_repeat. exact Hk.
Qed.

(** A sample equal to [maxReturn] that is not dropped by the zero-width
    branch or a NaN index lands in the last bin. *)
Lemma bin_target_max r :
  js_eqb r maxR = true -> js_eqb w (js_of_Z 0) = false -> dropped minR w r = false ->
  bin_target minR maxR w nb r = Some (XFin (nb - 1)).
Proof.
  unfold dropped, bin_target. intros Hm Hw. rewrite Hw, Hm. simpl.
  destruct (js_floor _) as [| | |z]; simpl; intros Hd; try discriminate.
  - destruct (0 <? nb - 1)%Z eqn:E; [reflexivity|]. f_equal. f_equal. lia.
  - destruct (Z.max 0 (nb - 1) <? nb - 1)%Z eqn:E; [reflexivity|]. f_equal. f_equal. lia.
  - destruct (Z.max 0 (Z.min (nb - 1) z) <? nb - 1)%Z eqn:E; [reflexivity|].
    f_equal. f_equal. lia.
Qed.

End Counting.

Lemma filter_length_le {A} (p q : A -> bool) l :
  (forall x, p x = true -> q x = true) ->
  (List.length (filter p l) <= List.length (filter q l))%nat.
Proof.
  intros Hpq. induction l as [|x l IH]; simpl; auto.
  destruct (p x) eqn:Ep; [rewrite (Hpq x Ep); simpl; lia|].
  destruct (q x); simpl; lia.
Qed.

(** The result of the binner, with every intermediate value named. *)
Lemma binning_eq {N} `{JSNumber N} (toFixed2 : N -> string) r0 rs :
  exists nb, (10 <= nb <= 20)%Z /\
    let minR := math_min r0 rs in
    let maxR := math_max r0 rs in
    let w := bin_width (js_sub maxR minR) nb in
    let edges := bin_edges minR maxR w nb in
    binning toFixed2 r0 rs =
      inr (mk_hist nb w (bin_labels toFixed2 edges)
             (bin_counts minR maxR w nb (r0 :: rs)) edges).
Proof.
  destruct (numBins_of_range (List.length (r0 :: rs))) as [nb [Hn Hr]].
  exists nb. split; auto. simpl. unfold binning. rewrite Hn.
  replace ((0 <=? nb) && (nb <? 2 ^ 32))%Z with true by lia. reflexivity.
Qed.

Lemma bin_edges_length {N} `{JSNumber N} minR maxR w nb :
  List.length (bin_edges minR maxR w nb) = Z.to_nat nb.
Proof. unfold bin_edges. rewrite length_map, length_seq. reflexivity. Qed.

Lemma filter_negb_length {A} (f : A -> bool) l :
  Z.of_nat (List.length (filter (fun x => negb (f x)) l)) =
  (Z.of_nat (List.length l) - Z.of_nat (List.length (filter f l)))%Z.
Proof. pose proof (filter_length f l). lia. Qed.

(** ** Bin edges *)

Lemma nth_error_map_seq {A} (f : nat -> A) n s i :
  nth_error (map f (seq s n)) i = if (i <? n)%nat then Some (f (s + i)%nat) else None.
Proof.
  revert s i; induction n as [|n IH]; intros s [|i]; simpl; auto.
  - rewrite Nat.add_0_r. reflexivity.
  - rewrite IH. change ((S i <? S n)%nat) with ((i <? n)%nat).
    destruct (i <? n)%nat; auto. simpl. rewrite Nat.add_succ_r. reflexivity.
Qed.

Lemma nth_error_bin_edges {N} `{JSNumber N} minR maxR w nb i e :
  nth_error (bin_edges minR maxR w nb) i = Some e ->
  (i < Z.to_nat nb)%nat /\ e = bin_edge_at minR maxR w nb i.
Proof.
  unfold bin_edges. rewrite nth_error_map_seq.
  destruct (Nat.ltb_spec i (Z.to_nat nb)); intros E; inversion E; auto.
Qed.

Lemma bin_edges_last {N} `{JSNumber N} minR maxR w nb d :
  (1 <= nb)%Z -> edge_end (last (bin_edges minR maxR w nb) d) = maxR.
Proof.
  intros Hnb. unfold bin_edges.
  replace (Z.to_nat nb) with (S (Z.to_nat nb - 1)) by lia.
  rewrite seq_S, map_app. cbn [map]. rewrite last_last. unfold bin_edge_at. cbv zeta.
  cbn [edge_end]. rewrite (proj2 (Z.eqb_eq _ _)); [reflexivity|lia].
Qed.

Lemma bin_edges_first {N} `{JSNumber N} minR maxR w nb :
  (1 <= nb)%Z -> exists rest, bin_edges minR maxR w nb = bin_edge_at minR maxR w nb 0 :: rest.
Proof.
  intros Hnb. unfold bin_edges.
  replace (Z.to_nat nb) with (S (Z.to_nat nb - 1)) by lia. simpl. eauto.
Qed.

(** A finite binary64 number is a signed zero or a finite non-zero value. *)
Lemma finite_sf x : PrimFloat.is_finite x = true ->
  exists s, Prim2SF x = S754_zero s \/ exists m e, Prim2SF x = S754_finite s m e.
Proof.
  unfold PrimFloat.is_finite, PrimFloat.is_nan, PrimFloat.is_infinity.
  rewrite !FloatAxioms.eqb_spec, FloatAxioms.abs_spec.
  change (Prim2SF PrimFloat.infinity) with (S754_infinity false).
  destruct (Prim2SF x) as [s|[]| |s m e]; simpl; try discriminate; intros _;
    exists s; first [left; reflexivity | right; eauto].
Qed.

Lemma of_Z_0 : Prim2SF (F.of_Z 0) = S754_zero false.
Proof. reflexivity. Qed.

(** [minReturn + 0 * binWidth === minReturn] for a finite width and a
    minimum that is not NaN: [0 * binWidth] is a signed zero. *)
Lemma first_start_eqb minR w :
  PrimFloat.is_finite w = true -> PrimFloat.is_nan minR = false ->
  PrimFloat.eqb (PrimFloat.add minR (PrimFloat.mul (F.of_Z 0) w)) minR = true.
Proof.
  intros Hw Hm. destruct (finite_sf w Hw) as [s Hs].
  assert (Hz : exists s', Prim2SF (PrimFloat.mul (F.of_Z 0) w) = S754_zero s').
  { rewrite FloatAxioms.mul_spec, of_Z_0.
    destruct Hs as [-> | [m [e ->]]]; simpl; eauto. }
  destruct Hz as [s' Hz].
  unfold PrimFloat.is_nan in Hm. rewrite FloatAxioms.eqb_spec in Hm.
  rewrite FloatAxioms.eqb_spec, FloatAxioms.add_spec, Hz.
  assert (Hx : Prim2SF minR <> S754_nan).
  { intros E. rewrite E in Hm. discriminate. }
  unfold SF64add, SFeqb.
  destruct (Prim2SF minR) as [[]|[]| |[] m e]; try (destruct s'); simpl;
    try congruence;
    rewrite Z.compare_refl; change (Pos.compare_cont Eq m m) with (Pos.compare m m);
    rewrite Pos.compare_refl; reflexivity.
Qed.


Lemma min2_finite a b :
  PrimFloat.is_finite a = true -> PrimFloat.is_finite b = true -> PrimFloat.is_finite (F.min2 a b) = true.
Proof.
  intros Ha Hb. unfold F.min2. rewrite (Mono.finite_not_nan a Ha), (Mono.finite_not_nan b Hb). simpl.
  destruct (a <? b)%float; [exact Ha|]. destruct (b <? a)%float; [exact Hb|].
  destruct (get_sign a); assumption.
Qed.

Lemma math_min_finite r0 rs :
  forallb PrimFloat.is_finite (r0 :: rs) = true -> PrimFloat.is_finite (math_min r0 rs) = true.
Proof.
  unfold math_min. revert r0. induction rs as [|r rs IH]; intros r0 H; simpl in *.
  - rewrite andb_true_r in H. exact H.
  - apply andb_prop in H as [H0 H]. apply andb_prop in H as [H1 H].
    apply IH. simpl. rewrite min2_finite by assumption. exact H.
Qed.

(** [binWidth] is never negative and never NaN. *)
Lemma width_pos range nb :
  (10 <= nb <= 20)%Z -> FloatFacts.pos_sf (Prim2SF (bin_width range nb)).
Proof.
  intros Hnb. unfold bin_width. cbn [js_ltb js_div js_of_Z float_JSNumber].
  destruct (PrimFloat.ltb (F.of_Z 0) range) eqn:Hlt.
  - assert (Hr : FloatFacts.pos_sf (Prim2SF range)).
    { rewrite FloatAxioms.ltb_spec, of_Z_0 in Hlt. unfold SFltb, SFcompare in Hlt.
      destruct (Prim2SF range) as [[]|[]| |[] m e]; simpl; try discriminate; exact I. }
    assert (Hn : exists my ey, Prim2SF (F.of_Z nb) = S754_finite false my ey).
    { assert (nb = 10 \/ nb = 11 \/ nb = 12 \/ nb = 13 \/ nb = 14 \/ nb = 15 \/ nb = 16 \/
              nb = 17 \/ nb = 18 \/ nb = 19 \/ nb = 20)%Z as Hc by lia.
      repeat (destruct Hc as [-> | Hc]; [vm_compute; eauto|]); subst; vm_compute; eauto. }
    destruct Hn as [my [ey Hn]]. exact (Mono.div_pos_fin _ _ my ey Hr Hn).
  - exact (proj2 (Mono.of_Z_nonneg_fin 1 ltac:(lia))).
Qed.

Lemma pos_nonneg_fin x : FloatFacts.pos_sf (Prim2SF x) -> PrimFloat.is_finite x = true -> FloatFacts.nonneg_fin (Prim2SF x).
Proof.
  intros Hp Hf. destruct (finite_sf x Hf) as [s [E | [m [e E]]]]; rewrite E in *;
    [exact I | destruct s; simpl in *; [contradiction | exact I]].
Qed.

(** [binStart = minReturn + i * binWidth] is not NaN for a finite minimum,
    a finite non-negative width and [i < 2^53]. *)
Lemma start_not_nan minR w i :
  PrimFloat.is_finite minR = true -> FloatFacts.pos_sf (Prim2SF w) -> PrimFloat.is_finite w = true ->
  (Z.of_nat i < 2 ^ 53)%Z ->
  PrimFloat.is_nan (PrimFloat.add minR (PrimFloat.mul (F.of_Z (Z.of_nat i)) w)) = false.
Proof.
  intros Hm Hw Hwf Hi.
  destruct (Mono.of_Z_nonneg_fin (Z.of_nat i) ltac:(lia)) as [Hi1 Hi2].
  pose proof (pos_nonneg_fin w Hw Hwf) as Hw'.
  apply Mono.add_not_nan.
  - destruct (finite_sf minR Hm) as [s [E | [m [e E]]]]; rewrite E; discriminate.
  - intros s. destruct (finite_sf minR Hm) as [s' [E | [m [e E]]]]; rewrite E; discriminate.
  - rewrite FloatAxioms.mul_spec. apply Mono.mul_pos_fin; assumption.
Qed.

(** ** The page *)

Lemma destroy_chart_none {N} (p : page N) : histogramChart (destroyHistogramChart p) = None.
Proof. unfold destroyHistogramChart. destruct (histogramChart p) eqn:E; [reflexivity | exact E]. Qed.

Lemma destroy_chart_fields {N} (p : page N) :
  canvas_present (destroyHistogramChart p) = canvas_present p /\
  chart_ctor_ok (destroyHistogramChart p) = chart_ctor_ok p.
Proof. unfold destroyHistogramChart. destruct (histogramChart p); split; reflexivity. Qed.

(** ** The bin count *)

(** [ceil_half_sqrt n] is the ceiling of [sqrt(n) / 2]:
    [k - 1 < sqrt(n) / 2 <= k]. *)
Lemma ceil_half_sqrt_spec n : (1 <= n)%Z ->
  (1 <= ceil_half_sqrt n /\ 4 * (ceil_half_sqrt n - 1) ^ 2 < n <= 4 * ceil_half_sqrt n ^ 2)%Z.
Proof.
  intros Hn. unfold ceil_half_sqrt, ceil_sqrt.
  destruct (Z.sqrt_spec n ltac:(lia)) as [Hlo Hhi].
  assert (Hr : (1 <= Z.sqrt n)%Z).
  { rewrite <- Z.sqrt_1. apply Z.sqrt_le_mono. lia. }
  set (r := Z.sqrt n) in *. cbv zeta.
  destruct (Z.eqb_spec (r * r) n) as [E|E];
    [set (c := r) | set (c := (r + 1)%Z)];
    assert (Hc : ((c - 1) * (c - 1) < n <= c * c /\ 1 <= c)%Z) by (unfold c; nia);
    set (k := ((c + 1) / 2)%Z);
    assert (Hk : (c <= 2 * k <= c + 1)%Z) by (unfold k; Z.div_mod_to_equations; lia);
    rewrite !Z.pow_2_r; nia.
Qed.

Lemma xint_eqb_eq a b : xint_eqb a b = true -> a = b.
Proof. destruct a, b; simpl; try discriminate; auto. intros E. apply Z.eqb_eq in E. subst. reflexivity. Qed.

(** Every length below 4096, by evaluation. *)
Lemma numBins_table : numBins_table_ok 4095 = true.
Proof. vm_compute. reflexivity. Qed.

Lemma numBins_table_sound bound n :
  numBins_table_ok bound = true -> (1 <= n <= bound)%nat ->
  numBins_of n = XFin (spec_numBins (Z.of_nat n)).
Proof.
  intros T Hn. unfold numBins_table_ok in T. rewrite forallb_forall in T.
  apply xint_eqb_eq, T, in_seq. lia.
Qed.

Lemma numBins_small n : (1 <= n < 4096)%nat -> numBins_of n = XFin (spec_numBins (Z.of_nat n)).
Proof. intros Hn. apply (numBins_table_sound 4095 n numBins_table). lia. Qed.

Lemma numBins_big n : (4096 <= Z.of_nat n < 2 ^ 32)%Z -> numBins_of n = XFin 20.
Proof.
  intros Hn. unfold numBins_of, length_number.
  destruct (Rnd.of_uint63_big (Z.of_nat n) Hn) as [mx [ex [Hx Hex]]].
  destruct (Rnd.sqrt_big _ mx ex Hx Hex) as [ms [es [Hs Hes]]].
  destruct (Rnd.half_big _ ms es Hs Hes) as [mh [eh [Hh Heh]]].
  destruct (Rnd.ceil_big _ mh eh Hh Heh) as [c [Hc Hc20]].
  rewrite Hc. simpl. f_equal. lia.
Qed.

Lemma spec_numBins_big n : (4096 <= n)%Z -> spec_numBins n = 20%Z.
Proof.
  intros Hn. unfold spec_numBins, ceil_half_sqrt, ceil_sqrt.
  assert (H64 : (64 <= Z.sqrt n)%Z).
  { change 64%Z with (Z.sqrt 4096). apply Z.sqrt_le_mono. lia. }
  cbv zeta. destruct (Z.sqrt n * Z.sqrt n =? n)%Z; Z.div_mod_to_equations; lia.
Qed.

Lemma numBins_of_spec n : (1 <= Z.of_nat n < 2 ^ 32)%Z -> numBins_of n = XFin (spec_numBins (Z.of_nat n)).
Proof.
  intros Hn. destruct (Z.lt_ge_cases (Z.of_nat n) 4096).
  - apply numBins_small. lia.
  - rewrite numBins_big, spec_numBins_big by lia. reflexivity.
Qed.

(** * The claims *)

(** C1 (code bug).  The bin counts add up to the number of samples minus
    the samples the loop drops: those that reach the zero-width branch
    without being equal to [minReturn], and those whose index
    [Math.floor((ret - minReturn) / binWidth)] is NaN.  Finite inputs reach
    both cases (see the counterexample), so the counts do not always add up
    to the number of samples. *)
Theorem C1_total_counts (toFixed2 : float -> string) (r0 : float) (rs : list float) :
  match binning toFixed2 r0 rs with
  | inr d =>
      total (h_counts d) =
        (Z.of_nat (List.length (r0 :: rs)) -
         Z.of_nat (List.length (filter (dropped (math_min r0 rs) (h_binWidth d)) (r0 :: rs))))%Z
  | inl _ => False
  end.
Proof.
  destruct (binning_eq toFixed2 r0 rs) as [nb [Hr E]]. cbv zeta in E. rewrite E.
  cbn [h_counts h_binWidth h_numBins h_edges h_labels].
  destruct (bin_counts_ok (math_min r0 rs) (math_max r0 rs)
              (bin_width (js_sub (math_max r0 rs) (math_min r0 rs)) nb) nb ltac:(lia) (r0 :: rs))
    as [_ Ht].
  rewrite Ht, filter_negb_length. reflexivity.
Qed.

(** C1: on the finite input [[0, 2^-1074]] the bin width [2^-1074 / 10]
    rounds to 0 and the sample [2^-1074] is not counted: the counts add up
    to 1, not 2.  On [[-2^1023, 2^1023]] the range overflows to Infinity,
    the index of the maximum is [Math.floor(Infinity / Infinity)], NaN, and
    the counts add up to 1 as well. *)
Lemma C1_counterexample :
  ~ (forall (toFixed2 : float -> string) (r0 : float) (rs : list float),
       forallb PrimFloat.is_finite (r0 :: rs) = true ->
       match binning toFixed2 r0 rs with
       | inr d => total (h_counts d) = Z.of_nat (List.length (r0 :: rs))
       | inl _ => False
       end) /\
  match binning (fun _ => ""%string) (-0x1p1023)%float [0x1p1023%float] with
  | inr d => total (h_counts d) = 1%Z
  | inl _ => False
  end.
Proof.
  split; [|vm_compute; reflexivity].
  intros H. specialize (H (fun _ => ""%string) 0%float [0x1p-1074%float] eq_refl).
  vm_compute in H. discriminate.
Qed.

(** C2 (code bug).  On [[2, 2, 2]] the bin width is 1, but every sample
    equals [maxReturn], so the max-value check moves each of them from bin
    0 to the last bin: bin 0 counts 0 and bin 9 counts 3. *)
Theorem C2_degenerate_last_bin :
  match binning (fun _ => ""%string) 2%float [2%float; 2%float] with
  | inr d =>
      h_binWidth d = 1%float /\
      h_counts d = (repeat (Some 0%Z) 9 ++ [Some 3%Z])%list
  | inl _ => False
  end.
Proof. vm_compute. split; reflexivity. Qed.

(** C3.  For every array the code accepts (a length below 2^32), the bin
    count is [clamp(ceil(sqrt(n) / 2), 10, 20)] computed exactly, with
    [n] the number of returns. *)
Theorem C3_numBins (toFixed2 : float -> string) (r0 : float) (rs : list float) :
  (Z.of_nat (List.length (r0 :: rs)) < 2 ^ 32)%Z ->
  match binning toFixed2 r0 rs with
  | inr d => h_numBins d = spec_numBins (Z.of_nat (List.length (r0 :: rs)))
  | inl _ => False
  end.
Proof.
  intros Hlen. unfold binning.
  assert (H1 : (1 <= List.length (r0 :: rs))%nat) by (simpl; lia).
  rewrite numBins_of_spec by lia.
  assert (Hr : (10 <= spec_numBins (Z.of_nat (List.length (r0 :: rs))) <= 20)%Z)
    by (unfold spec_numBins; lia).
  replace ((0 <=? spec_numBins _) && (spec_numBins _ <? 2 ^ 32))%Z with true by lia.
  reflexivity.
Qed.

(** C3 at four returns: the bin count is 10. *)
Lemma C3_witness :
  (Z.of_nat (List.length [0%float; 0%float; 0%float; 0%float]) < 2 ^ 32)%Z /\
  match binning (fun _ => ""%string) 0%float [0%float; 0%float; 0%float] with
  | inr d => h_numBins d = spec_numBins (Z.of_nat (List.length [0%float; 0%float; 0%float; 0%float]))
  | inl _ => False
  end.
Proof.
  split; [vm_compute; reflexivity|].
  apply (C3_numBins (fun _ => ""%string) 0%float [0%float; 0%float; 0%float]).
  vm_compute. reflexivity.
Defined.

(** C4 (code bug).  Every sample equal to [maxReturn] for which the bin
    width is not 0 and the index [Math.floor((ret - minReturn) / binWidth)]
    is not NaN is counted in the last bin [numBins - 1], whose count is the
    number of samples assigned to it. *)
Theorem C4_max_in_last_bin (toFixed2 : float -> string) (r0 : float) (rs : list float) :
  match binning toFixed2 r0 rs with
  | inr d =>
      let minR := math_min r0 rs in
      let maxR := math_max r0 rs in
      let w := h_binWidth d in
      let nb := h_numBins d in
      (forall r, In r (r0 :: rs) ->
         js_eqb r maxR = true -> js_eqb w (js_of_Z 0) = false -> dropped minR w r = false ->
         bin_target minR maxR w nb r = Some (XFin (nb - 1))) /\
      exists c,
        nth_error (h_counts d) (Z.to_nat (nb - 1)) = Some (Some c) /\
        (Z.of_nat (List.length (filter (fun r => js_eqb r maxR && negb (js_eqb w (js_of_Z 0))
                                         && negb (dropped minR w r)) (r0 :: rs))) <= c)%Z
  | inl _ => False
  end.
Proof.
  destruct (binning_eq toFixed2 r0 rs) as [nb [Hr E]]. cbv zeta in E. rewrite E.
  cbn [h_counts h_binWidth h_numBins]. cbv zeta.
  set (minR := math_min r0 rs). set (maxR := math_max r0 rs).
  set (w := bin_width (js_sub maxR minR) nb).
  split.
  - intros r _ Hm Hw Hd. apply bin_target_max; [lia | exact Hm | exact Hw | exact Hd].
  - eexists. split.
    + apply bin_counts_nth; lia.
    + apply inj_le, filter_length_le. intros r Hc.
      apply andb_true_iff in Hc as [Hc Hd]. apply andb_true_iff in Hc as [Hm Hw].
      apply negb_true_iff in Hw, Hd.
      unfold lands. rewrite (bin_target_max minR maxR w nb ltac:(lia) r Hm Hw Hd).
      apply Z.eqb_eq. lia.
Qed.

(** C4: on [[0, 2^-1074]] (max > min) the maximum is not counted at all:
    the bin width rounds to 0 and the last bin stays at 0.  On
    [[-2^1023, 2^1023]] the key of the maximum is NaN, which neither the
    clamp nor the max-value check ([NaN < numBins - 1] is false) turns into
    [numBins - 1], and the last bin counts 0. *)
Lemma C4_counterexample :
  ~ (forall (toFixed2 : float -> string) (r0 : float) (rs : list float),
       PrimFloat.ltb (math_min r0 rs) (math_max r0 rs) = true ->
       match binning toFixed2 r0 rs with
       | inr d =>
           exists c, nth_error (h_counts d) (Z.to_nat (h_numBins d - 1)) = Some (Some c) /\
             (Z.of_nat (List.length (filter (fun r => js_eqb r (math_max r0 rs)) (r0 :: rs))) <= c)%Z
       | inl _ => False
       end) /\
  match binning (fun _ => ""%string) (-0x1p1023)%float [0x1p1023%float] with
  | inr d =>
      bin_target (math_min (-0x1p1023)%float [0x1p1023%float]) (math_max (-0x1p1023)%float [0x1p1023%float])
        (h_binWidth d) (h_numBins d) 0x1p1023%float = Some XNaN /\
      nth_error (h_counts d) (Z.to_nat (h_numBins d - 1)) = Some (Some 0%Z)
  | inl _ => False
  end.
Proof.
  split; [|vm_compute; split; reflexivity].
  intros H. specialize (H (fun _ => ""%string) 0%float [0x1p-1074%float] eq_refl).
  vm_compute in H. destruct H as [c [Hc Hle]]. inversion Hc; subst. exact (Hle eq_refl).
Qed.

(** C6.  The binner returns [numBins] bins, [numBins] labels and [numBins]
    edges, with [numBins] between 10 and 20, and every element of [bins] is
    a non-negative count. *)
Theorem C6_bin_shape (toFixed2 : float -> string) (r0 : float) (rs : list float) :
  match binning toFixed2 r0 rs with
  | inr d =>
      (10 <= h_numBins d <= 20)%Z /\
      List.length (h_counts d) = Z.to_nat (h_numBins d) /\
      List.length (h_labels d) = Z.to_nat (h_numBins d) /\
      List.length (h_edges d) = Z.to_nat (h_numBins d) /\
      Forall (fun o => exists c, o = Some c /\ (0 <= c)%Z) (h_counts d)
  | inl _ => False
  end.
Proof.
  destruct (binning_eq toFixed2 r0 rs) as [nb [Hr E]]. cbv zeta in E. rewrite E.
  cbn [h_counts h_labels h_edges h_numBins].
  destruct (bin_counts_ok (math_min r0 rs) (math_max r0 rs)
              (bin_width (js_sub (math_max r0 rs) (math_min r0 rs)) nb) nb ltac:(lia) (r0 :: rs))
    as [[Hl Hf] _].
  unfold bin_labels. rewrite length_map, !bin_edges_length.
  repeat split; auto; lia.
Qed.

(** C10 (code bug).  The bin width is 1 when [range > 0] fails and
    [range / numBins] otherwise; every key the loop increments is either NaN
    (an ordinary property, not an element) or an index in
    [[0, numBins - 1]], a sample is skipped only in the zero-width branch,
    and the [bins] array keeps its [numBins] elements. *)
Theorem C10_index_in_range (toFixed2 : float -> string) (r0 : float) (rs : list float) :
  match binning toFixed2 r0 rs with
  | inr d =>
      let minR := math_min r0 rs in
      let maxR := math_max r0 rs in
      let range := js_sub maxR minR in
      let w := h_binWidth d in
      let nb := h_numBins d in
      w = (if js_ltb (js_of_Z 0) range then js_div range (js_of_Z nb) else js_of_Z 1) /\
      (forall r, In r (r0 :: rs) ->
         match bin_target minR maxR w nb r with
         | None => js_eqb w (js_of_Z 0) = true
         | Some XNaN => js_eqb w (js_of_Z 0) = false
         | Some (XFin z) => (0 <= z <= nb - 1)%Z
         | Some _ => False
         end) /\
      List.length (h_counts d) = Z.to_nat nb
  | inl _ => False
  end.
Proof.
  destruct (binning_eq toFixed2 r0 rs) as [nb [Hr E]]. cbv zeta in E. rewrite E.
  cbn [h_counts h_binWidth h_numBins]. cbv zeta.
  set (minR := math_min r0 rs). set (maxR := math_max r0 rs).
  set (w := bin_width (js_sub maxR minR) nb).
  split; [reflexivity|split].
  - intros r _.
    destruct (bin_target minR maxR w nb r) as [t|] eqn:Et.
    + destruct (bin_target_range minR maxR w nb ltac:(lia) r t Et) as [-> | [z [-> Hz]]];
        [|lia].
      revert Et. unfold bin_target.
      destruct (js_eqb w (js_of_Z 0)); [destruct (js_eqb r minR); discriminate|auto].
    + revert Et. unfold bin_target.
      destruct (js_eqb w (js_of_Z 0)); [auto|discriminate].
  - apply (bin_counts_ok minR maxR w nb ltac:(lia) (r0 :: rs)).
Qed.

(** C10: on the finite input [[0, 2^-1074]] the range is positive but the
    bin width [2^-1074 / 10] rounds to 0, so the zero-width branch runs.  On
    the finite input [[-2^1023, 2^1023]] the key of the maximum is NaN, not
    an index in [[0, numBins - 1]]. *)
Lemma C10_counterexample :
  ~ (forall (toFixed2 : float -> string) (r0 : float) (rs : list float),
       forallb PrimFloat.is_finite (r0 :: rs) = true ->
       match binning toFixed2 r0 rs with
       | inr d => PrimFloat.ltb 0%float (h_binWidth d) = true
       | inl _ => False
       end) /\
  ~ (forall (toFixed2 : float -> string) (r0 : float) (rs : list float),
       forallb PrimFloat.is_finite (r0 :: rs) = true ->
       match binning toFixed2 r0 rs with
       | inr d => forall r, In r (r0 :: rs) ->
           exists z, bin_target (math_min r0 rs) (math_max r0 rs) (h_binWidth d) (h_numBins d) r
                     = Some (XFin z) /\ (0 <= z <= h_numBins d - 1)%Z
       | inl _ => False
       end).
Proof.
  split.
  - intros H. specialize (H (fun _ => ""%string) 0%float [0x1p-1074%float] eq_refl).
    vm_compute in H. discriminate.
  - intros H. specialize (H (fun _ => ""%string) (-0x1p1023)%float [0x1p1023%float] eq_refl).
    vm_compute in H. specialize (H 0x1p1023%float (or_intror (or_introl eq_refl))).
    vm_compute in H. destruct H as [z [Hz _]]. discriminate.
Qed.

(** C5 (corrected).  The last edge ends exactly at [maxReturn]; the first
    edge starts at [minReturn + 0 * binWidth], which is [=== minReturn] when
    the bin width is finite and [minReturn] is not NaN. *)
Theorem C5_first_last_edges (toFixed2 : float -> string) (r0 : float) (rs : list float) :
  match binning toFixed2 r0 rs with
  | inr d =>
      (exists e0 rest, h_edges d = e0 :: rest /\
         (PrimFloat.is_finite (h_binWidth d) = true ->
          PrimFloat.is_nan (math_min r0 rs) = false ->
          PrimFloat.eqb (edge_start e0) (math_min r0 rs) = true)) /\
      (forall dflt, edge_end (last (h_edges d) dflt) = math_max r0 rs)
  | inl _ => False
  end.
Proof.
  destruct (binning_eq toFixed2 r0 rs) as [nb [Hr E]]. cbv zeta in E. rewrite E.
  cbn [h_edges h_binWidth]. split.
  - destruct (bin_edges_first (math_min r0 rs) (math_max r0 rs)
                (bin_width (js_sub (math_max r0 rs) (math_min r0 rs)) nb) nb ltac:(lia))
      as [rest ->].
    do 2 eexists. split; [reflexivity|]. intros Hw Hm.
    apply first_start_eqb; assumption.
  - intros dflt. apply bin_edges_last. lia.
Qed.

(** C5: on the finite input [[-2^1023, 2^1023]] the range overflows to
    Infinity, so does the bin width, and the first edge starts at
    [minReturn + 0 * Infinity], which is NaN. *)
Lemma C5_counterexample :
  ~ (forall (toFixed2 : float -> string) (r0 : float) (rs : list float),
       forallb PrimFloat.is_finite (r0 :: rs) = true ->
       match binning toFixed2 r0 rs with
       | inr d => exists e0 rest, h_edges d = e0 :: rest /\
                    PrimFloat.eqb (edge_start e0) (math_min r0 rs) = true
       | inl _ => False
       end).
Proof.
  intros H. specialize (H (fun _ => ""%string) (-0x1p1023)%float [0x1p1023%float] eq_refl).
  vm_compute in H. destruct H as [e0 [rest [He Heq]]]. inversion He; subst.
  vm_compute in Heq. discriminate.
Qed.

(** C7 (corrected).  On binary64, for finite returns and a finite bin
    width, every bin but the last has [binStart <= binEnd]: [binEnd] is
    [binStart + binWidth], [binStart] is not NaN and [binWidth] is not
    negative, and rounding an addition of a non-negative number never goes
    below the first operand.  The last bin ends exactly at [maxReturn]. *)
Theorem C7_start_le_end (toFixed2 : float -> string) (r0 : float) (rs : list float) :
  forallb PrimFloat.is_finite (r0 :: rs) = true ->
  match binning toFixed2 r0 rs with
  | inr d =>
      (PrimFloat.is_finite (h_binWidth d) = true ->
       forall i e, (Z.of_nat i < h_numBins d - 1)%Z -> nth_error (h_edges d) i = Some e ->
         PrimFloat.leb (edge_start e) (edge_end e) = true) /\
      (forall e, nth_error (h_edges d) (Z.to_nat (h_numBins d - 1)) = Some e ->
         edge_end e = math_max r0 rs)
  | inl _ => False
  end.
Proof.
  intros Hfin.
  destruct (binning_eq toFixed2 r0 rs) as [nb [Hr E]]. cbv zeta in E. rewrite E.
  cbn [h_edges h_numBins h_binWidth].
  set (minR := math_min r0 rs). set (maxR := math_max r0 rs).
  pose proof (width_pos (js_sub maxR minR) nb Hr) as Hw.
  set (w := bin_width (js_sub maxR minR) nb) in *.
  split.
  - intros Hwf i e Hi He.
    apply nth_error_bin_edges in He as [Hi' ->].
    unfold bin_edge_at. cbv zeta. cbn [edge_start edge_end].
    replace (Z.of_nat i =? nb - 1)%Z with false by lia.
    cbn [js_add js_mul js_of_Z float_JSNumber].
    apply Mono.add_ge.
    + apply start_not_nan; [apply math_min_finite; exact Hfin | exact Hw | exact Hwf | lia].
    + apply pos_nonneg_fin; assumption.
  - intros e He.
    apply nth_error_bin_edges in He as [Hi ->].
    unfold bin_edge_at. cbv zeta. cbn [edge_end].
    rewrite Z2Nat.id by lia. rewrite Z.eqb_refl. reflexivity.
Qed.

Lemma C7_witness :
  forallb PrimFloat.is_finite ((-1)%float :: [0%float; 1%float; 2%float; 3%float]) = true /\
  match binning (fun _ => ""%string) (-1)%float [0%float; 1%float; 2%float; 3%float] with
  | inr d =>
      (PrimFloat.is_finite (h_binWidth d) = true ->
       forall i e, (Z.of_nat i < h_numBins d - 1)%Z -> nth_error (h_edges d) i = Some e ->
         PrimFloat.leb (edge_start e) (edge_end e) = true) /\
      (forall e, nth_error (h_edges d) (Z.to_nat (h_numBins d - 1)) = Some e ->
         edge_end e = math_max (-1)%float [0%float; 1%float; 2%float; 3%float])
  | inl _ => False
  end.
Proof.
  split; [reflexivity|]. apply C7_start_le_end. reflexivity.
Defined.

(** C7: on binary64 the rounding of [minReturn + i * binWidth] and
    [binStart + binWidth] breaks the order: on [[-1, 0, 1, 2, 3]] bin 3 ends
    at 0.6000000000000002 and bin 4 starts at 0.6000000000000001. *)
Lemma C7_counterexample :
  ~ (forall (toFixed2 : float -> string) (r0 : float) (rs : list float),
       match binning toFixed2 r0 rs with
       | inr d => forall i e1 e2, nth_error (h_edges d) i = Some e1 ->
                    nth_error (h_edges d) (S i) = Some e2 ->
                    PrimFloat.leb (edge_end e1) (edge_start e2) = true
       | inl _ => False
       end).
Proof.
  intros H. specialize (H (fun _ => ""%string) (-1)%float [0%float; 1%float; 2%float; 3%float]).
  vm_compute in H. specialize (H 3%nat _ _ eq_refl eq_refl).
  vm_compute in H. discriminate.
Qed.

(** C8.  On two pages in any state (previous chart, message, console) with
    the canvas present and a working [Chart] constructor, the same returns
    produce the same chart data, namely the result of [binning] on the
    returns alone. *)
Theorem C8_binning_deterministic (toFixed2 : float -> string) (p1 p2 : page float)
    (r0 : float) (rs : list float) :
  canvas_present p1 = true -> canvas_present p2 = true ->
  chart_ctor_ok p1 = true -> chart_ctor_ok p2 = true ->
  match createOrUpdateReturnHistogram toFixed2 p1 (Arr (r0 :: rs)),
        createOrUpdateReturnHistogram toFixed2 p2 (Arr (r0 :: rs)) with
  | inr q1, inr q2 =>
      histogramChart q1 = histogramChart q2 /\
      exists d, histogramChart q1 = Some d /\ binning toFixed2 r0 rs = inr d
  | _, _ => False
  end.
Proof.
  intros Hc1 Hc2 Ho1 Ho2.
  destruct (binning_eq toFixed2 r0 rs) as [nb [_ E]]. cbv zeta in E.
  unfold createOrUpdateReturnHistogram, create_or_update_with.
  rewrite Hc1, Hc2. simpl negb. cbv iota. rewrite E.
  destruct (destroy_chart_fields p1) as [_ ->]. destruct (destroy_chart_fields p2) as [_ ->].
  rewrite Ho1, Ho2. simpl. split; [reflexivity|]. eexists. split; reflexivity.
Qed.

(** C8 on two pages in different states, one with a previous chart. *)
Lemma C8_witness :
  let p1 := mk_page (N := float) true None None true [] in
  let p2 := mk_page (N := float) true (Some "x") (Some (mk_hist 1 1%float [] [] [])) true ["y"] in
  canvas_present p1 = true /\ canvas_present p2 = true /\
  chart_ctor_ok p1 = true /\ chart_ctor_ok p2 = true /\
  match createOrUpdateReturnHistogram (fun _ => ""%string) p1 (Arr [1%float; 2%float]),
        createOrUpdateReturnHistogram (fun _ => ""%string) p2 (Arr [1%float; 2%float]) with
  | inr q1, inr q2 =>
      histogramChart q1 = histogramChart q2 /\
      exists d, histogramChart q1 = Some d /\ binning (fun _ => ""%string) 1%float [2%float] = inr d
  | _, _ => False
  end.
Proof.
  intros p1 p2. split; [reflexivity|]. split; [reflexivity|].
  split; [reflexivity|]. split; [reflexivity|].
  apply (C8_binning_deterministic (fun _ => ""%string) p1 p2 1%float [2%float]);
    reflexivity.
Defined.

(** C9.  With the canvas present, a missing or empty series returns
    normally with the placeholder message and no chart, and the result does
    not depend on the binner at all: it is the same for every [bin]. *)
Theorem C9_no_data (toFixed2 : float -> string) (p : page float) (arg : returns_arg float) :
  canvas_present p = true -> (arg = Missing \/ arg = Arr []) ->
  exists q,
    (forall bin, create_or_update_with bin p arg = inr q) /\
    createOrUpdateReturnHistogram toFixed2 p arg = inr q /\
    canvas_text q = Some "No return data available." /\
    histogramChart q = None.
Proof.
  intros Hc Harg.
  exists (set_text (log (destroyHistogramChart p) "No daily returns data available for histogram.")
            (Some "No return data available.")).
  assert (Hall : forall bin, create_or_update_with bin p arg =
    inr (set_text (log (destroyHistogramChart p) "No daily returns data available for histogram.")
            (Some "No return data available."))).
  { intros bin. unfold create_or_update_with. rewrite Hc. simpl negb. cbv iota.
    destruct Harg as [-> | ->]; reflexivity. }
  split; [exact Hall|]. split; [apply Hall|]. split; [reflexivity|].
  simpl. apply destroy_chart_none.
Qed.

(** C9 on a missing series. *)
Lemma C9_witness :
  let p := mk_page (N := float) true None None true [] in
  canvas_present p = true /\
  (Missing (N := float) = Missing \/ Missing (N := float) = Arr []) /\
  exists q,
    (forall bin, create_or_update_with bin p Missing = inr q) /\
    createOrUpdateReturnHistogram (fun _ => ""%string) p Missing = inr q /\
    canvas_text q = Some "No return data available." /\
    histogramChart q = None.
Proof.
  intros p. split; [reflexivity|]. split; [left; reflexivity|].
  apply (C9_no_data (fun _ => ""%string) p Missing); [reflexivity | left; reflexivity].
Defined.

(** * Further properties of the charts and the user interface *)

(** ** Charts *)
(** X1: [destroyAllCharts] leaves neither chart handle set and does not touch the canvases; a second call changes nothing. *)
Theorem X1_destroyAllCharts {N} (c : charts N) :
  let c' := destroyAllCharts c in
  priceChart (price_part c') = None /\ histogramChart (hist_part c') = None /\
  price_canvas_text (price_part c') = price_canvas_text (price_part c) /\
  canvas_text (hist_part c') = canvas_text (hist_part c) /\
  destroyAllCharts c' = c'.
Proof.
  destruct c as [[a b [pc|] d e] [f g [hc|] h i]]; repeat split; reflexivity.
Qed.

Lemma nth_error_map_some {A B} (f : A -> B) l i x :
  nth_error l i = Some x -> nth_error (map f l) i = Some (f x).
Proof. intros E. rewrite nth_error_map, E. reflexivity. Qed.

(** X2: when the canvas exists, [createOrUpdatePriceChart] on missing or empty data leaves no chart and writes the no-data message; a chart it leaves set holds one label (the date) and one value (the closing price) per data point, in order. *)
Theorem X2_price_chart_fresh {N} (p : price_page N) (historicalData : returns_arg (price_point N)) :
  price_canvas_present p = true ->
  let q := createOrUpdatePriceChart p historicalData in
  ((historicalData = Missing \/ historicalData = Arr []) ->
     priceChart q = None /\ price_canvas_text q = Some "No historical data available.") /\
  (forall c, priceChart q = Some c ->
     exists pts, historicalData = Arr pts /\ pts <> [] /\
       List.length (p_labels c) = List.length pts /\ List.length (p_data c) = List.length pts /\
       forall i pt, nth_error pts i = Some pt ->
         nth_error (p_labels c) i = Some (date pt) /\ nth_error (p_data c) i = Some (close pt)).
Proof.
  intros Hc q. unfold q, createOrUpdatePriceChart. rewrite Hc. simpl negb. cbv iota.
  assert (Hd : priceChart (destroyPriceChart p) = None).
  { unfold destroyPriceChart. destruct (priceChart p) eqn:E; [reflexivity|exact E]. }
  assert (Hok : price_ctor_ok (destroyPriceChart p) = price_ctor_ok p).
  { unfold destroyPriceChart. destruct (priceChart p); reflexivity. }
  split.
  - intros [-> | ->]; simpl; auto.
  - intros c. destruct historicalData as [|[|pt pts]]; simpl; try (rewrite Hd; discriminate).
    destruct (price_ctor_ok (destroyPriceChart p)); simpl; [|rewrite Hd; discriminate].
    intros E; injection E as <-. exists (pt :: pts). simpl.
    split; [reflexivity|]. split; [discriminate|].
    rewrite !length_map. split; [reflexivity|]. split; [reflexivity|].
    intros i x Hx. split; apply (nth_error_map_some _ (pt :: pts)); exact Hx.
Qed.

(** X4: when the canvas exists, a histogram left by [createOrUpdateReturnHistogram] is the binning of the non-empty series it was given, never a chart of an earlier call. *)
Theorem X4_histogram_chart_fresh (toFixed2 : float -> string) (p : page float)
    (dailyReturns : returns_arg float) (q : page float) :
  canvas_present p = true ->
  createOrUpdateReturnHistogram toFixed2 p dailyReturns = inr q ->
  forall d, histogramChart q = Some d ->
    exists r0 rs, dailyReturns = Arr (r0 :: rs) /\ binning toFixed2 r0 rs = inr d.
Proof.
  intros Hc E d Hd. unfold createOrUpdateReturnHistogram, create_or_update_with in E.
  rewrite Hc in E. simpl negb in E. cbv iota in E.
  pose proof (destroy_chart_none p) as Hn.
  destruct dailyReturns as [|[|r0 rs]].
  - injection E as <-. simpl in Hd. congruence.
  - injection E as <-. simpl in Hd. congruence.
  - exists r0, rs. split; [reflexivity|].
    destruct (binning toFixed2 r0 rs) as [ex|h]; [discriminate|].
    destruct (chart_ctor_ok _); injection E as <-; simpl in Hd; congruence.
Qed.

Lemma str_app_assoc (a b c : string) : ((a ++ b) ++ c) = (a ++ (b ++ c)).
Proof. induction a as [|x a IH]; simpl; [reflexivity | rewrite IH; reflexivity]. Qed.

Lemma str_app_nonempty (a b : string) : b <> "" -> (a ++ b) <> "".
Proof. destruct a; simpl; [auto | discriminate]. Qed.

Lemma nth_error_bin_labels {N} (toFixed2 : N -> string) edges i lbl :
  nth_error (bin_labels toFixed2 edges) i = Some lbl ->
  exists e, nth_error edges i = Some e /\ lbl = (toFixed2 (edge_start e) ++ "%").
Proof.
  unfold bin_labels. rewrite nth_error_map.
  destruct (nth_error edges i) as [e|]; simpl; [|discriminate].
  intros E; injection E as <-. eauto.
Qed.

(** X5: the tooltip title of bar [i] is its label followed by " to " and the end of its bin; the last bar ends at the maximum return; past the last bar the item's own label is shown. *)
Theorem X5_tooltip_title (toFixed2 : float -> string) (r0 : float) (rs : list float)
    (d : hist_data float) (item_label : string) :
  binning toFixed2 r0 rs = inr d ->
  (forall i lbl, nth_error (h_labels d) i = Some lbl ->
     exists e, nth_error (h_edges d) i = Some e /\
       tooltip_title toFixed2 (h_edges d) i item_label = (lbl ++ " to " ++ toFixed2 (edge_end e) ++ "%")) /\
  tooltip_title toFixed2 (h_edges d) (Z.to_nat (h_numBins d) - 1) item_label =
    (nth (Z.to_nat (h_numBins d) - 1) (h_labels d) "" ++ " to " ++ toFixed2 (math_max r0 rs) ++ "%") /\
  (forall i, (Z.to_nat (h_numBins d) <= i)%nat ->
     tooltip_title toFixed2 (h_edges d) i item_label = item_label).
Proof.
  intros E. destruct (binning_eq toFixed2 r0 rs) as [nb [Hnb Hb]]. cbv zeta in Hb.
  rewrite Hb in E. injection E as <-. cbn [h_labels h_edges h_numBins].
  set (edges := bin_edges _ _ _ nb).
  split; [|split].
  - intros i lbl Hl. destruct (nth_error_bin_labels _ _ _ _ Hl) as [e [He ->]].
    exists e. split; [exact He|]. unfold tooltip_title. rewrite He.
    rewrite str_app_assoc. reflexivity.
  - assert (Hlast : nth_error edges (Z.to_nat nb - 1) =
                    Some (bin_edge_at (math_min r0 rs) (math_max r0 rs)
                            (bin_width (js_sub (math_max r0 rs) (math_min r0 rs)) nb) nb (Z.to_nat nb - 1))).
    { unfold edges, bin_edges. rewrite nth_error_map_seq.
      replace ((Z.to_nat nb - 1 <? Z.to_nat nb)%nat) with true by (symmetry; apply Nat.ltb_lt; lia).
      reflexivity. }
    assert (Hl : nth_error (bin_labels toFixed2 edges) (Z.to_nat nb - 1) =
                 Some (toFixed2 (edge_start (bin_edge_at (math_min r0 rs) (math_max r0 rs)
                            (bin_width (js_sub (math_max r0 rs) (math_min r0 rs)) nb) nb (Z.to_nat nb - 1))) ++ "%")).
    { unfold bin_labels. rewrite nth_error_map, Hlast. reflexivity. }
    unfold tooltip_title. rewrite Hlast, (nth_error_nth _ _ _ Hl).
    unfold bin_edge_at at 2. cbv zeta. cbn [edge_end].
    rewrite (proj2 (Z.eqb_eq _ _)) by lia. rewrite str_app_assoc. reflexivity.
  - intros i Hi. unfold tooltip_title.
    replace (nth_error edges i) with (@None (bin_edge float)); [reflexivity|].
    symmetry. apply nth_error_None. unfold edges. rewrite bin_edges_length. exact Hi.
Qed.

Lemma ticks_table : forallb ticks_ok (map Z.of_nat (seq 10 11)) = true.
Proof. vm_compute. reflexivity. Qed.

Lemma ticks_ok_range nb : (10 <= nb <= 20)%Z -> ticks_ok nb = true.
Proof.
  intros Hnb. pose proof ticks_table as T. rewrite forallb_forall in T.
  apply T. apply in_map_iff. exists (Z.to_nat nb). split; [lia|].
  apply in_seq. lia.
Qed.

(** X6: the tick callback of the ui.js histogram labels between 5 and 8 of the bars, always the first one, and never two adjacent bars. *)
Theorem X6_histogram_ticks (toFixed2 : float -> string) (r0 : float) (rs : list float)
    (d : hist_data float) :
  binning toFixed2 r0 rs = inr d ->
  let shown := filter (fun i => negb (String.eqb (tick_label (h_numBins d) i (nth i (h_labels d) "")) ""))
                 (seq 0 (Z.to_nat (h_numBins d))) in
  (5 <= List.length shown <= 8)%nat /\ In 0%nat shown /\
  forall i, In i shown -> ~ In (S i) shown.
Proof.
  intros E. destruct (binning_eq toFixed2 r0 rs) as [nb [Hnb Hb]]. cbv zeta in Hb.
  rewrite Hb in E. injection E as <-. cbn [h_labels h_numBins]. cbv zeta.
  set (edges := bin_edges _ _ _ nb).
  assert (Hsh : filter (fun i => negb (String.eqb (tick_label nb i (nth i (bin_labels toFixed2 edges) "")) ""))
                  (seq 0 (Z.to_nat nb)) = ticks_shown nb).
  { unfold ticks_shown. apply filter_ext_in. intros i Hi. apply in_seq in Hi.
    unfold tick_label.
    destruct (rem_is_zero _ _); [|reflexivity]. simpl.
    assert (He : (i < List.length edges)%nat) by (unfold edges; rewrite bin_edges_length; lia).
    apply nth_error_Some in He. destruct (nth_error edges i) as [e|] eqn:Ee; [|congruence].
    assert (Hl : nth_error (bin_labels toFixed2 edges) i = Some (toFixed2 (edge_start e) ++ "%")).
    { unfold bin_labels. rewrite nth_error_map, Ee. reflexivity. }
    rewrite (nth_error_nth _ _ _ Hl).
    destruct (String.eqb_spec (toFixed2 (edge_start e) ++ "%") "") as [C|C];
      [exfalso; revert C; apply str_app_nonempty; discriminate | reflexivity]. }
  rewrite Hsh. pose proof (ticks_ok_range nb Hnb) as T. unfold ticks_ok in T. cbv zeta in T.
  rewrite !andb_true_iff in T. destruct T as [[[T1 T2] T3] T4].
  apply Nat.leb_le in T1, T2. split; [lia|]. split.
  - apply existsb_exists in T3. destruct T3 as [x [Hx Ex]]. apply Nat.eqb_eq in Ex. subst. exact Hx.
  - intros i Hi Hs. rewrite forallb_forall in T4. specialize (T4 i Hi).
    apply negb_true_iff in T4. rewrite <- not_true_iff_false in T4. apply T4.
    apply existsb_exists. exists (S i). split; [exact Hs | apply Nat.eqb_refl].
Qed.

(** ** Class lists *)
Lemma filter_all {A} (f : A -> bool) l : (forall x, In x l -> f x = true) -> filter f l = l.
Proof.
  induction l as [|x l IH]; intros H; simpl; [reflexivity|].
  rewrite (H x (or_introl eq_refl)), IH; [reflexivity|]. intros y Hy. apply H. right. exact Hy.
Qed.

Lemma in_class_set c l : In c (class_set l) <-> In c l.
Proof.
  induction l as [|x l IH]; simpl; [tauto|].
  rewrite filter_In, IH. destruct (String.eqb_spec x c); simpl; intuition congruence.
Qed.

Lemma NoDup_class_set l : NoDup (class_set l).
Proof.
  induction l as [|x l IH]; simpl; constructor.
  - rewrite filter_In. intros [_ H]. rewrite String.eqb_refl in H. discriminate.
  - apply NoDup_filter. exact IH.
Qed.

Lemma class_set_NoDup l : NoDup l -> class_set l = l.
Proof.
  induction 1 as [|x l Hx Hl IH]; simpl; [reflexivity|].
  rewrite IH, filter_all; [reflexivity|].
  intros y Hy. destruct (String.eqb_spec x y); [subst; contradiction | reflexivity].
Qed.

Lemma class_add_remove cls ts l : In cls ts ->
  class_add cls (class_remove ts l) = (class_remove ts l ++ [cls])%list.
Proof.
  intros Hin. unfold class_add.
  rewrite class_set_NoDup by (apply NoDup_filter, NoDup_class_set).
  replace (existsb (String.eqb cls) (class_remove ts l)) with false; [reflexivity|].
  symmetry. apply not_true_iff_false. rewrite existsb_exists. intros [y [Hy E]].
  apply String.eqb_eq in E. subst y. unfold class_remove in Hy. apply filter_In in Hy.
  destruct Hy as [_ Hy]. apply negb_true_iff, not_true_iff_false in Hy. apply Hy.
  apply existsb_exists. exists cls. split; [exact Hin | apply String.eqb_refl].
Qed.

Lemma existsb_string_In c ts : existsb (String.eqb c) ts = true <-> In c ts.
Proof.
  rewrite existsb_exists. split.
  - intros [y [Hy E]]. apply String.eqb_eq in E. subst. exact Hy.
  - intros H. exists c. split; [exact H | apply String.eqb_refl].
Qed.

Lemma filter_neg_filter {A} (f : A -> bool) l : filter f (filter (fun x => negb (f x)) l) = [].
Proof. induction l as [|x l IH]; simpl; [reflexivity|]. destruct (f x) eqn:E; simpl; [exact IH | rewrite E; exact IH]. Qed.

(** Replacing the classes [ts] by [cls], one of them, leaves [cls] as the
    only class of [ts] and keeps every other class. *)
Lemma swap_class cls ts l : In cls ts ->
  filter (fun c => existsb (String.eqb c) ts) (class_add cls (class_remove ts l)) = [cls] /\
  (forall c, ~ In c ts -> In c (class_add cls (class_remove ts l)) <-> In c l).
Proof.
  intros Hin. rewrite class_add_remove by exact Hin. split.
  - rewrite filter_app. unfold class_remove. rewrite (filter_neg_filter (fun c => existsb (String.eqb c) ts)).
    simpl. rewrite (proj2 (existsb_string_In cls ts) Hin). reflexivity.
  - intros c Hc. rewrite in_app_iff. unfold class_remove. rewrite filter_In, in_class_set.
    simpl. split.
    + intros [[H _] | [H | []]]; [exact H | subst; contradiction].
    + intros H. left. split; [exact H|]. apply negb_true_iff, not_true_iff_false.
      rewrite existsb_string_In. exact Hc.
Qed.

(** ** The document *)
Lemma find_index_spec {A} (f : A -> bool) l k :
  find_index f l = Some k -> exists x, nth_error l k = Some x /\ f x = true.
Proof.
  revert k; induction l as [|x l IH]; intros k; simpl; [discriminate|].
  destruct (f x) eqn:E.
  - intros H; injection H as <-. exists x. split; [reflexivity | exact E].
  - destruct (find_index f l) as [j|] eqn:Ej; simpl; [|discriminate].
    intros H; injection H as <-. apply IH. reflexivity.
Qed.

Lemma getElementById_spec d id k :
  getElementById d id = Some k -> exists e, nth_error d k = Some e /\ el_id e = id.
Proof.
  unfold getElementById. destruct (String.eqb id ""); [discriminate|].
  intros H. destruct (find_index_spec _ _ _ H) as [e [He E]].
  apply String.eqb_eq in E. eauto.
Qed.

(** Two lookups of different ids never return the same element. *)
Lemma getElementById_diff d id id' k k' :
  getElementById d id = Some k -> getElementById d id' = Some k' -> id <> id' -> k <> k'.
Proof.
  intros H H' Hne ->. destruct (getElementById_spec _ _ _ H) as [e [He Ee]].
  destruct (getElementById_spec _ _ _ H') as [e' [He' Ee']]. congruence.
Qed.

Lemma find_index_ext {A} (f g : A -> bool) l :
  (forall x, f x = g x) -> find_index f l = find_index g l.
Proof. intros H. induction l as [|x l IH]; simpl; [reflexivity|]. rewrite H, IH. reflexivity. Qed.

Lemma find_index_update {A} (f : A -> bool) (h : A -> A) k l :
  (forall x, f (h x) = f x) -> find_index f (update_nth k h l) = find_index f l.
Proof.
  intros H. revert k; induction l as [|x l IH]; intros [|k]; simpl; try reflexivity.
  - rewrite H. reflexivity.
  - rewrite IH. reflexivity.
Qed.

Lemma getElementById_update d k h id :
  (forall e, el_id (h e) = el_id e) -> getElementById (update_nth k h d) id = getElementById d id.
Proof.
  intros H. unfold getElementById. destruct (String.eqb id ""); [reflexivity|].
  apply find_index_update. intros e. rewrite H. reflexivity.
Qed.

Lemma nth_error_update_same {A} k (f : A -> A) l x :
  nth_error l k = Some x -> nth_error (update_nth k f l) k = Some (f x).
Proof. intros H. rewrite nth_error_update_nth, Nat.eqb_refl, H. reflexivity. Qed.

Lemma nth_error_update_other {A} k j (f : A -> A) l :
  j <> k -> nth_error (update_nth k f l) j = nth_error l j.
Proof. intros H. rewrite nth_error_update_nth. apply Nat.eqb_neq in H. rewrite H. reflexivity. Qed.

Lemma length_update_nth {A} k (f : A -> A) l : List.length (update_nth k f l) = List.length l.
Proof. apply update_nth_length. Qed.

Section UIFacts.
Variables (toLocaleINR2 toFixed2 toLocaleGeneral number_to_string : float -> string)
  (string_to_number : string -> float).


Lemma updateText_lookup s id v dv id' :
  getElementById (doc (updateText toLocaleINR2 toFixed2 toLocaleGeneral number_to_string s id v dv)) id' = getElementById (doc s) id'.
Proof.
  unfold updateText. destruct (getElementById (doc s) id); simpl; [|reflexivity].
  apply getElementById_update. reflexivity.
Qed.

Lemma updateText_other s id v dv id' k :
  getElementById (doc s) id' = Some k -> id <> id' ->
  nth_error (doc (updateText toLocaleINR2 toFixed2 toLocaleGeneral number_to_string s id v dv)) k = nth_error (doc s) k.
Proof.
  intros Hk Hne. unfold updateText. destruct (getElementById (doc s) id) as [k'|] eqn:E; simpl; [|reflexivity].
  apply nth_error_update_other. exact (getElementById_diff _ _ _ _ _ Hk E (not_eq_sym Hne)).
Qed.

Lemma updateText_at s id v dv k e :
  getElementById (doc s) id = Some k -> nth_error (doc s) k = Some e ->
  nth_error (doc (updateText toLocaleINR2 toFixed2 toLocaleGeneral number_to_string s id v dv)) k = Some (set_el_text (text_content toLocaleINR2 toFixed2 toLocaleGeneral number_to_string id v dv) e).
Proof.
  intros Hk He. unfold updateText. rewrite Hk. simpl. apply nth_error_update_same. exact He.
Qed.

End UIFacts.

(** X7: [updateSentiment] on an existing element sets its text to the sentiment (or "Neutral"), leaves it exactly one colour class (green for "Positive", red for "Negative", neutral otherwise), keeps its other classes and changes no other element. *)
Theorem X7_updateSentiment (number_to_string : float -> string) (s : ui_state)
    (elementId : string) (sentiment : jsval) (k : nat) (e : element) :
  getElementById (doc s) elementId = Some k -> nth_error (doc s) k = Some e ->
  let s' := updateSentiment number_to_string s elementId sentiment in
  let cls := if is_str sentiment "Positive" then "text-green"
             else if is_str sentiment "Negative" then "text-red" else "text-neutral" in
  exists e', nth_error (doc s') k = Some e' /\
    el_text e' = js_to_string number_to_string (js_nullish sentiment (JStr "Neutral")) /\
    filter (fun c => existsb (String.eqb c) sentiment_classes) (el_classes e') = [cls] /\
    (forall c, ~ In c sentiment_classes -> In c (el_classes e') <-> In c (el_classes e)) /\
    (forall j, j <> k -> nth_error (doc s') j = nth_error (doc s) j).
Proof.
  intros Hk He s' cls. unfold s', updateSentiment. rewrite Hk. cbv zeta. cbn [doc].
  assert (Hc : (if is_str (js_nullish sentiment (JStr "Neutral")) "Positive" then "text-green"
                else if is_str (js_nullish sentiment (JStr "Neutral")) "Negative" then "text-red"
                else "text-neutral") = cls).
  { unfold cls. destruct sentiment; reflexivity. }
  rewrite Hc. eexists. split; [apply nth_error_update_same; exact He|].
  cbn [map_classes set_el_text el_text el_classes].
  assert (Hin : In cls sentiment_classes).
  { unfold cls, sentiment_classes. destruct (is_str _ _); [|destruct (is_str _ _)]; simpl; auto. }
  destruct (swap_class cls sentiment_classes (el_classes e) Hin) as [H1 H2].
  split; [reflexivity|]. split; [exact H1|]. split; [exact H2|].
  intros j Hj. apply nth_error_update_other. exact Hj.
Qed.

Section Statistics.
Variables (toLocaleINR2 toFixed2 toLocaleGeneral number_to_string : float -> string)
  (statistics : string -> jsval).

Lemma updateStatistics_fold s :
  updateStatistics toLocaleINR2 toFixed2 toLocaleGeneral number_to_string s statistics =
  fold_left (stat_step toLocaleINR2 toFixed2 toLocaleGeneral number_to_string statistics) stat_fields s.
Proof. reflexivity. Qed.

Lemma stat_step_lookup s f id :
  getElementById (doc ((stat_step toLocaleINR2 toFixed2 toLocaleGeneral number_to_string statistics) s f)) id = getElementById (doc s) id.
Proof. destruct f. apply updateText_lookup. Qed.

Lemma fold_stat_untouched fs s id k :
  ~ In id (map fst fs) -> getElementById (doc s) id = Some k ->
  nth_error (doc (fold_left (stat_step toLocaleINR2 toFixed2 toLocaleGeneral number_to_string statistics) fs s)) k = nth_error (doc s) k.
Proof.
  revert s; induction fs as [|[id' key'] fs IH]; intros s Hn Hk; simpl; [reflexivity|].
  simpl in Hn. rewrite IH.
  - apply updateText_other with (id' := id); [exact Hk|]. intros E. apply Hn. left. exact E.
  - intros H. apply Hn. right. exact H.
  - rewrite (stat_step_lookup s (id', key')). exact Hk.
Qed.

Lemma fold_stat_at fs s id key k e :
  NoDup (map fst fs) -> In (id, key) fs ->
  getElementById (doc s) id = Some k -> nth_error (doc s) k = Some e ->
  nth_error (doc (fold_left (stat_step toLocaleINR2 toFixed2 toLocaleGeneral number_to_string statistics) fs s)) k =
    Some (set_el_text (text_content toLocaleINR2 toFixed2 toLocaleGeneral number_to_string id (statistics key) "-") e).
Proof.
  revert s; induction fs as [|[id' key'] fs IH]; intros s Hnd Hin Hk He; simpl; [destruct Hin|].
  inversion Hnd as [|x l Hnotin Hnd' [Ex El]]. simpl in Hnotin.
  destruct (String.eqb_spec id' id) as [<- | Hne].
  - destruct Hin as [E | Hin].
    + injection E as <-. rewrite (fold_stat_untouched fs _ id' k); [ | exact Hnotin | ].
      * apply updateText_at; assumption.
      * rewrite (stat_step_lookup s (id', key')). exact Hk.
    + exfalso. apply Hnotin. apply in_map_iff. exists (id', key). auto.
  - destruct Hin as [E | Hin]; [injection E as E1 _; contradiction|].
    apply IH; [exact Hnd' | exact Hin | |].
    + rewrite (stat_step_lookup s (id', key')). exact Hk.
    + simpl. rewrite (updateText_other _ _ _ _ _ _ _ _ _ _ Hk Hne). exact He.
Qed.

Lemma stat_fields_NoDup : NoDup (map fst stat_fields).
Proof.
  simpl. repeat constructor; simpl; intros H;
    repeat (destruct H as [H | H]; [discriminate H |]); exact H.
Qed.

End Statistics.

(** X8: [updateStatistics] shows "-" in a statistic's element when the value is undefined, null or a non-finite number. *)
Theorem X8_statistics_missing (toLocaleINR2 toFixed2 toLocaleGeneral number_to_string : float -> string)
    (s : ui_state) (statistics : string -> jsval) (id key : string) (k : nat) (e : element) :
  In (id, key) stat_fields ->
  getElementById (doc s) id = Some k -> nth_error (doc s) k = Some e ->
  (statistics key = JUndef \/ statistics key = JNull \/
   exists x, statistics key = JNum x /\ PrimFloat.is_finite x = false) ->
  nth_error (doc (updateStatistics toLocaleINR2 toFixed2 toLocaleGeneral number_to_string s statistics)) k =
    Some (set_el_text "-" e).
Proof.
  intros Hin Hk He Hv. rewrite updateStatistics_fold.
  rewrite (fold_stat_at _ _ _ _ _ _ _ _ _ _ _ stat_fields_NoDup Hin Hk He).
  unfold text_content. destruct Hv as [-> | [-> | [x [-> Hx]]]]; [reflexivity | reflexivity |].
  rewrite Hx. reflexivity.
Qed.

(** X9: [updateStatistics] formats a finite mean daily return percentage as a rupee amount (its element id contains "mean"), not as a percentage. *)
Theorem X9_mean_return_as_rupees (toLocaleINR2 toFixed2 toLocaleGeneral number_to_string : float -> string)
    (s : ui_state) (statistics : string -> jsval) (k : nat) (e : element) (x : float) :
  getElementById (doc s) "stat-mean_daily_return_percent" = Some k -> nth_error (doc s) k = Some e ->
  statistics "mean_daily_return_percent" = JNum x -> PrimFloat.is_finite x = true ->
  nth_error (doc (updateStatistics toLocaleINR2 toFixed2 toLocaleGeneral number_to_string s statistics)) k =
    Some (set_el_text (rupee_prefix ++ toLocaleINR2 x) e).
Proof.
  intros Hk He Hv Hx. rewrite updateStatistics_fold.
  rewrite (fold_stat_at _ _ _ _ _ stat_fields s "stat-mean_daily_return_percent" "mean_daily_return_percent"
             k e stat_fields_NoDup); [ | simpl; tauto | exact Hk | exact He].
  unfold text_content. rewrite Hv, Hx. reflexivity.
Qed.

Lemma prefix_plus_app (a b : string) :
  String.prefix "+" (a ++ b) = match a with EmptyString => String.prefix "+" b | _ => String.prefix "+" a end.
Proof.
  destruct a as [|c a]; [reflexivity|]. cbn [append prefix].
  destruct (Ascii.ascii_dec _ c); [destruct a; [destruct b|]; reflexivity | reflexivity].
Qed.

Section StockInfo.
Variables (toLocaleINR2 toFixed2 toLocaleGeneral number_to_string : float -> string)
  (string_to_number : string -> float).

Lemma updateText_keep id' k e s id v dv :
  id <> id' ->
  getElementById (doc s) id' = Some k /\ nth_error (doc s) k = Some e ->
  getElementById (doc (updateText toLocaleINR2 toFixed2 toLocaleGeneral number_to_string s id v dv)) id' = Some k /\
  nth_error (doc (updateText toLocaleINR2 toFixed2 toLocaleGeneral number_to_string s id v dv)) k = Some e.
Proof.
  intros Hne [Hk He]. split.
  - rewrite updateText_lookup. exact Hk.
  - rewrite (updateText_other _ _ _ _ _ _ _ _ _ _ Hk Hne). exact He.
Qed.

(** The four header updates of [updateStockInfo] leave [#stock-change-header] alone. *)
Lemma stock_headers_keep s stockInfo k e :
  getElementById (doc s) "stock-change-header" = Some k -> nth_error (doc s) k = Some e ->
  exists s4,
    updateStockInfo toLocaleINR2 toFixed2 toLocaleGeneral number_to_string string_to_number s stockInfo =
    match getElementById (doc s4) "stock-change-header" with
    | Some k =>
        if truthy (stockInfo "currentPrice") && truthy (stockInfo "previousClose") then
          let cp := stockInfo "currentPrice" in
          let pc := stockInfo "previousClose" in
          mk_ui (update_nth k (fun e =>
                   map_classes (fun l => class_add (change_class string_to_number cp pc)
                                           (class_remove sentiment_classes l))
                     (set_el_text (change_text toFixed2 string_to_number cp pc) e)) (doc s4))
            (ui_console s4)
        else mk_ui (update_nth k (set_el_text "") (doc s4)) (ui_console s4)
    | None => s4
    end /\
    getElementById (doc s4) "stock-change-header" = Some k /\ nth_error (doc s4) k = Some e.
Proof.
  intros Hk He. eexists. split; [reflexivity|].
  repeat (apply updateText_keep; [discriminate|]). split; assumption.
Qed.

End StockInfo.

(** X10: after [updateStockInfo] with both prices set, the change header has exactly one colour class, it is green exactly when the text starts with "+", and its other classes are kept. *)
Theorem X10_change_sign (toLocaleINR2 toFixed2 toLocaleGeneral number_to_string : float -> string)
    (string_to_number : string -> float) (s : ui_state) (stockInfo : string -> jsval) (k : nat) (e : element) :
  getElementById (doc s) "stock-change-header" = Some k -> nth_error (doc s) k = Some e ->
  truthy (stockInfo "currentPrice") = true -> truthy (stockInfo "previousClose") = true ->
  (forall x, String.prefix "+" (toFixed2 x) = false) ->
  exists e',
    nth_error (doc (updateStockInfo toLocaleINR2 toFixed2 toLocaleGeneral number_to_string
                      string_to_number s stockInfo)) k = Some e' /\
    List.length (filter (fun c => existsb (String.eqb c) sentiment_classes) (el_classes e')) = 1%nat /\
    (In "text-green" (el_classes e') <-> String.prefix "+" (el_text e') = true) /\
    (forall c, ~ In c sentiment_classes -> In c (el_classes e') <-> In c (el_classes e)).
Proof.
  intros Hk He Hcp Hpc Hfix.
  destruct (stock_headers_keep toLocaleINR2 toFixed2 toLocaleGeneral number_to_string string_to_number
              s stockInfo k e Hk He) as [s4 [-> [Hk4 He4]]].
  rewrite Hk4, Hcp, Hpc. cbv zeta. simpl andb. cbv iota.
  eexists. split; [apply nth_error_update_same; exact He4|].
  cbn [map_classes set_el_text el_text el_classes].
  set (cls := change_class string_to_number (stockInfo "currentPrice") (stockInfo "previousClose")).
  assert (Hin : In cls sentiment_classes).
  { unfold cls, change_class, sentiment_classes. cbv zeta.
    destruct (PrimFloat.ltb _ _); [|destruct (PrimFloat.ltb _ _)]; simpl; auto. }
  destruct (swap_class cls sentiment_classes (el_classes e) Hin) as [H1 H2].
  split; [rewrite H1; reflexivity|]. split; [|exact H2].
  assert (Hg : In "text-green" (class_add cls (class_remove sentiment_classes (el_classes e))) <->
               cls = "text-green").
  { split.
    - intros H.
      assert (Hf : In "text-green" (filter (fun c => existsb (String.eqb c) sentiment_classes)
                                      (class_add cls (class_remove sentiment_classes (el_classes e)))))
        by (apply filter_In; split; [exact H | reflexivity]).
      rewrite H1 in Hf. destruct Hf as [Hf | []]. exact Hf.
    - intros Hc.
      assert (Hf : In cls (filter (fun c => existsb (String.eqb c) sentiment_classes)
                             (class_add cls (class_remove sentiment_classes (el_classes e)))))
        by (rewrite H1; left; reflexivity).
      apply filter_In in Hf. rewrite <- Hc. exact (proj1 Hf). }
  rewrite Hg. unfold cls, change_class, change_text. cbv zeta.
  destruct (PrimFloat.ltb 0 _) eqn:Epos.
  - rewrite prefix_plus_app. split; reflexivity.
  - simpl append. rewrite prefix_plus_app.
    match goal with |- context [toFixed2 ?c] => destruct (toFixed2 c) eqn:Ef end.
    + split; [intros H; exfalso; revert H; match goal with |- context [PrimFloat.ltb ?a ?b] => destruct (PrimFloat.ltb a b) end; intros C; discriminate C | intros H; exfalso; revert H; vm_compute; discriminate].
    + rewrite <- Ef, Hfix. split; [intros H; exfalso; revert H; match goal with |- context [PrimFloat.ltb ?a ?b] => destruct (PrimFloat.ltb a b) end; intros C; discriminate C | discriminate].
Qed.

(** X11: after [updateStockInfo] with a missing current price or previous close, the change header is empty and its classes are unchanged. *)
Theorem X11_change_cleared (toLocaleINR2 toFixed2 toLocaleGeneral number_to_string : float -> string)
    (string_to_number : string -> float) (s : ui_state) (stockInfo : string -> jsval) (k : nat) (e : element) :
  getElementById (doc s) "stock-change-header" = Some k -> nth_error (doc s) k = Some e ->
  (truthy (stockInfo "currentPrice") = false \/ truthy (stockInfo "previousClose") = false) ->
  nth_error (doc (updateStockInfo toLocaleINR2 toFixed2 toLocaleGeneral number_to_string
                    string_to_number s stockInfo)) k = Some (set_el_text "" e).
Proof.
  intros Hk He Hf.
  destruct (stock_headers_keep toLocaleINR2 toFixed2 toLocaleGeneral number_to_string string_to_number
              s stockInfo k e Hk He) as [s4 [-> [Hk4 He4]]].
  rewrite Hk4. replace (truthy (stockInfo "currentPrice") && truthy (stockInfo "previousClose")) with false
    by (destruct Hf as [-> | ->]; [reflexivity | symmetry; apply andb_false_r]).
  simpl. apply nth_error_update_same. exact He4.
Qed.

(** X12: [updateIntradayWidget] shows "N/A" as the match count when [similar_pattern_found] is falsy (0 included), next to the formatted probability. *)
Theorem X12_intraday_zero_matches (toLocaleINR2 toFixed2 toLocaleGeneral number_to_string : float -> string)
    (s : ui_state) (d : string -> jsval) (k : nat) (e : element) (x : float) :
  getElementById (doc s) "pred-intraday-match" = Some k -> nth_error (doc s) k = Some e ->
  truthy (d "similar_pattern_found") = false -> d "probability" = JNum x -> toFixed2 x <> "" ->
  exists s', updateIntradayWidget toLocaleINR2 toFixed2 toLocaleGeneral number_to_string s (Some d) = inr s' /\
    nth_error (doc s') k = Some (set_el_text ("Matches: N/A (Prob: " ++ toFixed2 x ++ ")") e).
Proof.
  intros Hk He Hs Hp Hx. unfold updateIntradayWidget. rewrite Hp. cbv zeta. eexists. split; [reflexivity|].
  set (s1 := mk_ui (doc s) _).
  assert (Hk1 : getElementById (doc s1) "pred-intraday-match" = Some k) by exact Hk.
  assert (He1 : nth_error (doc s1) k = Some e) by exact He.
  match goal with |- context [updateText ?a ?b ?c ?n s1 ?id ?v ?dv] =>
    set (s2 := updateText a b c n s1 id v dv) end.
  assert (Hk2 : getElementById (doc s2) "pred-intraday-match" = Some k)
    by (unfold s2; rewrite updateText_lookup; exact Hk1).
  rewrite (updateText_other _ _ _ _ _ _ _ _ _ _ Hk2) by discriminate.
  unfold s2. rewrite (updateText_at _ _ _ _ _ _ _ _ _ _ Hk1 He1). f_equal. f_equal.
  unfold text_content, js_or. rewrite Hs.
  replace (truthy (JStr (toFixed2 x))) with true
    by (simpl; destruct (String.eqb_spec (toFixed2 x) ""); [contradiction | reflexivity]).
  reflexivity.
Qed.

Lemma in_class_add c t l : In c (class_add t l) <-> c = t \/ In c l.
Proof.
  unfold class_add. destruct (existsb (String.eqb t) (class_set l)) eqn:E.
  - apply existsb_string_In in E. rewrite in_class_set in E. rewrite in_class_set.
    split; [intros H; right; exact H | intros [-> | H]; [exact E | exact H]].
  - rewrite in_app_iff, in_class_set. simpl. intuition.
Qed.

Lemma not_in_class_remove c ts l : In c ts -> ~ In c (class_remove ts l).
Proof.
  intros Hc H. unfold class_remove in H. apply filter_In in H. destruct H as [_ H].
  apply negb_true_iff, not_true_iff_false in H. apply H. apply existsb_string_In. exact Hc.
Qed.

Lemma no_active_remove d b q : no_active d q -> no_active (update_nth b remove_active d) q.
Proof.
  intros H e. rewrite nth_error_update_nth. destruct (Nat.eqb q b).
  - destruct (nth_error d q); simpl; [|discriminate]. intros E; injection E as <-.
    apply not_in_class_remove. left. reflexivity.
  - apply H.
Qed.

Lemma no_active_remove_at d q : no_active (update_nth q remove_active d) q.
Proof.
  intros e. rewrite nth_error_update_nth, Nat.eqb_refl.
  destruct (nth_error d q); simpl; [|discriminate]. intros E; injection E as <-.
  apply not_in_class_remove. left. reflexivity.
Qed.

Lemma fold_remove_keep ps d q :
  no_active d q -> no_active (fold_left (fun d b => update_nth b remove_active d) ps d) q.
Proof.
  revert d; induction ps as [|p ps IH]; intros d H; simpl; [exact H|].
  apply IH. apply no_active_remove. exact H.
Qed.

Lemma fold_remove_in ps d q :
  In q ps -> no_active (fold_left (fun d b => update_nth b remove_active d) ps d) q.
Proof.
  revert d; induction ps as [|p ps IH]; intros d H; simpl; [destruct H|].
  destruct H as [<- | H].
  - apply fold_remove_keep. apply no_active_remove_at.
  - apply IH. exact H.
Qed.

Lemma fold_remove_out ps d q :
  ~ In q ps -> nth_error (fold_left (fun d b => update_nth b remove_active d) ps d) q = nth_error d q.
Proof.
  revert d; induction ps as [|p ps IH]; intros d H; simpl; [reflexivity|].
  rewrite IH by (intros C; apply H; right; exact C).
  apply nth_error_update_other. intros ->. apply H. left. reflexivity.
Qed.

Lemma id_tabs_update d k f :
  (forall e, el_id (f e) = el_id e /\ el_tab (f e) = el_tab e) ->
  id_tabs (update_nth k f d) = id_tabs d.
Proof.
  intros H. revert k; induction d as [|x d IH]; intros [|k]; simpl; try reflexivity.
  - destruct (H x) as [-> ->]. reflexivity.
  - rewrite IH. reflexivity.
Qed.

Lemma fold_remove_id_tabs ps d :
  id_tabs (fold_left (fun d b => update_nth b remove_active d) ps d) = id_tabs d.
Proof.
  revert d; induction ps as [|p ps IH]; intros d; simpl; [reflexivity|].
  rewrite IH. apply id_tabs_update. intros e. split; reflexivity.
Qed.

Lemma fold_remove_length ps d :
  List.length (fold_left (fun d b => update_nth b remove_active d) ps d) = List.length d.
Proof.
  revert d; induction ps as [|p ps IH]; intros d; simpl; [reflexivity|].
  rewrite IH. apply update_nth_length.
Qed.

Lemma find_index_map {A B} (f : B -> bool) (g : A -> B) l :
  find_index (fun x => f (g x)) l = find_index f (map g l).
Proof. induction l as [|x l IH]; simpl; [reflexivity|]. rewrite IH. reflexivity. Qed.

Lemma getElementById_id_tabs d1 d2 id :
  id_tabs d1 = id_tabs d2 -> getElementById d1 id = getElementById d2 id.
Proof.
  intros H. unfold getElementById. destruct (String.eqb id ""); [reflexivity|].
  transitivity (find_index (fun p => String.eqb (fst p) id) (id_tabs d1));
    [apply (find_index_map (fun p => String.eqb (fst p) id) (fun e => (el_id e, el_tab e)))|].
  rewrite H. symmetry.
  apply (find_index_map (fun p => String.eqb (fst p) id) (fun e => (el_id e, el_tab e))).
Qed.

Lemma dataset_tab_id_tabs d1 d2 b :
  id_tabs d1 = id_tabs d2 -> dataset_tab d1 b = dataset_tab d2 b.
Proof.
  intros H. unfold dataset_tab.
  assert (E : nth_error (id_tabs d1) b = nth_error (id_tabs d2) b) by (rewrite H; reflexivity).
  unfold id_tabs in E. rewrite !nth_error_map in E.
  destruct (nth_error d1 b) as [e1|], (nth_error d2 b) as [e2|]; simpl in E; try discriminate; [|reflexivity].
  injection E as _ ->. reflexivity.
Qed.

(** X13: after a click on a tab button, the button and the tab its [data-tab] names are active, no other button or content of the widget is, and elements outside the widget are unchanged. *)
Theorem X13_tab_click (tabButtons tabContents : list nat) (button : nat) (d : list element) :
  (button < List.length d)%nat ->
  let d' := tab_click tabButtons tabContents button d in
  let target := getElementById d (dataset_tab d button) in
  List.length d' = List.length d /\
  (exists e, nth_error d' button = Some e /\ In "active" (el_classes e)) /\
  (forall t, target = Some t -> exists e, nth_error d' t = Some e /\ In "active" (el_classes e)) /\
  (forall q e, In q (tabButtons ++ tabContents) -> q <> button -> target <> Some q ->
     nth_error d' q = Some e -> ~ In "active" (el_classes e)) /\
  (forall q, ~ In q (tabButtons ++ tabContents) -> q <> button -> target <> Some q ->
     nth_error d' q = nth_error d q).
Proof.
  intros Hb d' target. unfold d', tab_click. fold remove_active.
  set (d1 := fold_left (fun d b => update_nth b remove_active d) tabButtons d).
  set (d2 := fold_left (fun d b => update_nth b remove_active d) tabContents d1).
  set (d3 := update_nth button (map_classes (class_add "active")) d2).
  assert (Hid3 : id_tabs d3 = id_tabs d).
  { unfold d3. rewrite id_tabs_update by (intros e; split; reflexivity).
    unfold d2. rewrite fold_remove_id_tabs. unfold d1. apply fold_remove_id_tabs. }
  assert (Hl3 : List.length d3 = List.length d).
  { unfold d3, d2, d1. rewrite update_nth_length, !fold_remove_length. reflexivity. }
  assert (Ht : getElementById d3 (dataset_tab d3 button) = target).
  { unfold target. rewrite (dataset_tab_id_tabs _ _ _ Hid3). apply getElementById_id_tabs. exact Hid3. }
  rewrite Ht.
  (* the clicked button is active in [d3] *)
  assert (Hb3 : exists e, nth_error d3 button = Some e /\ In "active" (el_classes e)).
  { assert (Hb2 : (button < List.length d2)%nat) by (unfold d2, d1; rewrite !fold_remove_length; exact Hb).
    apply nth_error_Some in Hb2. destruct (nth_error d2 button) as [e2|] eqn:E2; [|congruence].
    exists (map_classes (class_add "active") e2). split.
    - unfold d3. apply nth_error_update_same. exact E2.
    - simpl. apply in_class_add. left. reflexivity. }
  (* outside the two lists, [d2] is [d] *)
  assert (Hout : forall q, ~ In q (tabButtons ++ tabContents) -> nth_error d2 q = nth_error d q).
  { intros q Hq. rewrite in_app_iff in Hq. unfold d2, d1.
    rewrite !fold_remove_out; [reflexivity | |]; intros C; apply Hq; auto. }
  (* on the two lists, nothing is active in [d2] *)
  assert (Hin : forall q, In q (tabButtons ++ tabContents) -> no_active d2 q).
  { intros q Hq. apply in_app_iff in Hq. destruct Hq as [Hq | Hq].
    - unfold d2. apply fold_remove_keep. unfold d1. apply fold_remove_in. exact Hq.
    - unfold d2. apply fold_remove_in. exact Hq. }
  destruct target as [t|] eqn:Etarget.
  - assert (Ht3 : (t < List.length d3)%nat).
    { destruct (getElementById_spec _ _ _ Etarget) as [e [He _]].
      rewrite Hl3. apply nth_error_Some. congruence. }
    apply nth_error_Some in Ht3. destruct (nth_error d3 t) as [e3|] eqn:E3; [|congruence].
    split; [rewrite update_nth_length; exact Hl3|].
    split; [|split; [|split]].
    + destruct Hb3 as [e [Hbe Ha]]. rewrite nth_error_update_nth.
      destruct (Nat.eqb_spec button t) as [<- | Hne].
      * rewrite Hbe. eexists. split; [reflexivity|]. simpl. apply in_class_add. right. exact Ha.
      * exists e. split; [exact Hbe | exact Ha].
    + intros t' E. injection E as <-. exists (map_classes (class_add "active") e3). split.
      * apply nth_error_update_same. exact E3.
      * simpl. apply in_class_add. left. reflexivity.
    + intros q e Hq Hqb Hqt. rewrite nth_error_update_other by congruence.
      unfold d3. rewrite nth_error_update_other by exact Hqb. apply Hin. exact Hq.
    + intros q Hq Hqb Hqt. rewrite nth_error_update_other by congruence.
      unfold d3. rewrite nth_error_update_other by exact Hqb. apply Hout. exact Hq.
  - split; [exact Hl3|]. split; [exact Hb3|]. split; [discriminate|]. split.
    + intros q e Hq Hqb _. unfold d3. rewrite nth_error_update_other by exact Hqb. apply Hin. exact Hq.
    + intros q Hq Hqb _. unfold d3. rewrite nth_error_update_other by exact Hqb. apply Hout. exact Hq.
Qed.

(** ** Instances of the further properties *)

(** X2 on a page with a canvas and a series of two points. *)
Lemma X2_witness :
  let p := mk_price_page (N := float) true None None true [] in
  let h := Arr [mk_point "2024-01-01" 10%float; mk_point "2024-01-02" 11%float] in
  price_canvas_present p = true /\
  let q := createOrUpdatePriceChart p h in
  ((h = Missing \/ h = Arr []) ->
     priceChart q = None /\ price_canvas_text q = Some "No historical data available.") /\
  (forall c, priceChart q = Some c ->
     exists pts, h = Arr pts /\ pts <> [] /\
       List.length (p_labels c) = List.length pts /\ List.length (p_data c) = List.length pts /\
       forall i pt, nth_error pts i = Some pt ->
         nth_error (p_labels c) i = Some (date pt) /\ nth_error (p_data c) i = Some (close pt)).
Proof.
  intros p h. split; [reflexivity|].
  exact (X2_price_chart_fresh p h eq_refl).
Defined.

(** X4 on a page with a canvas and a series of three returns. *)
Lemma X4_witness :
  let p := mk_page (N := float) true None None true [] in
  let a := Arr [1%float; 2%float; 4%float] in
  exists q,
    canvas_present p = true /\
    createOrUpdateReturnHistogram (fun _ => "0.00") p a = inr q /\
    forall d, histogramChart q = Some d ->
      exists r0 rs, a = Arr (r0 :: rs) /\ binning (fun _ => "0.00") r0 rs = inr d.
Proof.
  intros p a.
  destruct (createOrUpdateReturnHistogram (fun _ => "0.00") p a) as [x|q] eqn:E;
    [vm_compute in E; discriminate E|].
  exists q. split; [reflexivity|]. split; [reflexivity|].
  exact (X4_histogram_chart_fresh (fun _ => "0.00") p a q eq_refl E).
Defined.

(** X5 on the returns 1, 2 and 4. *)
Lemma X5_witness :
  exists d,
    binning (fun _ => "0.00") 1%float [2%float; 4%float] = inr d /\
    (forall i lbl, nth_error (h_labels d) i = Some lbl ->
       exists e, nth_error (h_edges d) i = Some e /\
         tooltip_title (fun _ => "0.00") (h_edges d) i "bar" =
           (lbl ++ " to " ++ (fun _ => "0.00") (edge_end e) ++ "%")) /\
    tooltip_title (fun _ => "0.00") (h_edges d) (Z.to_nat (h_numBins d) - 1) "bar" =
      (nth (Z.to_nat (h_numBins d) - 1) (h_labels d) "" ++ " to " ++
       (fun _ => "0.00") (math_max 1%float [2%float; 4%float]) ++ "%") /\
    (forall i, (Z.to_nat (h_numBins d) <= i)%nat ->
       tooltip_title (fun _ => "0.00") (h_edges d) i "bar" = "bar").
Proof.
  destruct (binning (fun _ => "0.00") 1%float [2%float; 4%float]) as [x|d] eqn:E;
    [vm_compute in E; discriminate E|].
  exists d. split; [reflexivity|].
  exact (X5_tooltip_title (fun _ => "0.00") 1%float [2%float; 4%float] d "bar" E).
Defined.

(** X6 on the returns 1, 2 and 4. *)
Lemma X6_witness :
  exists d,
    binning (fun _ => "0.00") 1%float [2%float; 4%float] = inr d /\
    let shown := filter (fun i => negb (String.eqb (tick_label (h_numBins d) i (nth i (h_labels d) "")) ""))
                   (seq 0 (Z.to_nat (h_numBins d))) in
    (5 <= List.length shown <= 8)%nat /\ In 0%nat shown /\
    forall i, In i shown -> ~ In (S i) shown.
Proof.
  destruct (binning (fun _ => "0.00") 1%float [2%float; 4%float]) as [x|d] eqn:E;
    [vm_compute in E; discriminate E|].
  exists d. split; [reflexivity|].
  exact (X6_histogram_ticks (fun _ => "0.00") 1%float [2%float; 4%float] d E).
Defined.

(** X7 on a document whose sentiment element is red. *)
Lemma X7_witness :
  let e := mk_el "news-sentiment" "Negative" ["badge"; "text-red"] None in
  let s := mk_ui [mk_el "title" "" [] None; e] [] in
  getElementById (doc s) "news-sentiment" = Some 1%nat /\ nth_error (doc s) 1 = Some e /\
  let s' := updateSentiment (fun _ => "") s "news-sentiment" (JStr "Positive") in
  let cls := if is_str (JStr "Positive") "Positive" then "text-green"
             else if is_str (JStr "Positive") "Negative" then "text-red" else "text-neutral" in
  exists e', nth_error (doc s') 1 = Some e' /\
    el_text e' = js_to_string (fun _ => "") (js_nullish (JStr "Positive") (JStr "Neutral")) /\
    filter (fun c => existsb (String.eqb c) sentiment_classes) (el_classes e') = [cls] /\
    (forall c, ~ In c sentiment_classes -> In c (el_classes e') <-> In c (el_classes e)) /\
    (forall j, j <> 1%nat -> nth_error (doc s') j = nth_error (doc s) j).
Proof.
  intros e s. split; [reflexivity|]. split; [reflexivity|].
  exact (X7_updateSentiment (fun _ => "") s "news-sentiment" (JStr "Positive") 1 e eq_refl eq_refl).
Defined.

(** X8 on a null mean. *)
Lemma X8_witness :
  let e := mk_el "stat-mean" "" [] None in
  let s := mk_ui [e] [] in
  let statistics := fun _ : string => JNull in
  In ("stat-mean", "mean") stat_fields /\
  getElementById (doc s) "stat-mean" = Some 0%nat /\ nth_error (doc s) 0 = Some e /\
  (statistics "mean" = JUndef \/ statistics "mean" = JNull \/
   exists x, statistics "mean" = JNum x /\ PrimFloat.is_finite x = false) /\
  nth_error (doc (updateStatistics (fun _ => "") (fun _ => "") (fun _ => "") (fun _ => "") s statistics)) 0 =
    Some (set_el_text "-" e).
Proof.
  intros e s statistics.
  assert (Hin : In ("stat-mean", "mean") stat_fields) by (simpl; right; right; left; reflexivity).
  assert (Hv : statistics "mean" = JUndef \/ statistics "mean" = JNull \/
               exists x, statistics "mean" = JNum x /\ PrimFloat.is_finite x = false)
    by (right; left; reflexivity).
  split; [exact Hin|]. split; [reflexivity|]. split; [reflexivity|]. split; [exact Hv|].
  exact (X8_statistics_missing (fun _ => "") (fun _ => "") (fun _ => "") (fun _ => "") s statistics
           "stat-mean" "mean" 0 e Hin eq_refl eq_refl Hv).
Defined.

(** X9 on a mean daily return of 0.5. *)
Lemma X9_witness :
  let e := mk_el "stat-mean_daily_return_percent" "" [] None in
  let s := mk_ui [e] [] in
  let statistics := fun k : string =>
    if String.eqb k "mean_daily_return_percent" then JNum 0.5%float else JUndef in
  getElementById (doc s) "stat-mean_daily_return_percent" = Some 0%nat /\ nth_error (doc s) 0 = Some e /\
  statistics "mean_daily_return_percent" = JNum 0.5%float /\ PrimFloat.is_finite 0.5%float = true /\
  nth_error (doc (updateStatistics (fun _ => "0,50") (fun _ => "0.50") (fun _ => "0.5") (fun _ => "0.5")
                    s statistics)) 0 =
    Some (set_el_text (rupee_prefix ++ "0,50") e).
Proof.
  intros e s statistics.
  split; [reflexivity|]. split; [reflexivity|]. split; [reflexivity|]. split; [reflexivity|].
  exact (X9_mean_return_as_rupees (fun _ => "0,50") (fun _ => "0.50") (fun _ => "0.5") (fun _ => "0.5")
           s statistics 0 e 0.5%float eq_refl eq_refl eq_refl eq_refl).
Defined.

(** X10 on a price that fell from 110 to 100. *)
Lemma X10_witness :
  let e := mk_el "stock-change-header" "" ["change"; "text-green"] None in
  let s := mk_ui [e] [] in
  let stockInfo := fun k : string =>
    if String.eqb k "currentPrice" then JNum 100%float
    else if String.eqb k "previousClose" then JNum 110%float else JUndef in
  getElementById (doc s) "stock-change-header" = Some 0%nat /\ nth_error (doc s) 0 = Some e /\
  truthy (stockInfo "currentPrice") = true /\ truthy (stockInfo "previousClose") = true /\
  (forall x : float, String.prefix "+" ((fun _ => "-9.09") x) = false) /\
  exists e',
    nth_error (doc (updateStockInfo (fun _ => "") (fun _ => "-9.09") (fun _ => "") (fun _ => "")
                      (fun _ => 0%float) s stockInfo)) 0 = Some e' /\
    List.length (filter (fun c => existsb (String.eqb c) sentiment_classes) (el_classes e')) = 1%nat /\
    (In "text-green" (el_classes e') <-> String.prefix "+" (el_text e') = true) /\
    (forall c, ~ In c sentiment_classes -> In c (el_classes e') <-> In c (el_classes e)).
Proof.
  intros e s stockInfo.
  assert (Hp : forall x : float, String.prefix "+" ((fun _ => "-9.09") x) = false)
    by (intros _; reflexivity).
  split; [reflexivity|]. split; [reflexivity|]. split; [vm_compute; reflexivity|].
  split; [vm_compute; reflexivity|]. split; [exact Hp|].
  exact (X10_change_sign (fun _ => "") (fun _ => "-9.09") (fun _ => "") (fun _ => "") (fun _ => 0%float)
           s stockInfo 0 e eq_refl eq_refl eq_refl eq_refl Hp).
Defined.

(** X11 on a stock whose previous close is missing. *)
Lemma X11_witness :
  let e := mk_el "stock-change-header" "+1.00 (+1.00%)" ["change"; "text-green"] None in
  let s := mk_ui [e] [] in
  let stockInfo := fun k : string =>
    if String.eqb k "currentPrice" then JNum 100%float else JUndef in
  getElementById (doc s) "stock-change-header" = Some 0%nat /\ nth_error (doc s) 0 = Some e /\
  (truthy (stockInfo "currentPrice") = false \/ truthy (stockInfo "previousClose") = false) /\
  nth_error (doc (updateStockInfo (fun _ => "") (fun _ => "") (fun _ => "") (fun _ => "")
                    (fun _ => 0%float) s stockInfo)) 0 = Some (set_el_text "" e).
Proof.
  intros e s stockInfo.
  assert (Hf : truthy (stockInfo "currentPrice") = false \/ truthy (stockInfo "previousClose") = false)
    by (right; reflexivity).
  split; [reflexivity|]. split; [reflexivity|]. split; [exact Hf|].
  exact (X11_change_cleared (fun _ => "") (fun _ => "") (fun _ => "") (fun _ => "") (fun _ => 0%float)
           s stockInfo 0 e eq_refl eq_refl Hf).
Defined.

(** X12 on a message with no similar pattern and a probability of 0.5. *)
Lemma X12_witness :
  let e := mk_el "pred-intraday-match" "" [] None in
  let s := mk_ui [e] [] in
  let d := fun k : string =>
    if String.eqb k "similar_pattern_found" then JNum 0%float
    else if String.eqb k "probability" then JNum 0.5%float else JUndef in
  getElementById (doc s) "pred-intraday-match" = Some 0%nat /\ nth_error (doc s) 0 = Some e /\
  truthy (d "similar_pattern_found") = false /\ d "probability" = JNum 0.5%float /\
  (fun _ : float => "0.50") 0.5%float <> "" /\
  exists s', updateIntradayWidget (fun _ => "") (fun _ => "0.50") (fun _ => "") (fun _ => "") s (Some d) = inr s' /\
    nth_error (doc s') 0 = Some (set_el_text ("Matches: N/A (Prob: " ++ (fun _ : float => "0.50") 0.5%float ++ ")") e).
Proof.
  intros e s d.
  assert (Hne : (fun _ : float => "0.50") 0.5%float <> "") by discriminate.
  split; [reflexivity|]. split; [reflexivity|]. split; [vm_compute; reflexivity|].
  split; [reflexivity|]. split; [exact Hne|].
  exact (X12_intraday_zero_matches (fun _ => "") (fun _ => "0.50") (fun _ => "") (fun _ => "")
           s d 0 e 0.5%float eq_refl eq_refl eq_refl eq_refl Hne).
Defined.

(** X13 on a widget of two tabs, the second one clicked, beside an element
    outside the widget. *)
Lemma X13_witness :
  let d := [mk_el "btn-a" "" ["tab-button"; "active"] (Some "pane-a");
            mk_el "btn-b" "" ["tab-button"] (Some "pane-b");
            mk_el "pane-a" "" ["tab-content"; "active"] None;
            mk_el "pane-b" "" ["tab-content"] None;
            mk_el "header" "" ["active"] None] in
  (1 < List.length d)%nat /\
  let d' := tab_click [0%nat; 1%nat] [2%nat; 3%nat] 1%nat d in
  let target := getElementById d (dataset_tab d 1) in
  List.length d' = List.length d /\
  (exists e, nth_error d' 1 = Some e /\ In "active" (el_classes e)) /\
  (forall t, target = Some t -> exists e, nth_error d' t = Some e /\ In "active" (el_classes e)) /\
  (forall q e, In q ([0%nat; 1%nat] ++ [2%nat; 3%nat]) -> q <> 1%nat -> target <> Some q ->
     nth_error d' q = Some e -> ~ In "active" (el_classes e)) /\
  (forall q, ~ In q ([0%nat; 1%nat] ++ [2%nat; 3%nat]) -> q <> 1%nat -> target <> Some q ->
     nth_error d' q = nth_error d q).
Proof.
  intros d. assert (Hl : (1 < List.length d)%nat) by (simpl; lia).
  split; [exact Hl|].
  exact (X13_tab_click [0%nat; 1%nat] [2%nat; 3%nat] 1%nat d Hl).
Defined.
